(** * Independent Reserve connector: authentication, normalisation and symbol map

    A shallow embedding of the Independent Reserve connector of hummingbot
    ([independentreserve_auth.py], [independentreserve_order_book.py],
    [independentreserve_api_order_book_data_source.py]).

    Conventions of the embedding:
    - Python [str] values are Rocq strings holding their UTF-8 bytes, so
      [str.encode("utf8")] is the list of those bytes; [lower]/[upper] act on
      ASCII letters (all strings they are applied to here are ASCII codes).
    - A Python [dict] is an association list in iteration (insertion) order;
      item assignment replaces an existing key in place and appends otherwise.
    - Decoded JSON values are [json]; numbers are rationals (the float
      rounding of Python arithmetic is not modelled).
    - Exceptions are the [Err] branch of the [res] monad. *)

From Stdlib Require Import String Ascii List ZArith QArith Qround Lia Lqa Bool.
Import ListNotations.
Open Scope string_scope.
Set Warnings "-register-all".

(* ------------------------------------------------------------------ *)
(** ** Python values, errors and the error monad *)

Inductive py_error : Type :=
| KeyError
| TypeError
| IndexError
| ValueError
| AttributeError
| UnboundLocalError
| OverflowError
| ValueDuplicationError.

Inductive res (A : Type) : Type :=
| Ok (a : A)
| Err (e : py_error).
Arguments Ok {A} a.
Arguments Err {A} e.

Definition bind {A B : Type} (r : res A) (f : A -> res B) : res B :=
  match r with
  | Ok a => f a
  | Err e => Err e
  end.

Notation "x <- r ;; f" := (bind r (fun x => f))
  (at level 61, r at next level, right associativity).

Inductive json : Type :=
| JNull
| JBool (b : bool)
| JNum (q : Q)
| JStr (s : string)
| JArr (l : list json)
| JObj (kvs : list (string * json)).

(** [d.get(k)] on an association list: the first binding of [k]. *)
Fixpoint dict_get {A : Type} (k : string) (d : list (string * A)) : option A :=
  match d with
  | [] => None
  | (k', v) :: d' => if String.eqb k k' then Some v else dict_get k d'
  end.

(** [d[k]] raising [KeyError]. *)
Definition dict_getitem {A : Type} (d : list (string * A)) (k : string) : res A :=
  match dict_get k d with
  | Some v => Ok v
  | None => Err KeyError
  end.

(** [d[k] = v]: replace in place when [k] is present, append otherwise. *)
Fixpoint dict_set {A : Type} (k : string) (v : A) (d : list (string * A))
  : list (string * A) :=
  match d with
  | [] => [(k, v)]
  | (k', v') :: d' =>
      if String.eqb k k' then (k', v) :: d' else (k', v') :: dict_set k v d'
  end.

(** [d.update(m)] *)
Definition dict_update {A : Type} (d m : list (string * A)) : list (string * A) :=
  fold_left (fun acc kv => dict_set (fst kv) (snd kv) acc) m d.

Definition dict_has {A : Type} (k : string) (d : list (string * A)) : bool :=
  match dict_get k d with Some _ => true | None => false end.

(** [l[i]] for a non-negative literal index. *)
Definition list_index {A : Type} (l : list A) (i : nat) : res A :=
  match nth_error l i with
  | Some x => Ok x
  | None => Err IndexError
  end.

(** [v == s] for a string literal [s]: only a [str] equals a [str]. *)
Definition py_eq_str (v : json) (s : string) : bool :=
  match v with
  | JStr t => String.eqb t s
  | _ => false
  end.

(** [v in [s1; ...; sn]] for a list of string literals. *)
Definition py_in_strs (v : json) (l : list string) : bool :=
  existsb (py_eq_str v) l.

Fixpoint is_prefix (p s : string) : bool :=
  match p, s with
  | EmptyString, _ => true
  | String a p', String b s' => Ascii.eqb a b && is_prefix p' s'
  | String _ _, EmptyString => false
  end.

Fixpoint is_substring (p s : string) : bool :=
  is_prefix p s ||
  match s with
  | EmptyString => false
  | String _ s' => is_substring p s'
  end.

(** [s in c] for a string [s]: key membership for a dict, element
    membership for a list, substring test for a str. *)
Definition py_in_str (s : string) (c : json) : res bool :=
  match c with
  | JObj kvs => Ok (dict_has s kvs)
  | JArr l => Ok (existsb (fun v => py_eq_str v s) l)
  | JStr t => Ok (is_substring s t)
  | _ => Err TypeError
  end.

(** [str.split(sep)] for a one-character separator. *)
Fixpoint py_split (sep : ascii) (s : string) : list string :=
  match s with
  | EmptyString => [""]
  | String c rest =>
      let parts := py_split sep rest in
      if Ascii.eqb c sep then "" :: parts
      else match parts with
           | p :: ps => String c p :: ps
           | [] => [String c ""]
           end
  end.

Definition lower_char (c : ascii) : ascii :=
  let n := nat_of_ascii c in
  if (65 <=? n)%nat && (n <=? 90)%nat then ascii_of_nat (n + 32) else c.

Definition upper_char (c : ascii) : ascii :=
  let n := nat_of_ascii c in
  if (97 <=? n)%nat && (n <=? 122)%nat then ascii_of_nat (n - 32) else c.

Fixpoint str_map (f : ascii -> ascii) (s : string) : string :=
  match s with
  | EmptyString => EmptyString
  | String c s' => String (f c) (str_map f s')
  end.

(** [str.lower()] and [str.upper()] *)
Definition py_lower := str_map lower_char.
Definition py_upper := str_map upper_char.

(** [str.capitalize()]: the first character upper-cased, the rest lower-cased. *)
Definition py_capitalize (s : string) : string :=
  match s with
  | EmptyString => EmptyString
  | String c s' => String (upper_char c) (py_lower s')
  end.

(** [str(n)] for a Python int. *)
Fixpoint dec_digits (fuel : nat) (n : Z) (acc : string) : string :=
  match fuel with
  | O => acc
  | S f =>
      let acc' := String (ascii_of_nat (48 + Z.to_nat (n mod 10))) acc in
      if (n / 10 =? 0)%Z then acc' else dec_digits f (n / 10) acc'
  end.

Definition z_to_dec (z : Z) : string :=
  let fuel := S (Z.to_nat (Z.log2 (Z.abs z))) in
  if (z <? 0)%Z then "-" ++ dec_digits fuel (- z) "" else dec_digits fuel z "".

(** [int(x)] of a float [x]: truncation toward zero. *)
Definition py_int_of_float (q : Q) : Z := Z.quot (Qnum q) (Zpos (Qden q)).

(* ------------------------------------------------------------------ *)
(** ** SHA-256 and HMAC-SHA256 (FIPS 180-4, RFC 2104)

    The library functions behind [hmac.new(key, msg, hashlib.sha256)]; the
    authenticator below is stated for any HMAC function and this one is the
    instance used to evaluate it on concrete requests. *)

Module Sha256.

Open Scope list_scope.
Open Scope Z_scope.

Definition mask32 : Z := 2 ^ 32 - 1.
Definition add32 (a b : Z) : Z := (a + b) mod 2 ^ 32.
Definition rotr (x : Z) (n : Z) : Z :=
  Z.land (Z.lor (Z.shiftr x n) (Z.shiftl x (32 - n))) mask32.

Definition bsig0 (a : Z) : Z := Z.lxor (Z.lxor (rotr a 2) (rotr a 13)) (rotr a 22).
Definition bsig1 (e : Z) : Z := Z.lxor (Z.lxor (rotr e 6) (rotr e 11)) (rotr e 25).
Definition ssig0 (x : Z) : Z := Z.lxor (Z.lxor (rotr x 7) (rotr x 18)) (Z.shiftr x 3).
Definition ssig1 (x : Z) : Z := Z.lxor (Z.lxor (rotr x 17) (rotr x 19)) (Z.shiftr x 10).
Definition ch (e f g : Z) : Z := Z.lxor (Z.land e f) (Z.land (Z.lxor e mask32) g).
Definition maj (a b c : Z) : Z := Z.lxor (Z.lxor (Z.land a b) (Z.land a c)) (Z.land b c).

Definition is_prime (p : Z) : bool :=
  (1 <? p) && forallb (fun d => negb (p mod d =? 0)) (map Z.of_nat (seq 2 (Z.to_nat p - 2))).

(** The first [n] primes (all below 320 for [n <= 64]). *)
Definition first_primes (n : nat) : list Z :=
  firstn n (filter is_prime (map Z.of_nat (seq 2 318))).

(** Integer cube root by bisection: the largest [x] in [lo, hi) with
    [x ^ 3 <= n]. *)
Fixpoint icbrt_search (fuel : nat) (lo hi n : Z) : Z :=
  match fuel with
  | O => lo
  | S f =>
      if hi - lo <=? 1 then lo
      else let mid := (lo + hi) / 2 in
           if mid ^ 3 <=? n then icbrt_search f mid hi n else icbrt_search f lo mid n
  end.

(** Round constants: the first 32 bits of the fractional parts of the cube
    roots of the first 64 primes. *)
Definition K : list Z := Eval vm_compute in
  map (fun q => icbrt_search 64 0 (2 ^ 35) (q * 2 ^ 96) mod 2 ^ 32) (first_primes 64).

(** Initial hash value: the first 32 bits of the fractional parts of the
    square roots of the first 8 primes. *)
Definition H0 : list Z := Eval vm_compute in
  map (fun q => Z.sqrt (q * 2 ^ 64) mod 2 ^ 32) (first_primes 8).

(** Big-endian bytes of [x], [n] of them. *)
Fixpoint be_bytes (n : nat) (x : Z) : list Z :=
  match n with
  | O => []
  | S n' => be_bytes n' (Z.shiftr x 8) ++ [Z.land x 255]
  end.

Definition pad (m : list Z) : list Z :=
  let len := Z.of_nat (length m) in
  m ++ [128] ++ repeat 0 (Z.to_nat ((55 - len) mod 64)) ++ be_bytes 8 (8 * len).

Fixpoint words (fuel : nat) (b : list Z) : list Z :=
  match fuel, b with
  | S f, b0 :: b1 :: b2 :: b3 :: b' =>
      (b0 * 2 ^ 24 + b1 * 2 ^ 16 + b2 * 2 ^ 8 + b3) :: words f b'
  | _, _ => []
  end.

(** Message schedule, newest word first. *)
Fixpoint sched (n : nat) (w : list Z) : list Z :=
  match n with
  | O => w
  | S n' =>
      match w with
      | _ :: w2 :: _ :: _ :: _ :: _ :: w7 :: _ :: _ :: _ :: _ :: _ :: _ :: _ :: w15 :: w16 :: _ =>
          sched n' (add32 (add32 (ssig1 w2) w7) (add32 (ssig0 w15) w16) :: w)
      | _ => w
      end
  end.

Definition round (st : list Z) (kw : Z * Z) : list Z :=
  match st with
  | [a; b; c; d; e; f; g; h] =>
      let t1 := add32 (add32 (add32 h (bsig1 e)) (add32 (ch e f g) (fst kw))) (snd kw) in
      let t2 := add32 (bsig0 a) (maj a b c) in
      [add32 t1 t2; a; b; c; add32 d t1; e; f; g]
  | _ => st
  end.

Definition compress (hs : list Z) (block : list Z) : list Z :=
  let w := rev (sched 48 (rev (words 16 block))) in
  map (fun p => add32 (fst p) (snd p)) (combine hs (fold_left round (combine K w) hs)).

Fixpoint blocks (fuel : nat) (m : list Z) : list (list Z) :=
  match fuel with
  | O => []
  | S f =>
      match m with
      | [] => []
      | _ => firstn 64 m :: blocks f (skipn 64 m)
      end
  end.

Definition sha256 (m : list Z) : list Z :=
  let p := pad m in
  flat_map (be_bytes 4) (fold_left compress (blocks (length p) p) H0).

Definition hmac (key m : list Z) : list Z :=
  let k := if (64 <? Z.of_nat (length key))%Z then sha256 key else key in
  let k' := k ++ repeat 0 (64 - length k)%nat in
  sha256 (map (Z.lxor 92) k' ++ sha256 (map (Z.lxor 54) k' ++ m)).

Definition hmac_sha256 (key m : list ascii) : list ascii :=
  let to_z := map (fun c => Z.of_nat (nat_of_ascii c)) in
  map (fun z => ascii_of_nat (Z.to_nat z)) (hmac (to_z key) (to_z m)).

End Sha256.

(* ------------------------------------------------------------------ *)
(** ** [IndependentreserveAuth] *)

Module Auth.

(** Values a request parameter can hold. *)
Inductive pyval : Type :=
| PStr (s : string)
| PInt (z : Z)
| PBool (b : bool)
| PNone.

(** [str(v)], used by the f-string [f"{key}={params[key]}"]. *)
Definition py_str (v : pyval) : string :=
  match v with
  | PStr s => s
  | PInt z => z_to_dec z
  | PBool true => "True"
  | PBool false => "False"
  | PNone => "None"
  end.

Definition pyval_to_json (v : pyval) : json :=
  match v with
  | PStr s => JStr s
  | PInt z => JNum (inject_Z z)
  | PBool b => JBool b
  | PNone => JNull
  end.

Definition params_t := list (string * pyval).

(** [params[key]] for a key produced by iterating [params]. *)
Definition param_value (params : params_t) (key : string) : pyval :=
  match dict_get key params with Some v => v | None => PNone end.

(** [if params:] *)
Definition truthy_params (params : option params_t) : list string :=
  match params with
  | Some ((_ :: _) as p) => map fst p
  | _ => []
  end.

Definition params_of (params : option params_t) : params_t :=
  match params with Some p => p | None => [] end.

(** [str.encode("utf8")]: a string already holds its UTF-8 bytes. *)
Definition encode_utf8 (s : string) : list ascii := list_ascii_of_string s.

Definition hex_digit_lower (n : nat) : ascii :=
  if (n <? 10)%nat then ascii_of_nat (48 + n) else ascii_of_nat (87 + n).

(** [hmac.new(...).hexdigest()]: two lower-case hex digits per byte. *)
Fixpoint hexdigest (d : list ascii) : string :=
  match d with
  | [] => ""
  | b :: d' =>
      let n := nat_of_ascii b in
      String (hex_digit_lower (n / 16)) (String (hex_digit_lower (n mod 16)) (hexdigest d'))
  end.

Record IndependentreserveAuth := {
  api_key : string;
  secret_key : string
}.

Inductive RESTMethod := GET | POST | PUT | DELETE.

Record RESTRequest := {
  method : RESTMethod;
  url : string;
  params : option params_t;
  (** the body: the members of the object [json.dumps] writes, in order *)
  data : option (list (string * json));
  headers : option (list (string * string))
}.

Section WithHmac.

(** [hmac.new(key, msg, hashlib.sha256).digest()]: key bytes, message bytes,
    digest bytes. *)
Variable hmac_sha256 : list ascii -> list ascii -> list ascii.

Definition _generate_signature (a : IndependentreserveAuth) (params : string) : string :=
  py_upper (hexdigest (hmac_sha256 (encode_utf8 (secret_key a)) (encode_utf8 params))).

(** The message list built by [add_auth_to_data] before the join. *)
Definition request_params_of (a : IndependentreserveAuth) (timestamp : Z)
    (url : string) (params : option params_t) : list string :=
  fold_left (fun acc key => app acc [key ++ "=" ++ py_str (param_value (params_of params) key)])
    (truthy_params params)
    [url; "apiKey=" ++ api_key a; "nonce=" ++ z_to_dec timestamp].

Definition add_auth_message (a : IndependentreserveAuth) (timestamp : Z)
    (url : string) (params : option params_t) : string :=
  String.concat "," (request_params_of a timestamp url params).

(** [add_auth_to_data], with [timestamp = int(self.time_provider.time() * 1e3)]
    given as an argument. *)
Definition add_auth_to_data (a : IndependentreserveAuth) (timestamp : Z)
    (url : string) (params : option params_t) : list (string * json) :=
  let signature := _generate_signature a (add_auth_message a timestamp url params) in
  let data0 := [("apiKey", JStr (api_key a));
                ("nonce", JStr (z_to_dec timestamp));
                ("signature", JStr signature)] in
  fold_left (fun d key => dict_set key (pyval_to_json (param_value (params_of params) key)) d)
    (truthy_params params) data0.

Definition header_for_authentication : list (string * string) :=
  [("Content-Type", "application/json")].

(** [rest_authenticate]; [now] is [self.time_provider.time()]. Both branches
    of the [POST] test sign [request.params]. *)
Definition rest_authenticate (a : IndependentreserveAuth) (now : Q) (request : RESTRequest)
  : RESTRequest :=
  let timestamp := py_int_of_float (now * 1000) in
  let data' :=
    match method request with
    | POST => add_auth_to_data a timestamp (url request) (params request)
    | _ => add_auth_to_data a timestamp (url request) (params request)
    end in
  let hs := match headers request with
            | Some h => dict_update [] h
            | None => []
            end in
  {| method := method request;
     url := url request;
     params := params request;
     data := Some data';
     headers := Some (dict_update hs header_for_authentication) |}.

End WithHmac.

End Auth.

(** The signing scheme as the specification describes it (§4.2), to be
    compared with [Auth.add_auth_to_data]. *)
Module AuthSpec.
Import Auth.

Definition hex_digit_upper (n : nat) : ascii :=
  if (n <? 10)%nat then ascii_of_nat (48 + n) else ascii_of_nat (55 + n).

(** Hex encoding with upper-case digits. *)
Fixpoint hex_upper (d : list ascii) : string :=
  match d with
  | [] => ""
  | b :: d' =>
      let n := nat_of_ascii b in
      String (hex_digit_upper (n / 16)) (String (hex_digit_upper (n mod 16)) (hex_upper d'))
  end.

(** [[fullUrl, "apiKey=" + key, "nonce=" + timestamp]], then one
    ["<key>=<value>"] per parameter, joined with commas. *)
Definition spec_message (url key : string) (nonce : Z) (params : params_t) : string :=
  String.concat ","
    (app [url; "apiKey=" ++ key; "nonce=" ++ z_to_dec nonce]
         (map (fun kv => fst kv ++ "=" ++ py_str (snd kv)) params)).

End AuthSpec.

(** Concrete requests used to evaluate the authenticator. *)
Module AuthInputs.
Import Auth.

Definition test_auth : IndependentreserveAuth :=
  {| api_key := "TEST_API_KEY"; secret_key := "TEST_SECRET" |}.

Definition get_trades_request : RESTRequest :=
  {| method := POST;
     url := "https://api.independentreserve.com/Private/GetTrades";
     params := Some [("pageIndex", PInt 1); ("pageSize", PInt 50)];
     data := None;
     headers := None |}.

(** A request carrying a parameter named like an authentication field. *)
Definition nonce_param_request : RESTRequest :=
  {| method := POST;
     url := "https://api.independentreserve.com/Private/GetTrades";
     params := Some [("nonce", PStr "5")];
     data := None;
     headers := None |}.

End AuthInputs.

(* ------------------------------------------------------------------ *)
(** ** Python library pieces used by the order-book normaliser *)

(** [datetime] values as microseconds since 0001-01-01T00:00:00. *)
Module Datetime.

Open Scope Z_scope.

Definition is_leap (y : Z) : bool :=
  (Z.eqb (y mod 4) 0 && negb (Z.eqb (y mod 100) 0)) || Z.eqb (y mod 400) 0.

Definition days_in_month (y m : Z) : Z :=
  match m with
  | 2 => if is_leap y then 29 else 28
  | 4 | 6 | 9 | 11 => 30
  | _ => 31
  end.

Definition days_before_year (y : Z) : Z :=
  let y' := y - 1 in 365 * y' + y' / 4 - y' / 100 + y' / 400.

Definition days_before_month (y m : Z) : Z :=
  fold_left (fun acc k => acc + days_in_month y (Z.of_nat k)) (seq 1 (Z.to_nat (m - 1))) 0.

Definition us_per_day : Z := 86400 * 1000000.

(** One past [datetime.max]. *)
Definition max_dt : Z := days_before_year 10000 * us_per_day.

Definition digit (c : ascii) : option Z :=
  let n := nat_of_ascii c in
  if (48 <=? n)%nat && (n <=? 57)%nat then Some (Z.of_nat n - 48) else None.

Definition num2 (a b : ascii) : option Z :=
  match digit a, digit b with
  | Some x, Some y => Some (10 * x + y)
  | _, _ => None
  end.

(** [datetime.strptime(s, '%Y-%m-%dT%H:%M:%S')] for zero-padded fields. *)
Definition strptime_iso (s : string) : res Z :=
  match list_ascii_of_string s with
  | [y1; y2; y3; y4; "-"; m1; m2; "-"; d1; d2; "T"; h1; h2; ":"; i1; i2; ":"; s1; s2]%char =>
      match num2 y1 y2, num2 y3 y4, num2 m1 m2, num2 d1 d2, num2 h1 h2, num2 i1 i2, num2 s1 s2 with
      | Some ya, Some yb, Some mo, Some d, Some h, Some mi, Some se =>
          let y := 100 * ya + yb in
          if (1 <=? y) && (1 <=? mo) && (mo <=? 12) && (1 <=? d) && (d <=? days_in_month y mo)
             && (h <? 24) && (mi <? 60) && (se <? 60)
          then Ok ((days_before_year y + days_before_month y mo + d - 1) * us_per_day
                   + ((h * 60 + mi) * 60 + se) * 1000000)
          else Err ValueError
      | _, _, _, _, _, _, _ => Err ValueError
      end
  | _ => Err ValueError
  end.

(** [t + timedelta(microseconds=us)], raising outside [datetime]'s range. *)
Definition dt_add_checked (t us : Z) : res Z :=
  let r := t + us in
  if (0 <=? r) && (r <? max_dt) then Ok r else Err OverflowError.

End Datetime.

Inductive TradeType := BUY | SELL.

(** The library behaviour the normaliser is parametric in: [strptime] and
    datetime addition, [str()] of a decoded JSON value (Python's float
    [repr] is not modelled) and the numeric value of [TradeType]. *)
Record PyLib := {
  strptime : string -> res Z;
  dt_add : Z -> Z -> res Z;
  py_str : json -> string;
  trade_type_value : TradeType -> Q
}.

(** Decimal expansion of a rational with at most [k] fraction digits. *)
Definition frac_digits (k : nat) (q : Q) : string :=
  let n := Qnum q in
  let d := Zpos (Qden q) in
  let ip := Z.quot n d in
  let scaled := (Z.abs (Z.rem n d) * 10 ^ Z.of_nat k / d)%Z in
  let fs := dec_digits k scaled "" in
  let fs := String.concat "" (repeat "0" (k - String.length fs)) ++ fs in
  (if (n <? 0)%Z && (ip =? 0)%Z then "-" else "") ++ z_to_dec ip ++ "." ++ fs.

Definition json_str (v : json) : string :=
  match v with
  | JStr s => s
  | JBool true => "True"
  | JBool false => "False"
  | JNull => "None"
  | JNum q => if (Zpos (Qden q) =? 1)%Z then z_to_dec (Qnum q) else frac_digits 6 q
  | JArr _ => "[...]"
  | JObj _ => "{...}"
  end.

(** The instance used to evaluate the normaliser on concrete payloads; the
    [TradeType] values are hummingbot's ([BUY = 1], [SELL = 2]). *)
Definition pylib : PyLib :=
  {| strptime := Datetime.strptime_iso;
     dt_add := Datetime.dt_add_checked;
     py_str := json_str;
     trade_type_value := fun t => match t with BUY => 1 | SELL => 2 end |}.

Definition is_space (c : ascii) : bool :=
  let n := nat_of_ascii c in
  ((9 <=? n) && (n <=? 13))%nat || ((28 <=? n) && (n <=? 32))%nat.

Fixpoint drop_spaces (l : list ascii) : list ascii :=
  match l with
  | c :: l' => if is_space c then drop_spaces l' else l
  | [] => []
  end.

(** [str.strip()] on ASCII whitespace. *)
Definition strip (l : list ascii) : list ascii := rev (drop_spaces (rev (drop_spaces l))).

(** Digits with single underscores between them, as [int()] accepts. *)
Fixpoint digits_us (l : list ascii) (acc : Z) (after_digit : bool) : option Z :=
  match l with
  | [] => if after_digit then Some acc else None
  | c :: l' =>
      match Datetime.digit c with
      | Some d => digits_us l' (acc * 10 + d) true
      | None => if Ascii.eqb c "_" && after_digit then digits_us l' acc false else None
      end
  end.

(** [int(s)] for a [str]. *)
Definition py_int (s : string) : res Z :=
  let r := match strip (list_ascii_of_string s) with
           | "+"%char :: l => digits_us l 0 false
           | "-"%char :: l => option_map Z.opp (digits_us l 0 false)
           | l => digits_us l 0 false
           end in
  match r with Some z => Ok z | None => Err ValueError end.

(** [s[:-1]] *)
Definition drop_last (s : string) : string :=
  string_of_list_ascii (removelast (list_ascii_of_string s)).

(** The integer nearest to [n / d] ([d > 0]), ties to even. *)
Definition round_half_even_div (n d : Z) : Z :=
  let q := (n / d)%Z in
  let r := (n mod d)%Z in
  if (2 * r <? d)%Z then q
  else if (d <? 2 * r)%Z then (q + 1)%Z
  else if Z.even q then q else (q + 1)%Z.

(** [n / 1000] on Python ints: the exact quotient rounded to the nearest
    double (53-bit significand, ties to even), as the pair [(m, e)] of
    value [m * 2^e]. [p] is the exponent of the leading bit of [|n| / 1000]:
    [|n|] lies in [[2^l, 2^(l+1))] for [l = log2 |n|], so [p] is [l - 9] or
    [l - 10]. *)
Definition int_div_1000_float (n : Z) : Z * Z :=
  let a := Z.abs n in
  if (a =? 0)%Z then (0%Z, 0%Z) else
  let l := (Z.log2 a - 9)%Z in
  let p := if (if (0 <=? l)%Z then (1000 * 2 ^ l <=? a)%Z else (1000 <=? a * 2 ^ (- l))%Z)
           then l else (l - 1)%Z in
  let e := (p - 52)%Z in
  let m := if (0 <=? e)%Z then round_half_even_div a (1000 * 2 ^ e)
           else round_half_even_div (a * 2 ^ (- e)) 1000 in
  ((Z.sgn n * m)%Z, e).

(** The integer nearest to the double [m * 2^e], ties to even: how
    [timedelta] rounds a float [microseconds] argument. *)
Definition round_float_half_even (m e : Z) : Z :=
  if (0 <=? e)%Z then (m * 2 ^ e)%Z else round_half_even_div m (2 ^ (- e)).

(** [timedelta(microseconds=n / 1000)]: the float quotient rounded to whole
    microseconds, within [timedelta]'s range of [+-999999999] days. *)
Definition timedelta_us (n : Z) : res Z :=
  let '(m, e) := int_div_1000_float n in
  let u := round_float_half_even m e in
  if (-86399999913600000000 <=? u)%Z && (u <=? 86399999999999999999)%Z
  then Ok u else Err OverflowError.

(** [iter(v)] for a decoded JSON value. *)
Definition py_iter (v : json) : res (list json) :=
  match v with
  | JArr l => Ok l
  | JObj kvs => Ok (map (fun kv => JStr (fst kv)) kvs)
  | JStr s => Ok (map (fun c => JStr (String c "")) (list_ascii_of_string s))
  | _ => Err TypeError
  end.

(** [v[k]] for a string key. *)
Definition py_getitem (v : json) (k : string) : res json :=
  match v with
  | JObj kvs => dict_getitem kvs k
  | _ => Err TypeError
  end.

Fixpoint map_res {A B : Type} (f : A -> res B) (l : list A) : res (list B) :=
  match l with
  | [] => Ok []
  | x :: l' => y <- f x ;; ys <- map_res f l' ;; Ok (y :: ys)
  end.

(* ------------------------------------------------------------------ *)
(** ** [IndependentreserveOrderBook]: the message normaliser *)

Module OrderBook.

Inductive OrderBookMessageType := SNAPSHOT | DIFF | TRADE.

Record OrderBookMessage := {
  message_type : OrderBookMessageType;
  content : list (string * json);
  timestamp : option Q
}.

Definition update_id (m : OrderBookMessage) : option json := dict_get "update_id" (content m).

(** [metadata]: [None] or a dict of strings (every caller passes
    [{"trading_pair": ...}]). *)
Definition metadata_t := option (list (string * string)).

Definition metadata_json (md : list (string * string)) : list (string * json) :=
  map (fun kv => (fst kv, JStr (snd kv))) md.

(** [if metadata: msg.update(metadata)] *)
Definition apply_metadata (msg : list (string * json)) (metadata : metadata_t) : list (string * json) :=
  match metadata with
  | Some ((_ :: _) as md) => dict_update msg (metadata_json md)
  | _ => msg
  end.

(** [metadata[k]]; [None] is not subscriptable. *)
Definition metadata_getitem (metadata : metadata_t) (k : string) : res string :=
  match metadata with
  | Some md => dict_getitem md k
  | None => Err TypeError
  end.

(** [msg[k1][k2]] *)
Definition get2 (msg : list (string * json)) (k1 k2 : string) : res json :=
  d <- dict_getitem msg k1 ;; py_getitem d k2.

Section WithLib.

Variable lib : PyLib.

(** Lines 116-118 (and 159-161): the timestamp [t] computed from
    [CreatedTimestampUtc]. *)
Definition parse_created_timestamp (ctu : json) : res Z :=
  match ctu with
  | JStr s =>
      let parts := py_split "." s in
      t <- strptime lib (hd "" parts) ;;
      frac <- list_index parts 1 ;;
      n <- py_int (drop_last frac) ;;
      td <- timedelta_us n ;;
      dt_add lib t td
  | _ => Err AttributeError
  end.

(** [[entry["Price"], entry["Volume"]] for entry in orders] *)
Definition price_volume_pairs (orders : json) : res (list json) :=
  items <- py_iter orders ;;
  map_res (fun e => p <- py_getitem e "Price" ;; v <- py_getitem e "Volume" ;; Ok (JArr [p; v])) items.

Definition snapshot_message_from_exchange (msg : list (string * json)) (ts : Q)
    (metadata : metadata_t) : res OrderBookMessage :=
  ctu <- dict_getitem msg "CreatedTimestampUtc" ;;
  _t <- parse_created_timestamp ctu ;;
  buys <- dict_getitem msg "BuyOrders" ;;
  bids <- price_volume_pairs buys ;;
  sells <- dict_getitem msg "SellOrders" ;;
  asks <- price_volume_pairs sells ;;
  (* [msg.update(metadata)] only changes the caller's dict *)
  tp <- metadata_getitem metadata "trading_pair" ;;
  Ok {| message_type := SNAPSHOT;
        content := [("trading_pair", JStr tp); ("update_id", JNum 0);
                    ("bids", JArr bids); ("asks", JArr asks)];
        timestamp := Some ts |}.

(** The [NewOrder] updates (lines 177-187 and 190-198). *)
Definition new_order_update (msg : list (string * json)) (tp fiat : string) (is_bid : bool)
  : res (list (string * json)) :=
  prices <- get2 msg "Data" "Price" ;;
  price <- py_getitem prices fiat ;;
  ot <- get2 msg "Data" "OrderType" ;;
  og <- get2 msg "Data" "OrderGuid" ;;
  nonce <- dict_getitem msg "Nonce" ;;
  vol <- get2 msg "Data" "Volume" ;;
  ev <- dict_getitem msg "Event" ;;
  let side := JArr [JArr [JStr (py_str lib price); JStr (py_str lib vol)]] in
  let zero := JArr [JArr [JNum 0; JNum 0]] in
  Ok [("trading_pair", JStr tp); ("order_type", ot); ("order_guid", og); ("update_id", nonce);
      ("bids", if is_bid then side else zero); ("asks", if is_bid then zero else side);
      ("event", ev)].

Definition canceled_update (msg : list (string * json)) (tp : string) : res (list (string * json)) :=
  ot <- get2 msg "Data" "OrderType" ;;
  og <- get2 msg "Data" "OrderGuid" ;;
  nonce <- dict_getitem msg "Nonce" ;;
  ev <- dict_getitem msg "Event" ;;
  Ok [("trading_pair", JStr tp); ("order_type", ot); ("order_guid", og); ("update_id", nonce);
      ("event", ev)].

Definition changed_update (msg : list (string * json)) (tp : string) : res (list (string * json)) :=
  ot <- get2 msg "Data" "OrderType" ;;
  og <- get2 msg "Data" "OrderGuid" ;;
  nonce <- dict_getitem msg "Nonce" ;;
  vol <- get2 msg "Data" "Volume" ;;
  ev <- dict_getitem msg "Event" ;;
  Ok [("trading_pair", JStr tp); ("order_type", ot); ("order_guid", og); ("update_id", nonce);
      ("price", vol); ("event", ev)].

Definition some_update (r : res (list (string * json))) : res (option (list (string * json))) :=
  u <- r ;; Ok (Some u).

(** The websocket branch: four [if]s assigning [update], which is unbound
    when none fires. *)
Definition ws_diff_update (msg : list (string * json)) (metadata : metadata_t)
  : res (list (string * json)) :=
  tp <- metadata_getitem metadata "trading_pair" ;;
  fiat0 <- list_index (py_split "-" tp) 1 ;;
  let fiat := py_lower fiat0 in
  ev <- dict_getitem msg "Event" ;;
  c1 <- (if py_eq_str ev "NewOrder"
         then ot <- get2 msg "Data" "OrderType" ;; py_in_str "LimitBid" ot else Ok false) ;;
  u1 <- (if c1 then some_update (new_order_update msg tp fiat true) else Ok None) ;;
  ev <- dict_getitem msg "Event" ;;
  c2 <- (if py_eq_str ev "NewOrder"
         then ot <- get2 msg "Data" "OrderType" ;; py_in_str "LimitOffer" ot else Ok false) ;;
  u2 <- (if c2 then some_update (new_order_update msg tp fiat false) else Ok u1) ;;
  ev <- dict_getitem msg "Event" ;;
  u3 <- (if py_eq_str ev "OrderCanceled" then some_update (canceled_update msg tp) else Ok u2) ;;
  ev <- dict_getitem msg "Event" ;;
  u4 <- (if py_eq_str ev "OrderChanged"
         then ot <- get2 msg "Data" "OrderType" ;;
              u <- (if py_in_strs ot ["MarketBid"; "LimitBid"]
                    then some_update (changed_update msg tp) else Ok u3) ;;
              ot' <- get2 msg "Data" "OrderType" ;;
              (if py_in_strs ot' ["MarketOffer"; "LimitOffer"]
               then some_update (changed_update msg tp) else Ok u)
         else Ok u3) ;;
  match u4 with
  | Some u => Ok u
  | None => Err UnboundLocalError
  end.

Definition diff_message_from_exchange (msg0 : list (string * json)) (ts : option Q)
    (metadata : metadata_t) : res OrderBookMessage :=
  let msg := apply_metadata msg0 metadata in
  if negb (dict_has "Channel" msg) then
    ctu <- dict_getitem msg "CreatedTimestampUtc" ;;
    _t <- parse_created_timestamp ctu ;;
    tp <- metadata_getitem metadata "trading_pair" ;;
    nonce <- dict_getitem msg "Nonce" ;;
    bids <- dict_getitem msg "BuyOrders" ;;
    asks <- dict_getitem msg "SellOrders" ;;
    Ok {| message_type := DIFF;
          content := [("trading_pair", JStr tp); ("update_id", nonce); ("bids", bids); ("asks", asks)];
          timestamp := ts |}
  else
    u <- ws_diff_update msg metadata ;;
    Ok {| message_type := DIFF; content := u; timestamp := ts |}.

(** [for key, value in msg["Data"]["Price"].items(): if currencies[1] == key: price = value] *)
Fixpoint select_price (currencies : list string) (items : list (string * json))
    (price : option json) : res (option json) :=
  match items with
  | [] => Ok price
  | (key, value) :: items' =>
      c <- list_index currencies 1 ;;
      select_price currencies items' (if String.eqb c key then Some value else price)
  end.

Definition trade_message_from_exchange (msg0 : list (string * json)) (metadata : metadata_t)
  : res OrderBookMessage :=
  let msg := apply_metadata msg0 metadata in
  ts <- dict_getitem msg "Time" ;;
  tpv <- dict_getitem msg "trading_pair" ;;
  currencies <- (match tpv with JStr s => Ok (py_split "-" s) | _ => Err AttributeError end) ;;
  prices <- get2 msg "Data" "Price" ;;
  items <- (match prices with JObj kvs => Ok kvs | _ => Err AttributeError end) ;;
  price <- select_price currencies items None ;;
  side <- get2 msg "Data" "Side" ;;
  let tt := JNum (trade_type_value lib (if py_eq_str side "Sell" then SELL else BUY)) in
  tid <- get2 msg "Data" "TradeGuid" ;;
  nonce <- dict_getitem msg "Nonce" ;;
  p <- (match price with Some p => Ok p | None => Err UnboundLocalError end) ;;
  amount <- get2 msg "Data" "Volume" ;;
  tsq <- (match ts with
          | JNum q => Ok (q * (1 # 1000))
          | JBool b => Ok (if b then 1 # 1000 else 0)
          | _ => Err TypeError
          end) ;;
  Ok {| message_type := TRADE;
        content := [("trading_pair", tpv); ("trade_type", tt); ("trade_id", tid);
                    ("update_id", nonce); ("price", p); ("amount", amount)];
        timestamp := Some tsq |}.

End WithLib.

End OrderBook.

(** Concrete payloads used to evaluate the normaliser. *)
Module NormInputs.

(** A trade event of the ticker channel (spec §8). *)
Definition trade_event : list (string * json) :=
  [("Channel", JStr "ticker-xbt"); ("Nonce", JNum 5); ("Event", JStr "Trade");
   ("Time", JNum 1619870400000);
   ("Data", JObj [("TradeGuid", JStr "5c8885cd-5384-4e05-b397-9f5119353e10");
                  ("Pair", JStr "xbt");
                  ("Price", JObj [("usd", JStr "100"); ("aud", JStr "140")]);
                  ("Volume", JNum (1 # 2));
                  ("Side", JStr "Buy")])].

(** A REST order-book payload. *)
Definition snapshot_payload : list (string * json) :=
  [("BuyOrders", JArr [JObj [("OrderType", JStr "LimitBid"); ("Price", JNum 74000); ("Volume", JNum (1 # 4))]]);
   ("SellOrders", JArr [JObj [("OrderType", JStr "LimitOffer"); ("Price", JNum 74100); ("Volume", JNum 2)]]);
   ("CreatedTimestampUtc", JStr "2021-05-01T12:00:00.1234567Z");
   ("PrimaryCurrencyCode", JStr "Xbt");
   ("SecondaryCurrencyCode", JStr "Aud")].

Definition xbt_aud : OrderBook.metadata_t := Some [("trading_pair", "XBT-AUD")].

End NormInputs.

(* ================================================================== *)
(* ------------------------------------------------------------------ *)
(** ** [IndependentreserveAPIOrderBookDataSource] *)

Module DataSource.

Import OrderBook.

Definition DIFF_EVENT_TYPE := "OrderBook".
Definition TRADE_EVENT_TYPE := "Trade".

(** *** [listen_for_subscriptions] *)

(** The two queues of [_message_queue] the router writes to. *)
Record queues := {
  diff_queue : list (list (string * json));
  trade_queue : list (list (string * json))
}.

Definition empty_queues : queues := {| diff_queue := []; trade_queue := [] |}.

(** [self._message_queue[key].put_nowait(data)] *)
Definition put_nowait (key : string) (data : list (string * json)) (qs : queues) : queues :=
  if String.eqb key DIFF_EVENT_TYPE
  then {| diff_queue := app (diff_queue qs) [data]; trade_queue := trade_queue qs |}
  else if String.eqb key TRADE_EVENT_TYPE
  then {| diff_queue := diff_queue qs; trade_queue := app (trade_queue qs) [data] |}
  else qs.

(** The body of the [async for] loop for one decoded message [data]: the
    queue it is put on and the dict put there, [None] when it is skipped. *)
Definition route (data : json) : res (option (string * list (string * json))) :=
  match data with
  | JObj kvs =>
      let event_type := match dict_get "Event" kvs with Some v => v | None => JNull end in
      (* [event_type in ["Heartbeat", "Subscriptions"] in data] is the chain
         [(event_type in [...]) and ([...] in data)]: a list is unhashable *)
      if py_in_strs event_type ["Heartbeat"; "Subscriptions"] then Err TypeError
      else if py_in_strs event_type ["NewOrder"; "OrderChanged"; "OrderCanceled"]
      then Ok (Some (DIFF_EVENT_TYPE, kvs))
      else if py_in_strs event_type [TRADE_EVENT_TYPE]
      then Ok (Some (TRADE_EVENT_TYPE, kvs))
      else Ok None
  | _ => Err AttributeError
  end.

(** The [async for] loop over the messages of one connection: the queues
    it fills, and the exception that ends the connection, if any (it is
    logged, and the connection is opened again). *)
Fixpoint iter_messages (msgs : list json) (qs : queues) : queues * option py_error :=
  match msgs with
  | [] => (qs, None)
  | data :: rest =>
      match route data with
      | Err e => (qs, Some e)
      | Ok None => iter_messages rest qs
      | Ok (Some (key, d)) => iter_messages rest (put_nowait key d qs)
      end
  end.

(** *** [listen_for_order_book_diffs] *)

(** The loop over the messages [json_msg] taken from the diff queue, each
    with the value [time.time()] returns for it: the messages put on
    [output], and the exceptions caught and logged, in order. *)
Fixpoint listen_for_order_book_diffs (lib : PyLib) (trading_pairs : list string)
    (items : list (Q * list (string * json))) : list OrderBookMessage * list py_error :=
  match items with
  | [] => ([], [])
  | (now, json_msg) :: rest =>
      let '(out, log) := listen_for_order_book_diffs lib trading_pairs rest in
      if dict_has "data" json_msg then (out, log)
      else
        let trading_pair := String.concat "" trading_pairs in
        match diff_message_from_exchange lib json_msg (Some now)
                (Some [("trading_pair", trading_pair)]) with
        | Ok m => (m :: out, log)
        | Err e => (out, e :: log)
        end
  end.

(** *** [listen_for_order_book_snapshots] *)

(** What one round of the loop observes for a trading pair: the decoded
    body [get_snapshot] returns (or the exception it raises), and the value
    of [time.time()] read after it. *)
Definition snapshot_source := string -> res json * Q.

(** [snapshot_message_from_exchange(snapshot, ...)] on a decoded body:
    anything but a dict fails at its first subscript. *)
Definition snapshot_of_body (lib : PyLib) (snapshot : res json) (now : Q) (trading_pair : string)
  : res OrderBookMessage :=
  s <- snapshot ;;
  match s with
  | JObj kvs => snapshot_message_from_exchange lib kvs now (Some [("trading_pair", trading_pair)])
  | _ => Err TypeError
  end.

(** One round: [for trading_pair in self._trading_pairs], each failure
    logged (and followed by a 5 s sleep). *)
Fixpoint snapshot_round (lib : PyLib) (trading_pairs : list string) (src : snapshot_source)
  : list OrderBookMessage * list py_error :=
  match trading_pairs with
  | [] => ([], [])
  | trading_pair :: rest =>
      let '(out, log) := snapshot_round lib rest src in
      let '(snapshot, now) := src trading_pair in
      match snapshot_of_body lib snapshot now trading_pair with
      | Ok m => (m :: out, log)
      | Err e => (out, e :: log)
      end
  end.

(** The [while True] loop, one round per hour: the snapshot messages put on
    [output] and the errors logged. *)
Fixpoint listen_for_order_book_snapshots (lib : PyLib) (trading_pairs : list string)
    (rounds : list snapshot_source) : list OrderBookMessage * list py_error :=
  match rounds with
  | [] => ([], [])
  | src :: rounds' =>
      let '(out1, log1) := snapshot_round lib trading_pairs src in
      let '(out2, log2) := listen_for_order_book_snapshots lib trading_pairs rounds' in
      (app out1 out2, app log1 log2)
  end.

(** *** [get_last_traded_prices] *)

Definition REST_URL := "https://api.independentreserve.{}".
Definition PUBLIC_API_VERSION := "/Public".
Definition TICKER_PRICE_CHANGE_PATH_URL :=
  "/GetRecentTrades?primaryCurrencyCode={}&secondaryCurrencyCode={}&numberOfRecentTradesToRetrieve=50".

(** [fmt.format(a, b, ...)] with automatic [{}] fields and the [{{], [}}]
    escapes (numbered and named fields are not modelled). *)
Fixpoint py_format_l (s : list ascii) (args : list string) : res string :=
  match s with
  | [] => Ok ""
  | "{"%char :: "{"%char :: s' => r <- py_format_l s' args ;; Ok (String "{" r)
  | "}"%char :: "}"%char :: s' => r <- py_format_l s' args ;; Ok (String "}" r)
  | "{"%char :: "}"%char :: s' =>
      match args with
      | a :: args' => r <- py_format_l s' args' ;; Ok (a ++ r)
      | [] => Err IndexError
      end
  | "{"%char :: _ => Err ValueError
  | "}"%char :: _ => Err ValueError
  | c :: s' => r <- py_format_l s' args ;; Ok (String c r)
  end.

Definition py_format (fmt : string) (args : list string) : res string :=
  py_format_l (list_ascii_of_string fmt) args.

(** [independentreserve_utils.public_rest_url] *)
Definition public_rest_url (path_url : string) (symbols : option (list string)) (domain : string)
  : res string :=
  base <- py_format REST_URL [domain] ;;
  match symbols with
  | None | Some [] => Ok (base ++ PUBLIC_API_VERSION ++ path_url)
  | Some syms =>
      s0 <- list_index syms 0 ;;
      s1 <- list_index syms 1 ;;
      p <- py_format path_url [s0; s1] ;;
      Ok (base ++ PUBLIC_API_VERSION ++ p)
  end.

(** A REST response: its status and its decoded JSON body. *)
Record RESTResponse := { status : Z; body : json }.

(** [v[i]] for a non-negative integer index. *)
Definition py_index (v : json) (i : nat) : res json :=
  match v with
  | JArr l => list_index l i
  | JStr s => match nth_error (list_ascii_of_string s) i with
              | Some c => Ok (JStr (String c ""))
              | None => Err IndexError
              end
  | JObj _ => Err KeyError
  | _ => Err TypeError
  end.

Fixpoint digits_val (l : list ascii) (acc : Z) : option Z :=
  match l with
  | [] => Some acc
  | c :: l' => match Datetime.digit c with
               | Some d => digits_val l' (acc * 10 + d)%Z
               | None => None
               end
  end.

(** A decimal [ddd.ddd] (at least one digit). *)
Definition unsigned_decimal (l : list ascii) : option Q :=
  match py_split "." (string_of_list_ascii l) with
  | [i] =>
      match list_ascii_of_string i with
      | [] => None
      | li => option_map inject_Z (digits_val li 0)
      end
  | [i; f] =>
      let li := list_ascii_of_string i in
      let lf := list_ascii_of_string f in
      match li, lf with
      | [], [] => None
      | _, _ =>
          match digits_val li 0, digits_val lf 0 with
          | Some a, Some b =>
              let d := (10 ^ Z.of_nat (length lf))%Z in
              Some (Qmake (a * d + b) (Z.to_pos d))
          | _, _ => None
          end
      end
  | _ => None
  end.

(** [float(v)]; for a [str], the signed decimal forms (exponents, [inf]
    and [nan] are not modelled and read as [ValueError]). *)
Definition py_float (v : json) : res Q :=
  match v with
  | JNum q => Ok q
  | JBool b => Ok (if b then 1 else 0)
  | JStr s =>
      let r := match strip (list_ascii_of_string s) with
               | "+"%char :: l => unsigned_decimal l
               | "-"%char :: l => option_map Qopp (unsigned_decimal l)
               | l => unsigned_decimal l
               end in
      match r with Some q => Ok q | None => Err ValueError end
  | _ => Err TypeError
  end.

(** [float(resp_json["Trades"][0]["SecondaryCurrencyTradePrice"])] *)
Definition recent_trade_price (resp_json : json) : res Q :=
  trades <- py_getitem resp_json "Trades" ;;
  t0 <- py_index trades 0 ;;
  p <- py_getitem t0 "SecondaryCurrencyTradePrice" ;;
  py_float p.

(** [_get_last_traded_price]; [call] is the exchange's answer to a GET of
    a URL. A status other than 200 falls off the end: [None]. *)
Definition _get_last_traded_price (trading_pair domain : string) (call : string -> RESTResponse)
  : res (option Q) :=
  let currencyCodes := py_split "-" trading_pair in
  url <- public_rest_url TICKER_PRICE_CHANGE_PATH_URL (Some currencyCodes) domain ;;
  let resp := call url in
  if (status resp =? 200)%Z
  then q <- recent_trade_price (body resp) ;; Ok (Some q)
  else Ok None.

(** [safe_gather] re-raises the first exception; the dict comprehension
    over [zip(trading_pairs, results)]. *)
Definition get_last_traded_prices (trading_pairs : list string) (domain : string)
    (call : string -> RESTResponse) : res (list (string * option Q)) :=
  results <- map_res (fun t_pair => _get_last_traded_price t_pair domain call) trading_pairs ;;
  Ok (fold_left (fun d pr => dict_set (fst pr) (snd pr) d) (combine trading_pairs results) []).

(** *** The trading-pair symbol map *)

(** A [bidict] from [(primary, secondary)] keys to ["primary-secondary"]
    values, in insertion order. *)
Definition bidict := list ((string * string) * string).

Definition key_eqb (k k' : string * string) : bool :=
  String.eqb (fst k) (fst k') && String.eqb (snd k) (snd k').

(** [m[k]] *)
Fixpoint bidict_get (k : string * string) (m : bidict) : option string :=
  match m with
  | [] => None
  | (k', v) :: m' => if key_eqb k k' then Some v else bidict_get k m'
  end.

(** [m.inverse[v]] *)
Fixpoint bidict_inv (v : string) (m : bidict) : option (string * string) :=
  match m with
  | [] => None
  | (k, v') :: m' => if String.eqb v v' then Some k else bidict_inv v m'
  end.

Fixpoint bidict_replace (k : string * string) (v : string) (m : bidict) : bidict :=
  match m with
  | [] => []
  | (k', v') :: m' => if key_eqb k k' then (k', v) :: m' else (k', v') :: bidict_replace k v m'
  end.

(** [m[k] = v]: re-inserting an item is a no-op; a value already bound to
    another key raises [ValueDuplicationError]; a bound key is overwritten. *)
Definition bidict_setitem (k : string * string) (v : string) (m : bidict) : res bidict :=
  match bidict_get k m with
  | Some v' =>
      if String.eqb v v' then Ok m
      else match bidict_inv v m with
           | Some _ => Err ValueDuplicationError
           | None => Ok (bidict_replace k v m)
           end
  | None =>
      match bidict_inv v m with
      | Some _ => Err ValueDuplicationError
      | None => Ok (app m [(k, v)])
      end
  end.

(** [cls._trading_pair_symbol_map]: domain to [bidict]. *)
Definition symbol_maps := list (string * bidict).

(** The outcome of one currency-code request: an exception, or a status
    with the decoded list of codes (the [Err] of a failed [response.json()]). *)
Inductive fetch :=
| FetchRaises
| FetchResponse (st : Z) (data : res (list string)).

(** The value [primary_data] / [secondary_data] is bound to, if any: only a
    200 response whose body decodes binds it, every exception is caught. *)
Definition bound_data (f : fetch) : option (list string) :=
  match f with
  | FetchResponse st (Ok l) => if (st =? 200)%Z then Some l else None
  | _ => None
  end.

(** [for pair in all_currency_codes: mapping[pair] = f"{pair[0]}-{pair[1]}"] *)
Definition build_mapping (all_currency_codes : list (string * string)) : res bidict :=
  fold_left (fun acc pair => m <- acc ;; bidict_setitem pair (fst pair ++ "-" ++ snd pair) m)
    all_currency_codes (Ok []).

(** [_init_trading_pair_symbols]: the result and the class map after it. *)
Definition _init_trading_pair_symbols (st : symbol_maps) (domain : string) (primary secondary : fetch)
  : res unit * symbol_maps :=
  match bound_data primary, bound_data secondary with
  | Some primary_data, Some secondary_data =>
      match build_mapping (list_prod primary_data secondary_data) with
      | Ok mapping => (Ok tt, dict_set domain mapping st)
      | Err e => (Err e, st)
      end
  | _, _ => (Err UnboundLocalError, st)
  end.

Definition trading_pair_symbol_map_ready (st : symbol_maps) (domain : string) : bool :=
  match dict_get domain st with
  | Some m => Nat.ltb 0 (length m)
  | None => false
  end.

(** [trading_pair_symbol_map]: the check, the second check under the lock
    (a single caller is modelled), the initialisation, the lookup. *)
Definition trading_pair_symbol_map (st : symbol_maps) (domain : string) (primary secondary : fetch)
  : res bidict * symbol_maps :=
  let '(r, st') :=
    if trading_pair_symbol_map_ready st domain then (Ok tt, st)
    else if trading_pair_symbol_map_ready st domain then (Ok tt, st)
    else _init_trading_pair_symbols st domain primary secondary in
  match r with
  | Ok _ => (dict_getitem st' domain, st')
  | Err e => (Err e, st')
  end.

(** [symbol_map.inverse[trading_pair]] *)
Definition exchange_symbol_associated_to_pair (st : symbol_maps) (trading_pair domain : string)
    (primary secondary : fetch) : res (string * string) * symbol_maps :=
  let '(r, st') := trading_pair_symbol_map st domain primary secondary in
  (m <- r ;; match bidict_inv trading_pair m with Some k => Ok k | None => Err KeyError end, st').

(** [symbol_map[symbol]]; the keys of the map are the [(primary, secondary)]
    tuples. *)
Definition trading_pair_associated_to_exchange_symbol (st : symbol_maps) (symbol : string * string)
    (domain : string) (primary secondary : fetch) : res string * symbol_maps :=
  let '(r, st') := trading_pair_symbol_map st domain primary secondary in
  (m <- r ;; match bidict_get symbol m with Some v => Ok v | None => Err KeyError end, st').

(** *** [listen_for_trades] *)

(** [for key, value in items: message_secondarypair = key]: the variable is
    left with the last key, or keeps its previous value when there is none. *)
Fixpoint last_key (items : list (string * json)) (acc : option string) : option string :=
  match items with
  | [] => acc
  | (key, _) :: items' => last_key items' (Some key)
  end.

(** The body of the [try] of [listen_for_trades] for one queue item (not
    carrying ["data"]): the value [message_secondarypair] is left with (a
    local of the whole loop) and the outcome. *)
Definition trade_step (lib : PyLib) (message_secondarypair : option string)
    (json_msg : list (string * json)) : option string * res OrderBookMessage :=
  match (ch <- dict_getitem json_msg "Channel" ;;
         primaryCurrency <- (match ch with JStr s => Ok (py_split "-" s) | _ => Err AttributeError end) ;;
         prices <- get2 json_msg "Data" "Price" ;;
         items <- (match prices with JObj kvs => Ok kvs | _ => Err AttributeError end) ;;
         Ok (primaryCurrency, items)) with
  | Err e => (message_secondarypair, Err e)
  | Ok (primaryCurrency, items) =>
      let msp := last_key items message_secondarypair in
      (msp,
       p1 <- list_index primaryCurrency 1 ;;
       secondary <- (match msp with Some k => Ok k | None => Err UnboundLocalError end) ;;
       let trading_pair := py_capitalize p1 ++ "-" ++ secondary in
       trade_message_from_exchange lib json_msg (Some [("trading_pair", trading_pair)]))
  end.

(** The loop over the trade queue: the trade messages put on [output] and
    the exceptions logged. *)
Fixpoint listen_for_trades (lib : PyLib) (message_secondarypair : option string)
    (items : list (list (string * json))) : list OrderBookMessage * list py_error :=
  match items with
  | [] => ([], [])
  | json_msg :: rest =>
      if dict_has "data" json_msg then listen_for_trades lib message_secondarypair rest
      else
        let '(msp, r) := trade_step lib message_secondarypair json_msg in
        let '(out, log) := listen_for_trades lib msp rest in
        match r with
        | Ok m => (m :: out, log)
        | Err e => (out, e :: log)
        end
  end.

(** *** [_subscribe_channels] *)

Definition exchange_primary_currency_in_pair (trading_pair : string) : res string :=
  list_index (py_split "-" trading_pair) 0.

(** The payloads sent, in order; [primary_symbol] is the value the loop
    leaves it with, unbound for no trading pair. *)
Definition _subscribe_channels (trading_pairs : list string) : res (list (list (string * json))) :=
  primary <- fold_left
               (fun acc trading_pair =>
                  match acc with
                  | Ok _ => p <- exchange_primary_currency_in_pair trading_pair ;; Ok (Some p)
                  | Err e => Err e
                  end)
               trading_pairs (Ok None) ;;
  match primary with
  | None => Err UnboundLocalError
  | Some primary_symbol =>
      Ok [[("Event", JStr "Subscribe"); ("Data", JArr [JStr ("ticker-" ++ primary_symbol)])];
          [("Event", JStr "Subscribe"); ("Data", JArr [JStr ("orderbook-" ++ primary_symbol)])]]
  end.

(** *** [fetch_trading_pairs] *)

(** [list(mapping.values())] *)
Definition fetch_trading_pairs (st : symbol_maps) (domain : string) (primary secondary : fetch)
  : res (list string) * symbol_maps :=
  let '(r, st') := trading_pair_symbol_map st domain primary secondary in
  (m <- r ;; Ok (map snd m), st').

End DataSource.

(** Concrete inputs for the data source. *)
Module SourceInputs.

(** A websocket order-book event of a type the router does not know. *)
Definition something_new : list (string * json) :=
  [("Channel", JStr "orderbook-xbt"); ("Nonce", JNum 6); ("Event", JStr "SomethingNew");
   ("Data", JObj [("OrderGuid", JStr "c7347e4c-b865-4c94-8f74-d934d4b0b177");
                  ("OrderType", JStr "LimitBid");
                  ("Price", JObj [("aud", JNum 74000); ("usd", JNum 53000)]);
                  ("Volume", JNum 1)])].

(** A market as the exchange sees it: best bid, best ask and the most
    recent trades, newest first. *)
Record Market := { best_bid : Q; best_ask : Q; recent_trades : list Q }.

Definition midpoint (m : Market) : Q := (best_bid m + best_ask m) / 2.

(** The exchange's [GetRecentTrades] answer for a market. *)
Definition recent_trades_response (m : Market) : DataSource.RESTResponse :=
  {| DataSource.status := 200;
     DataSource.body :=
       JObj [("Trades", JArr (map (fun p => JObj [("PrimaryCurrencyAmount", JNum (1 # 10));
                                                   ("SecondaryCurrencyTradePrice", JNum p)])
                                  (recent_trades m)))] |}.

Definition xbt_aud_market : Market :=
  {| best_bid := 99; best_ask := 103; recent_trades := [100; 98] |}.

(** Two hourly rounds serving the same order-book payload. *)
Definition snapshot_round_at (now : Q) : DataSource.snapshot_source :=
  fun _ => (Ok (JObj NormInputs.snapshot_payload), now).

End SourceInputs.

(** Websocket order-book events used to evaluate the normaliser. *)
Module EventInputs.

Definition order_event (event order_type : string) : list (string * json) :=
  [("Channel", JStr "orderbook-xbt"); ("Nonce", JNum 9); ("Event", JStr event);
   ("Data", JObj [("OrderType", JStr order_type);
                  ("OrderGuid", JStr "c7347e4c-b865-4c94-8f74-d934d4b0b177");
                  ("Price", JObj [("aud", JNum 74000); ("usd", JNum 50000)]);
                  ("Volume", JNum (1 # 2))])].

End EventInputs.

(** * Facts *)

Lemma dict_get_app {A : Type} (k : string) (d1 d2 : list (string * A)) :
  dict_get k (app d1 d2) =
  match dict_get k d1 with Some v => Some v | None => dict_get k d2 end.
Proof.
  induction d1 as [|[k' v'] d1 IH]; simpl; [reflexivity|].
  destruct (String.eqb k k'); [reflexivity | exact IH].
Qed.

Lemma dict_get_nodup_in {A : Type} (p : list (string * A)) (k : string) (v : A) :
  NoDup (map fst p) -> In (k, v) p -> dict_get k p = Some v.
Proof.
  induction p as [|[k' v'] p IH]; simpl; [tauto|].
  intros Hnd Hin. inversion Hnd as [|? ? Hnin Hnd']; subst.
  destruct (String.eqb_spec k k') as [->|Hne].
  - destruct Hin as [Heq|Hin]; [congruence|].
    exfalso. apply Hnin. apply (in_map fst) in Hin. exact Hin.
  - destruct Hin as [Heq|Hin]; [congruence|]. auto.
Qed.

Lemma dict_set_fresh {A : Type} (k : string) (v : A) (d : list (string * A)) :
  dict_get k d = None -> dict_set k v d = app d [(k, v)].
Proof.
  induction d as [|[k' v'] d IH]; simpl; [reflexivity|].
  destruct (String.eqb k k'); [discriminate|].
  intros H. rewrite (IH H). reflexivity.
Qed.

Lemma fold_dict_set_fresh {A : Type} (g : string -> A) (ks : list string) :
  forall d, NoDup ks -> (forall k, In k ks -> dict_get k d = None) ->
  fold_left (fun d key => dict_set key (g key) d) ks d = app d (map (fun k => (k, g k)) ks).
Proof.
  induction ks as [|k ks IH]; intros d Hnd Hfr; simpl.
  - rewrite app_nil_r. reflexivity.
  - inversion Hnd as [|? ? Hnin Hnd']; subst.
    rewrite dict_set_fresh by (apply Hfr; left; reflexivity).
    rewrite IH.
    + rewrite <- app_assoc. reflexivity.
    + exact Hnd'.
    + intros k' Hk'. rewrite dict_get_app, (Hfr k' (or_intror Hk')). simpl.
      destruct (String.eqb_spec k' k) as [->|]; [contradiction | reflexivity].
Qed.

Lemma fold_snoc {A B : Type} (f : A -> B) (ks : list A) :
  forall init, fold_left (fun acc k => app acc [f k]) ks init = app init (map f ks).
Proof.
  induction ks as [|k ks IH]; intros init; simpl.
  - rewrite app_nil_r. reflexivity.
  - rewrite IH, <- app_assoc. reflexivity.
Qed.

Lemma truthy_params_keys (o : option Auth.params_t) :
  Auth.truthy_params o = map fst (Auth.params_of o).
Proof. destruct o as [[|kv p]|]; reflexivity. Qed.

Lemma param_value_in (p : Auth.params_t) (kv : string * Auth.pyval) :
  NoDup (map fst p) -> In kv p -> Auth.param_value p (fst kv) = snd kv.
Proof.
  intros Hnd Hin. unfold Auth.param_value.
  destruct kv as [k v]. simpl. rewrite (dict_get_nodup_in p k v Hnd Hin). reflexivity.
Qed.

Lemma upper_hex_digit (n : nat) :
  (n < 16)%nat -> upper_char (Auth.hex_digit_lower n) = AuthSpec.hex_digit_upper n.
Proof.
  intros H.
  do 16 (destruct n as [|n]; [reflexivity|]). lia.
Qed.

(** [hexdigest().upper()] is the upper-case hex encoding. *)
Lemma py_upper_hexdigest (d : list ascii) :
  py_upper (Auth.hexdigest d) = AuthSpec.hex_upper d.
Proof.
  induction d as [|b d IH]; [reflexivity|].
  unfold py_upper in *. cbn [str_map Auth.hexdigest AuthSpec.hex_upper]. rewrite IH.
  pose proof (nat_ascii_bounded b) as Hb.
  rewrite !upper_hex_digit; [reflexivity| |].
  - apply Nat.mod_upper_bound. discriminate.
  - apply Nat.Div0.div_lt_upper_bound. lia.
Qed.

Example hmac_vector :
  Auth.hexdigest (Sha256.hmac_sha256 (list_ascii_of_string "key")
     (list_ascii_of_string "The quick brown fox jumps over the lazy dog"))
  = "f7bc83f430538424b13298e6aa6fb143ef4d59a14946175997479dbc2d1a3cd8".
Proof. vm_compute. reflexivity. Qed.

(** The authenticator on a concrete request, checked against Python's
    [hmac.new(b"TEST_SECRET", msg, hashlib.sha256).hexdigest().upper()]. *)
Example get_trades_signature :
  dict_get "signature"
    (Auth.add_auth_to_data Sha256.hmac_sha256 AuthInputs.test_auth 1000000
       (Auth.url AuthInputs.get_trades_request) (Auth.params AuthInputs.get_trades_request))
  = Some (JStr "4194AD6508B90865458C6A3DC346C783033DC340A485C107096071A36348CAA2").
Proof. vm_compute. reflexivity. Qed.

Lemma request_params_of_eq (a : Auth.IndependentreserveAuth) (ts : Z) (u : string)
    (o : option Auth.params_t) :
  Auth.request_params_of a ts u o =
  app [u; "apiKey=" ++ Auth.api_key a; "nonce=" ++ z_to_dec ts]
      (map (fun key => key ++ "=" ++ Auth.py_str (Auth.param_value (Auth.params_of o) key))
           (Auth.truthy_params o)).
Proof. unfold Auth.request_params_of. apply fold_snoc. Qed.

Lemma add_auth_message_spec (a : Auth.IndependentreserveAuth) (ts : Z) (u : string)
    (o : option Auth.params_t) :
  NoDup (map fst (Auth.params_of o)) ->
  Auth.add_auth_message a ts u o = AuthSpec.spec_message u (Auth.api_key a) ts (Auth.params_of o).
Proof.
  intros Hnd. unfold Auth.add_auth_message, AuthSpec.spec_message.
  rewrite request_params_of_eq, truthy_params_keys, map_map. f_equal. f_equal.
  apply map_ext_in. intros kv Hin. rewrite (param_value_in _ kv Hnd Hin). reflexivity.
Qed.

Lemma rest_authenticate_data (hmac : list ascii -> list ascii -> list ascii)
    (a : Auth.IndependentreserveAuth) (now : Q) (req : Auth.RESTRequest) :
  Auth.data (Auth.rest_authenticate hmac a now req) =
  Some (Auth.add_auth_to_data hmac a (py_int_of_float (now * 1000)) (Auth.url req) (Auth.params req)).
Proof. unfold Auth.rest_authenticate. destruct (Auth.method req); reflexivity. Qed.

(** C1: [rest_authenticate] puts in the body the result of
    [add_auth_to_data] at [nonce = int(time * 1000)]; the message it signs is
    the comma-join of [url], ["apiKey=" + key], ["nonce=" + nonce] and one
    ["k=v"] per parameter in the parameter map's iteration order; and the
    signature is the upper-case hex encoding of the HMAC-SHA256 of that
    message keyed by the secret. *)
Theorem rest_authenticate_signature (hmac : list ascii -> list ascii -> list ascii)
    (a : Auth.IndependentreserveAuth) (now : Q) (req : Auth.RESTRequest) :
  NoDup (map fst (Auth.params_of (Auth.params req))) ->
  let nonce := py_int_of_float (now * 1000) in
  let msg := AuthSpec.spec_message (Auth.url req) (Auth.api_key a) nonce
               (Auth.params_of (Auth.params req)) in
  Auth.data (Auth.rest_authenticate hmac a now req) =
    Some (Auth.add_auth_to_data hmac a nonce (Auth.url req) (Auth.params req)) /\
  Auth.add_auth_message a nonce (Auth.url req) (Auth.params req) = msg /\
  Auth._generate_signature hmac a (Auth.add_auth_message a nonce (Auth.url req) (Auth.params req))
    = AuthSpec.hex_upper (hmac (Auth.encode_utf8 (Auth.secret_key a)) (Auth.encode_utf8 msg)).
Proof.
  intros Hnd nonce msg.
  assert (Hmsg : Auth.add_auth_message a nonce (Auth.url req) (Auth.params req) = msg)
    by (apply add_auth_message_spec; exact Hnd).
  split; [apply rest_authenticate_data|]. split; [exact Hmsg|].
  unfold Auth._generate_signature. rewrite Hmsg. apply py_upper_hexdigest.
Qed.

Lemma rest_authenticate_signature_witness :
  NoDup (map fst (Auth.params_of (Auth.params AuthInputs.get_trades_request))) /\
  let nonce := py_int_of_float (1000 * 1000) in
  let req := AuthInputs.get_trades_request in
  let msg := AuthSpec.spec_message (Auth.url req) (Auth.api_key AuthInputs.test_auth) nonce
               (Auth.params_of (Auth.params req)) in
  Auth.data (Auth.rest_authenticate Sha256.hmac_sha256 AuthInputs.test_auth 1000 req) =
    Some (Auth.add_auth_to_data Sha256.hmac_sha256 AuthInputs.test_auth nonce
            (Auth.url req) (Auth.params req)) /\
  Auth.add_auth_message AuthInputs.test_auth nonce (Auth.url req) (Auth.params req) = msg /\
  Auth._generate_signature Sha256.hmac_sha256 AuthInputs.test_auth
    (Auth.add_auth_message AuthInputs.test_auth nonce (Auth.url req) (Auth.params req))
    = AuthSpec.hex_upper (Sha256.hmac_sha256 (Auth.encode_utf8 (Auth.secret_key AuthInputs.test_auth))
                                             (Auth.encode_utf8 msg)).
Proof.
  assert (Hnd : NoDup (map fst (Auth.params_of (Auth.params AuthInputs.get_trades_request)))).
  { simpl. constructor; [simpl; intros [H|H]; [discriminate|contradiction]|].
    constructor; [simpl; tauto|constructor]. }
  split; [exact Hnd|].
  exact (rest_authenticate_signature Sha256.hmac_sha256 AuthInputs.test_auth 1000
           AuthInputs.get_trades_request Hnd).
Defined.

Lemma add_auth_to_data_fresh (hmac : list ascii -> list ascii -> list ascii)
    (a : Auth.IndependentreserveAuth) (ts : Z) (u : string) (o : option Auth.params_t) :
  let p := Auth.params_of o in
  NoDup (map fst p) ->
  (forall k, In k (map fst p) -> k <> "apiKey" /\ k <> "nonce" /\ k <> "signature") ->
  exists sig,
  Auth.add_auth_to_data hmac a ts u o =
    app [("apiKey", JStr (Auth.api_key a)); ("nonce", JStr (z_to_dec ts)); ("signature", JStr sig)]
        (map (fun kv => (fst kv, Auth.pyval_to_json (snd kv))) p).
Proof.
  intros p Hnd Hfr. subst p. eexists. unfold Auth.add_auth_to_data.
  rewrite truthy_params_keys.
  rewrite (fold_dict_set_fresh (fun key => Auth.pyval_to_json (Auth.param_value (Auth.params_of o) key))).
  - f_equal. rewrite map_map. apply map_ext_in. intros kv Hin.
    rewrite (param_value_in _ kv Hnd Hin). reflexivity.
  - exact Hnd.
  - intros k Hk. destruct (Hfr k Hk) as (H1 & H2 & H3). simpl.
    apply String.eqb_neq in H1, H2, H3. rewrite H1, H2, H3. reflexivity.
Qed.

(** C5 (as amended): when no request parameter is named [apiKey], [nonce]
    or [signature], the body of an authenticated request is a JSON object
    whose keys are [apiKey], [nonce], [signature] followed by the request
    parameters in their original order, each with its original value. *)
Theorem rest_authenticate_body_order (hmac : list ascii -> list ascii -> list ascii)
    (a : Auth.IndependentreserveAuth) (now : Q) (req : Auth.RESTRequest) :
  let p := Auth.params_of (Auth.params req) in
  NoDup (map fst p) ->
  (forall k, In k (map fst p) -> k <> "apiKey" /\ k <> "nonce" /\ k <> "signature") ->
  exists body,
    Auth.data (Auth.rest_authenticate hmac a now req) = Some body /\
    map fst body = app ["apiKey"; "nonce"; "signature"] (map fst p) /\
    skipn 3 body = map (fun kv => (fst kv, Auth.pyval_to_json (snd kv))) p.
Proof.
  intros p Hnd Hfr.
  destruct (add_auth_to_data_fresh hmac a (py_int_of_float (now * 1000)) (Auth.url req)
              (Auth.params req) Hnd Hfr) as [sig Hbody].
  eexists. split; [rewrite rest_authenticate_data, Hbody; reflexivity|].
  rewrite map_app, map_map. split; [reflexivity|].
  reflexivity.
Qed.

Lemma rest_authenticate_body_order_witness :
  let p := Auth.params_of (Auth.params AuthInputs.get_trades_request) in
  NoDup (map fst p) /\
  (forall k, In k (map fst p) -> k <> "apiKey" /\ k <> "nonce" /\ k <> "signature") /\
  exists body,
    Auth.data (Auth.rest_authenticate Sha256.hmac_sha256 AuthInputs.test_auth 1000
                 AuthInputs.get_trades_request) = Some body /\
    map fst body = app ["apiKey"; "nonce"; "signature"] (map fst p) /\
    skipn 3 body = map (fun kv => (fst kv, Auth.pyval_to_json (snd kv))) p.
Proof.
  intros p.
  assert (Hnd : NoDup (map fst p)).
  { simpl. constructor; [simpl; intros [H|H]; [discriminate|contradiction]|].
    constructor; [simpl; tauto|constructor]. }
  assert (Hfr : forall k, In k (map fst p) -> k <> "apiKey" /\ k <> "nonce" /\ k <> "signature").
  { simpl. intros k [<-|[<-|[]]]; repeat split; discriminate. }
  split; [exact Hnd|]. split; [exact Hfr|].
  exact (rest_authenticate_body_order Sha256.hmac_sha256 AuthInputs.test_auth 1000
           AuthInputs.get_trades_request Hnd Hfr).
Defined.

(** C5 counterexample: a parameter named [nonce] overwrites the body's
    [nonce] entry in place, so the body's keys are [apiKey, nonce,
    signature] and the parameter does not follow them. *)
Lemma rest_authenticate_nonce_param_order :
  ~ (exists body,
       Auth.data (Auth.rest_authenticate Sha256.hmac_sha256 AuthInputs.test_auth 1000
                    AuthInputs.nonce_param_request) = Some body /\
       map fst body =
         app ["apiKey"; "nonce"; "signature"]
             (map fst (Auth.params_of (Auth.params AuthInputs.nonce_param_request)))).
Proof.
  intros [body [Hb Hk]]. vm_compute in Hb. injection Hb as <-.
  vm_compute in Hk. discriminate.
Qed.

(** C2 (code bug): for the event whose [Data.Price] is
    [{"usd": "100", "aud": "140"}] and the pair ["XBT-AUD"], the loop
    compares ["AUD"] with the keys case-sensitively, never assigns [price],
    and the function raises [UnboundLocalError] instead of returning a
    trade at price 140. *)
Theorem trade_message_xbt_aud_unbound (lib : PyLib) :
  OrderBook.trade_message_from_exchange lib NormInputs.trade_event NormInputs.xbt_aud
  = Err UnboundLocalError.
Proof. reflexivity. Qed.

Lemma dict_get_set_same {A : Type} (k : string) (v : A) (d : list (string * A)) :
  dict_get k (dict_set k v d) = Some v.
Proof.
  induction d as [|[k' v'] d IH]; simpl.
  - rewrite String.eqb_refl. reflexivity.
  - destruct (String.eqb_spec k k') as [->|Hne]; simpl.
    + rewrite String.eqb_refl. reflexivity.
    + apply String.eqb_neq in Hne. rewrite Hne. exact IH.
Qed.

Lemma dict_get_set_other {A : Type} (k k' : string) (v : A) (d : list (string * A)) :
  k' <> k -> dict_get k' (dict_set k v d) = dict_get k' d.
Proof.
  intros Hne. induction d as [|[k0 v0] d IH]; simpl.
  - apply String.eqb_neq in Hne. rewrite Hne. reflexivity.
  - destruct (String.eqb_spec k k0) as [->|Hne0]; simpl.
    + apply String.eqb_neq in Hne. rewrite Hne. reflexivity.
    + destruct (String.eqb k' k0); [reflexivity | exact IH].
Qed.

(** A snapshot message carries the caller's [timestamp]. *)
Lemma snapshot_timestamp (lib : PyLib) (msg : list (string * json)) (ts : Q)
    (md : OrderBook.metadata_t) (m : OrderBook.OrderBookMessage) :
  OrderBook.snapshot_message_from_exchange lib msg ts md = Ok m ->
  OrderBook.timestamp m = Some ts.
Proof.
  unfold OrderBook.snapshot_message_from_exchange.
  destruct (dict_getitem msg "CreatedTimestampUtc"); [simpl|discriminate].
  destruct (OrderBook.parse_created_timestamp lib a); [simpl|discriminate].
  destruct (dict_getitem msg "BuyOrders"); [simpl|discriminate].
  destruct (OrderBook.price_volume_pairs a1); [simpl|discriminate].
  destruct (dict_getitem msg "SellOrders"); [simpl|discriminate].
  destruct (OrderBook.price_volume_pairs a3); [simpl|discriminate].
  destruct (OrderBook.metadata_getitem md "trading_pair"); [simpl|discriminate].
  intros H. injection H as <-. reflexivity.
Qed.

(** C10: the message [snapshot_message_from_exchange] returns carries the
    caller's [timestamp], and two payloads differing only in a parseable
    [CreatedTimestampUtc] give the same result. *)
Theorem snapshot_ignores_created_timestamp (lib : PyLib) (msg : list (string * json))
    (v1 v2 : json) (t1 t2 : Z) (ts : Q) (md : OrderBook.metadata_t) :
  OrderBook.parse_created_timestamp lib v1 = Ok t1 ->
  OrderBook.parse_created_timestamp lib v2 = Ok t2 ->
  OrderBook.snapshot_message_from_exchange lib (dict_set "CreatedTimestampUtc" v1 msg) ts md =
  OrderBook.snapshot_message_from_exchange lib (dict_set "CreatedTimestampUtc" v2 msg) ts md /\
  (forall m, OrderBook.snapshot_message_from_exchange lib
               (dict_set "CreatedTimestampUtc" v1 msg) ts md = Ok m ->
             OrderBook.timestamp m = Some ts).
Proof.
  intros H1 H2. split; [|apply snapshot_timestamp].
  unfold OrderBook.snapshot_message_from_exchange, dict_getitem.
  rewrite !dict_get_set_same. cbv beta iota delta [bind]. rewrite H1, H2. cbv beta iota.
  rewrite !(dict_get_set_other "CreatedTimestampUtc" "BuyOrders") by discriminate.
  rewrite !(dict_get_set_other "CreatedTimestampUtc" "SellOrders") by discriminate.
  reflexivity.
Qed.

Lemma snapshot_ignores_created_timestamp_witness :
  OrderBook.parse_created_timestamp pylib (JStr "2021-05-01T12:00:00.1234567Z") = Ok 63755467200001235%Z /\
  OrderBook.parse_created_timestamp pylib (JStr "2022-01-01T00:00:00.5000000Z") = Ok 63776592000005000%Z /\
  OrderBook.snapshot_message_from_exchange pylib
    (dict_set "CreatedTimestampUtc" (JStr "2021-05-01T12:00:00.1234567Z") NormInputs.snapshot_payload)
    1619870400 NormInputs.xbt_aud =
  OrderBook.snapshot_message_from_exchange pylib
    (dict_set "CreatedTimestampUtc" (JStr "2022-01-01T00:00:00.5000000Z") NormInputs.snapshot_payload)
    1619870400 NormInputs.xbt_aud /\
  (forall m, OrderBook.snapshot_message_from_exchange pylib
               (dict_set "CreatedTimestampUtc" (JStr "2021-05-01T12:00:00.1234567Z")
                  NormInputs.snapshot_payload) 1619870400 NormInputs.xbt_aud = Ok m ->
             OrderBook.timestamp m = Some 1619870400).
Proof.
  assert (H1 : OrderBook.parse_created_timestamp pylib (JStr "2021-05-01T12:00:00.1234567Z")
               = Ok 63755467200001235%Z) by (vm_compute; reflexivity).
  assert (H2 : OrderBook.parse_created_timestamp pylib (JStr "2022-01-01T00:00:00.5000000Z")
               = Ok 63776592000005000%Z) by (vm_compute; reflexivity).
  split; [exact H1|]. split; [exact H2|].
  exact (snapshot_ignores_created_timestamp pylib NormInputs.snapshot_payload _ _ _ _
           1619870400 NormInputs.xbt_aud H1 H2).
Defined.

Lemma list_ascii_of_string_append (s1 s2 : string) :
  list_ascii_of_string (s1 ++ s2) = app (list_ascii_of_string s1) (list_ascii_of_string s2).
Proof. induction s1 as [|c s1 IH]; simpl; [reflexivity | rewrite IH; reflexivity]. Qed.

Lemma py_split_no_sep (sep : ascii) (s : string) :
  ~ In sep (list_ascii_of_string s) -> py_split sep s = [s].
Proof.
  induction s as [|c s IH]; simpl; [reflexivity|].
  intros Hn. rewrite IH by tauto.
  destruct (Ascii.eqb_spec c sep) as [->|]; [tauto | reflexivity].
Qed.

Lemma py_split_sep (sep : ascii) (p r : string) :
  ~ In sep (list_ascii_of_string p) ->
  py_split sep (p ++ String sep r) = p :: py_split sep r.
Proof.
  induction p as [|c p IH]; simpl; intros Hn.
  - rewrite Ascii.eqb_refl. reflexivity.
  - rewrite IH by tauto.
    destruct (Ascii.eqb_spec c sep) as [->|]; [tauto | reflexivity].
Qed.

Lemma drop_last_snoc (f : string) (c : ascii) : drop_last (f ++ String c "") = f.
Proof.
  unfold drop_last. rewrite list_ascii_of_string_append. simpl.
  rewrite removelast_last. apply string_of_list_ascii_of_string.
Qed.

Lemma round_half_even_div_bounds (n : Z) :
  (n / 1000 <= round_half_even_div n 1000 <= n / 1000 + 1)%Z.
Proof.
  unfold round_half_even_div.
  destruct (2 * (n mod 1000) <? 1000)%Z; [lia|].
  destruct (1000 <? 2 * (n mod 1000))%Z; [lia|].
  destruct (Z.even (n / 1000)); lia.
Qed.

Section Rounding.
Local Open Scope Z_scope.

Lemma round_half_even_div_prop (x d : Z) :
  (0 < d)%Z ->
  let y := round_half_even_div x d in
  (2 * Z.abs (x - d * y) < d \/ (2 * Z.abs (x - d * y) = d /\ Z.even y = true))%Z.
Proof.
  intros Hd y. unfold y, round_half_even_div.
  pose proof (Z.div_mod x d ltac:(lia)) as Hx. pose proof (Z.mod_pos_bound x d Hd) as Hr.
  set (q := x / d) in *. set (r := x mod d) in *.
  destruct (Z.ltb_spec (2 * r) d); [left; lia|].
  destruct (Z.ltb_spec d (2 * r)); [left; lia|].
  destruct (Z.even q) eqn:Eq.
  - right. split; [lia | exact Eq].
  - right. split; [lia|]. rewrite Z.even_add, Eq. reflexivity.
Qed.

Lemma round_half_even_div_spec (x d y : Z) :
  (0 < d)%Z ->
  (2 * Z.abs (x - d * y) < d \/ (2 * Z.abs (x - d * y) = d /\ Z.even y = true))%Z ->
  round_half_even_div x d = y.
Proof.
  intros Hd H. unfold round_half_even_div.
  pose proof (Z.div_mod x d ltac:(lia)) as Hx. pose proof (Z.mod_pos_bound x d Hd) as Hr.
  set (q := x / d) in *. set (r := x mod d) in *.
  assert (Hk : y = q \/ y = q + 1).
  { assert (E : x - d * y = r - d * (y - q)) by lia. rewrite E in H.
    destruct (Z.lt_total (y - q) 0) as [Hlt|[Heq|Hgt]].
    - exfalso. assert (d * (y - q) <= - d) by nia. lia.
    - left. lia.
    - destruct (Z.eq_dec (y - q) 1) as [E1|E1]; [right; lia|].
      exfalso. assert (d * (y - q) >= 2 * d) by nia. lia. }
  destruct Hk as [->| ->].
  - destruct (Z.ltb_spec (2 * r) d); [reflexivity|].
    destruct (Z.ltb_spec d (2 * r)); [lia|].
    destruct H as [H|[_ H]]; [lia|]. rewrite H. reflexivity.
  - destruct (Z.ltb_spec (2 * r) d); [lia|].
    destruct (Z.ltb_spec d (2 * r)); [reflexivity|].
    destruct H as [H|[_ H]]; [lia|].
    rewrite Z.even_add in H. destruct (Z.even q); [discriminate | reflexivity].
Qed.

Lemma round_half_even_div_opp (x d : Z) :
  (0 < d)%Z -> round_half_even_div (- x) d = - round_half_even_div x d.
Proof.
  intros Hd. apply round_half_even_div_spec; [exact Hd|].
  destruct (round_half_even_div_prop x d Hd) as [H|[H He]].
  - left. replace (- x - d * - round_half_even_div x d) with (- (x - d * round_half_even_div x d)) by ring.
    rewrite Z.abs_opp. exact H.
  - right. replace (- x - d * - round_half_even_div x d) with (- (x - d * round_half_even_div x d)) by ring.
    rewrite Z.abs_opp, Z.even_opp. split; [exact H | exact He].
Qed.

(** Rounding [a / 1000] first to a multiple of [1 / P] and then to an
    integer gives the integer nearest to [a / 1000]. *)
Lemma round_half_even_div_twice (a P : Z) :
  (512 <= P)%Z -> Z.even P = true ->
  round_half_even_div (round_half_even_div (a * P) 1000) P = round_half_even_div a 1000.
Proof.
  intros HP Hev.
  pose proof (round_half_even_div_prop a 1000 ltac:(lia)) as HR.
  pose proof (round_half_even_div_prop (a * P) 1000 ltac:(lia)) as HM.
  cbv zeta in HR, HM.
  set (R := round_half_even_div a 1000) in *.
  set (M := round_half_even_div (a * P) 1000) in *.
  assert (HMb : (2 * Z.abs (a * P - 1000 * M) <= 1000)%Z) by lia. clear HM.
  assert (E : (a * P - 1000 * (P * R) = P * (a - 1000 * R))%Z) by ring.
  apply round_half_even_div_spec; [lia|].
  destruct HR as [HR|[HR He]].
  - left.
    assert (HA : (Z.abs (a - 1000 * R) <= 499)%Z) by lia.
    assert (HB : (Z.abs (a * P - 1000 * (P * R)) <= 499 * P)%Z).
    { rewrite E, Z.abs_mul, (Z.abs_eq P) by lia. nia. }
    set (W := (a * P)%Z) in *. set (Y := (P * R)%Z) in *.
    replace (M - P * R)%Z with (M - Y)%Z by reflexivity. lia.
  - right. split; [|exact He].
    apply Z.even_spec in Hev. destruct Hev as [H Hh].
    assert (Hs : (a - 1000 * R = 500 \/ a - 1000 * R = -500)%Z) by lia.
    assert (HW : (a * P - 1000 * (P * R) = 1000 * H \/ a * P - 1000 * (P * R) = - (1000 * H))%Z).
    { rewrite E. destruct Hs as [Hs|Hs]; rewrite Hs; [left | right]; lia. }
    set (W := (a * P)%Z) in *. set (Y := (P * R)%Z) in *.
    replace (M - P * R)%Z with (M - Y)%Z by reflexivity. lia.
Qed.

Lemma timedelta_us_small (n : Z) :
  (Z.abs n < 2 ^ 53)%Z -> timedelta_us n = Ok (round_half_even_div n 1000).
Proof.
  intros Hn.
  assert (Hu : round_float_half_even (fst (int_div_1000_float n)) (snd (int_div_1000_float n))
               = round_half_even_div n 1000).
  { unfold int_div_1000_float.
    destruct (Z.eqb_spec (Z.abs n) 0) as [H0|H0].
    - assert (n = 0) by lia. subst. reflexivity.
    - cbv zeta.
      assert (Hl : (Z.log2 (Z.abs n) < 53)%Z) by (apply Z.log2_lt_pow2; lia).
      set (l := (Z.log2 (Z.abs n) - 9)%Z).
      set (p := if (if (0 <=? l)%Z then (1000 * 2 ^ l <=? Z.abs n)%Z else (1000 <=? Z.abs n * 2 ^ (- l))%Z)
                then l else (l - 1)%Z).
      assert (Hp : (p <= l)%Z) by (unfold p; match goal with |- context [if ?c then l else _] => destruct c end; lia).
      destruct (Z.leb_spec 0 (p - 52)) as [Hc|_]; [unfold l in Hp; lia|].
      cbn [fst snd]. unfold round_float_half_even.
      destruct (Z.leb_spec 0 (p - 52)) as [Hc|_]; [lia|].
      set (P := (2 ^ (- (p - 52)))%Z).
      assert (HP : (512 <= P)%Z).
      { unfold P. change 512%Z with (2 ^ 9)%Z. apply Z.pow_le_mono_r; unfold l in Hp; lia. }
      assert (HPe : Z.even P = true).
      { unfold P. replace (- (p - 52))%Z with (Z.succ (- (p - 52) - 1)) by lia.
        rewrite Z.pow_succ_r by (unfold l in Hp; lia). apply Z.even_mul. }
      destruct (Z.lt_total n 0) as [Hneg|[Hz|Hpos]]; [|lia|].
      + rewrite (Z.sgn_neg n Hneg), (Z.abs_neq n) by lia.
        replace (-1 * round_half_even_div (- n * P) 1000)%Z with (- round_half_even_div (- n * P) 1000)%Z by ring.
        rewrite round_half_even_div_opp by lia.
        rewrite round_half_even_div_twice by assumption.
        rewrite round_half_even_div_opp by lia. ring.
      + rewrite (Z.sgn_pos n Hpos), (Z.abs_eq n) by lia. rewrite Z.mul_1_l.
        apply round_half_even_div_twice; assumption. }
  unfold timedelta_us. destruct (int_div_1000_float n) as [m e]. cbn [fst snd] in Hu. rewrite Hu.
  pose proof (round_half_even_div_bounds n) as Hb.
  set (u := round_half_even_div n 1000) in *.
  assert (Hr : (-86399999913600000000 <=? u)%Z && (u <=? 86399999999999999999)%Z = true).
  { apply andb_true_intro. rewrite !Z.leb_le.
    assert (Hp : (2 ^ 53 = 9007199254740992)%Z) by reflexivity. rewrite Hp in Hn.
    Z.div_mod_to_equations. lia. }
  rewrite Hr. reflexivity.
Qed.

End Rounding.

(** Beyond [2^53] the quotient is first rounded to a double:
    [9007199254740993000 / 1000] is the double [2^53]. *)
Lemma timedelta_us_beyond_2_53 :
  timedelta_us 9007199254740993000 = Ok 9007199254740992%Z.
Proof. vm_compute. reflexivity. Qed.




(* ------------------------------------------------------------------ *)
(** ** The websocket router and the diff loop *)

Lemma py_in_strs_str_notin (e : string) (l : list string) :
  ~ In e l -> py_in_strs (JStr e) l = false.
Proof.
  induction l as [|s l IH]; simpl; intros Hn; [reflexivity|].
  destruct (String.eqb e s) eqn:E.
  - apply String.eqb_eq in E. subst. tauto.
  - apply IH. tauto.
Qed.

Lemma py_eq_str_notin (e s : string) (l : list string) :
  ~ In e l -> In s l -> py_eq_str (JStr e) s = false.
Proof.
  intros Hn Hs. simpl. apply String.eqb_neq. intros ->. contradiction.
Qed.

Lemma route_unknown (kvs : list (string * json)) (e : string) :
  dict_get "Event" kvs = Some (JStr e) ->
  ~ In e ["NewOrder"; "OrderChanged"; "OrderCanceled"; "Trade"; "Heartbeat"; "Subscriptions"] ->
  DataSource.route (JObj kvs) = Ok None.
Proof.
  intros He Hn. unfold DataSource.route. rewrite He.
  rewrite !py_in_strs_str_notin; [reflexivity | ..]; simpl in *; tauto.
Qed.

Lemma iter_messages_skip (d : json) (before after : list json) (qs : DataSource.queues) :
  DataSource.route d = Ok None ->
  DataSource.iter_messages (app before (d :: after)) qs = DataSource.iter_messages (app before after) qs.
Proof.
  intros Hr. revert qs. induction before as [|m before IH]; intros qs; simpl.
  - rewrite Hr. reflexivity.
  - destruct (DataSource.route m) as [[[key v]|]|err]; auto.
Qed.

Lemma diff_message_unknown_event (lib : PyLib) (kvs : list (string * json)) (e tp : string) (now : Q) :
  dict_get "Event" kvs = Some (JStr e) ->
  ~ In e ["NewOrder"; "OrderChanged"; "OrderCanceled"] ->
  dict_has "Channel" kvs = true ->
  (exists fiat, nth_error (py_split "-" tp) 1 = Some fiat) ->
  OrderBook.diff_message_from_exchange lib kvs (Some now) (Some [("trading_pair", tp)])
  = Err UnboundLocalError.
Proof.
  intros He Hn Hch [fiat Hf].
  unfold OrderBook.diff_message_from_exchange, OrderBook.apply_metadata, dict_update.
  cbn [fold_left fst snd OrderBook.metadata_json map].
  assert (Hch' : dict_has "Channel" (dict_set "trading_pair" (JStr tp) kvs) = true).
  { unfold dict_has in *. rewrite dict_get_set_other by discriminate. exact Hch. }
  rewrite Hch'. cbn [negb].
  unfold OrderBook.ws_diff_update, OrderBook.metadata_getitem, list_index.
  cbn [dict_getitem dict_get String.eqb Ascii.eqb Bool.eqb andb bind].
  rewrite Hf. cbn [bind].
  unfold dict_getitem. rewrite dict_get_set_other by discriminate. rewrite He. cbn [bind].
  rewrite (py_eq_str_notin e "NewOrder" _ Hn), (py_eq_str_notin e "OrderCanceled" _ Hn),
          (py_eq_str_notin e "OrderChanged" _ Hn) by (simpl; tauto).
  reflexivity.
Qed.

(** Claim C3 (code bug). [Heartbeat] and [Subscriptions] are event types
    outside [NewOrder], [OrderChanged], [OrderCanceled], yet the router does
    not drop them: [event_type in ["Heartbeat", "Subscriptions"] in data] is
    the chain [(event_type in [...]) and ([...] in data)], whose second test
    hashes a list and raises [TypeError]. That ends the connection: the
    [NewOrder] event after it reaches no queue. An event such as
    [SomethingNew] is dropped and the stream goes on. Fed directly to the
    diff loop, such an event with a [Channel] gives no message but a logged
    [UnboundLocalError]. *)
Theorem heartbeat_event_crashes_router :
  (DataSource.iter_messages
     (map JObj [[("Event", JStr "Heartbeat")]; EventInputs.order_event "NewOrder" "LimitBid"])
     DataSource.empty_queues = (DataSource.empty_queues, Some TypeError)) /\
  (DataSource.iter_messages
     (map JObj [[("Event", JStr "Subscriptions")]; EventInputs.order_event "NewOrder" "LimitBid"])
     DataSource.empty_queues = (DataSource.empty_queues, Some TypeError)) /\
  (DataSource.iter_messages
     (map JObj [SourceInputs.something_new; EventInputs.order_event "NewOrder" "LimitBid"])
     DataSource.empty_queues =
   ({| DataSource.diff_queue := [EventInputs.order_event "NewOrder" "LimitBid"];
       DataSource.trade_queue := [] |}, None)) /\
  (DataSource.listen_for_order_book_diffs pylib ["XBT-AUD"]
     [(1619870400, SourceInputs.something_new)] = ([], [UnboundLocalError])).
Proof.
  split; [reflexivity|]. split; [reflexivity|]. split; [reflexivity|].
  vm_compute. reflexivity.
Qed.

(* ------------------------------------------------------------------ *)
(** ** The snapshot loop *)

Lemma snapshot_message_update_id (lib : PyLib) (msg : list (string * json)) (ts : Q)
    (md : OrderBook.metadata_t) (m : OrderBook.OrderBookMessage) :
  OrderBook.snapshot_message_from_exchange lib msg ts md = Ok m ->
  OrderBook.update_id m = Some (JNum 0).
Proof.
  intros H. unfold OrderBook.snapshot_message_from_exchange in H.
  repeat (match type of H with
          | context [bind ?r _] => destruct r; cbn [bind] in H; [|discriminate]
          end).
  inversion H; subst. reflexivity.
Qed.

Lemma snapshot_of_body_update_id (lib : PyLib) (b : res json) (now : Q) (tp : string)
    (m : OrderBook.OrderBookMessage) :
  DataSource.snapshot_of_body lib b now tp = Ok m -> OrderBook.update_id m = Some (JNum 0).
Proof.
  unfold DataSource.snapshot_of_body. destruct b as [v|err]; cbn [bind]; [|discriminate].
  destruct v; try discriminate. apply snapshot_message_update_id.
Qed.

Lemma snapshot_round_update_id (lib : PyLib) (src : DataSource.snapshot_source)
    (tps : list string) (m : OrderBook.OrderBookMessage) :
  In m (fst (DataSource.snapshot_round lib tps src)) -> OrderBook.update_id m = Some (JNum 0).
Proof.
  induction tps as [|tp tps IH]; simpl; [tauto|].
  destruct (DataSource.snapshot_round lib tps src) as [out log].
  destruct (src tp) as [snap now].
  destruct (DataSource.snapshot_of_body lib snap now tp) as [m'|err] eqn:E; simpl.
  - intros [<-|H]; [exact (snapshot_of_body_update_id _ _ _ _ _ E) | exact (IH H)].
  - exact IH.
Qed.

(** Claim C9 (corrected). Every snapshot message the snapshot loop produces
    carries [update_id] 0, in every hourly round: 0 is not reserved for the
    first snapshot of a session. *)
Theorem snapshot_messages_update_id_zero (lib : PyLib) (trading_pairs : list string)
    (rounds : list DataSource.snapshot_source) (m : OrderBook.OrderBookMessage) :
  In m (fst (DataSource.listen_for_order_book_snapshots lib trading_pairs rounds)) ->
  OrderBook.update_id m = Some (JNum 0).
Proof.
  induction rounds as [|src rounds IH]; simpl; [tauto|].
  pose proof (snapshot_round_update_id lib src trading_pairs m) as Hr.
  destruct (DataSource.snapshot_round lib trading_pairs src) as [out1 log1].
  destruct (DataSource.listen_for_order_book_snapshots lib trading_pairs rounds) as [out2 log2].
  simpl in *. intros H. apply in_app_or in H. destruct H; auto.
Qed.

Lemma snapshot_messages_update_id_zero_witness :
  exists m,
    In m (fst (DataSource.listen_for_order_book_snapshots pylib ["XBT-AUD"]
                 [SourceInputs.snapshot_round_at 1619870400; SourceInputs.snapshot_round_at 1619874000])) /\
    OrderBook.update_id m = Some (JNum 0).
Proof.
  pose (out := fst (DataSource.listen_for_order_book_snapshots pylib ["XBT-AUD"]
                 [SourceInputs.snapshot_round_at 1619870400; SourceInputs.snapshot_round_at 1619874000])).
  pose (none := {| OrderBook.message_type := OrderBook.TRADE; OrderBook.content := [];
                   OrderBook.timestamp := None |}).
  assert (H : In (nth 1 out none) out) by (vm_compute; right; left; reflexivity).
  exact (ex_intro _ (nth 1 out none) (conj H (snapshot_messages_update_id_zero _ _ _ _ H))).
Defined.

(** Claim C9, counterexample: two hourly rounds for one pair give two
    snapshot messages, and the second one carries [update_id] 0 too. *)
Lemma snapshot_second_round_update_id_zero :
  map OrderBook.update_id
    (fst (DataSource.listen_for_order_book_snapshots pylib ["XBT-AUD"]
            [SourceInputs.snapshot_round_at 1619870400; SourceInputs.snapshot_round_at 1619874000]))
  = [Some (JNum 0); Some (JNum 0)].
Proof. vm_compute. reflexivity. Qed.

(* ------------------------------------------------------------------ *)
(** ** Last traded prices *)

Lemma map_res_forall2 {A B : Type} (f : A -> res B) (l : list A) :
  forall rs, map_res f l = Ok rs -> Forall2 (fun x r => f x = Ok r) l rs.
Proof.
  induction l as [|x l IH]; intros rs H; simpl in H.
  - inversion H. constructor.
  - destruct (f x) as [y|err] eqn:Ef; cbn [bind] in H; [|discriminate].
    destruct (map_res f l) as [ys|err] eqn:El; cbn [bind] in H; [|discriminate].
    inversion H; subst. constructor; auto.
Qed.

Lemma forall2_in_combine {A B : Type} (R : A -> B -> Prop) (l : list A) (rs : list B) :
  Forall2 R l rs -> forall pr, In pr (combine l rs) -> R (fst pr) (snd pr).
Proof.
  induction 1 as [|x r l rs Hxr _ IH]; simpl; [tauto|].
  intros pr [<-|H]; auto.
Qed.

Lemma forall2_map_fst_combine {A B : Type} (R : A -> B -> Prop) (l : list A) (rs : list B) :
  Forall2 R l rs -> map fst (combine l rs) = l.
Proof. induction 1; simpl; congruence. Qed.

Lemma fold_dict_set_inv {B : Type} (R : string -> B -> Prop) (ps : list (string * B)) :
  forall d, (forall pr, In pr ps -> R (fst pr) (snd pr)) ->
  (forall k v, dict_get k d = Some v -> R k v) ->
  forall k v, dict_get k (fold_left (fun d pr => dict_set (fst pr) (snd pr) d) ps d) = Some v -> R k v.
Proof.
  induction ps as [|pr ps IH]; simpl; intros d Hps Hd; [exact Hd|].
  apply IH; [intros; apply Hps; auto|].
  intros k v. destruct (String.eqb k (fst pr)) eqn:E.
  - apply String.eqb_eq in E. subst. rewrite dict_get_set_same.
    intros H. inversion H; subst. apply Hps. auto.
  - apply String.eqb_neq in E. rewrite dict_get_set_other by exact E. apply Hd.
Qed.

Lemma fold_dict_set_bound {B : Type} (ps : list (string * B)) :
  forall d k, (In k (map fst ps) \/ dict_get k d <> None) ->
  dict_get k (fold_left (fun d pr => dict_set (fst pr) (snd pr) d) ps d) <> None.
Proof.
  induction ps as [|pr ps IH]; simpl; intros d k H.
  - destruct H; [contradiction | assumption].
  - apply IH. destruct (String.eqb k (fst pr)) eqn:E.
    + apply String.eqb_eq in E. subst. right. rewrite dict_get_set_same. discriminate.
    + apply String.eqb_neq in E. destruct H as [[H|H]|H].
      * congruence.
      * left. exact H.
      * right. rewrite dict_get_set_other by exact E. exact H.
Qed.

Lemma get_last_traded_price_ok (tp domain url : string) (call : string -> DataSource.RESTResponse) (q : Q) :
  DataSource.public_rest_url DataSource.TICKER_PRICE_CHANGE_PATH_URL (Some (py_split "-" tp)) domain = Ok url ->
  DataSource.status (call url) = 200%Z ->
  DataSource.recent_trade_price (DataSource.body (call url)) = Ok q ->
  DataSource._get_last_traded_price tp domain call = Ok (Some q).
Proof.
  intros Hu Hs Hq. unfold DataSource._get_last_traded_price.
  rewrite Hu. cbn [bind]. rewrite Hs. cbn [Z.eqb Pos.eqb]. rewrite Hq. reflexivity.
Qed.

(** Claim C6 (corrected). For every pair of the argument whose
    [GetRecentTrades] request answers 200, [get_last_traded_prices] maps the
    pair to [float(Trades[0].SecondaryCurrencyTradePrice)] of that answer:
    the price of the first trade listed, not a bid/ask midpoint. *)
Theorem get_last_traded_prices_recent_trade (trading_pairs : list string) (domain tp url : string)
    (call : string -> DataSource.RESTResponse) (prices : list (string * option Q)) (q : Q) :
  DataSource.get_last_traded_prices trading_pairs domain call = Ok prices ->
  In tp trading_pairs ->
  DataSource.public_rest_url DataSource.TICKER_PRICE_CHANGE_PATH_URL (Some (py_split "-" tp)) domain = Ok url ->
  DataSource.status (call url) = 200%Z ->
  DataSource.recent_trade_price (DataSource.body (call url)) = Ok q ->
  dict_get tp prices = Some (Some q).
Proof.
  intros Hp Hin Hu Hs Hq.
  pose proof (get_last_traded_price_ok tp domain url call q Hu Hs Hq) as Hget.
  unfold DataSource.get_last_traded_prices in Hp.
  destruct (map_res _ trading_pairs) as [results|err] eqn:Er; cbn [bind] in Hp; [|discriminate].
  inversion Hp; subst prices. apply map_res_forall2 in Er.
  destruct (dict_get tp _) as [v|] eqn:Ed.
  - apply (fold_dict_set_inv (fun k v => DataSource._get_last_traded_price k domain call = Ok v)) in Ed.
    + rewrite Hget in Ed. inversion Ed. reflexivity.
    + exact (forall2_in_combine _ _ _ Er).
    + simpl. discriminate.
  - exfalso. refine (fold_dict_set_bound _ [] tp _ Ed).
    left. rewrite (forall2_map_fst_combine _ _ _ Er). exact Hin.
Qed.

Lemma get_last_traded_prices_recent_trade_witness :
  let call := fun _ : string => SourceInputs.recent_trades_response SourceInputs.xbt_aud_market in
  let url := "https://api.independentreserve.com/Public/GetRecentTrades?primaryCurrencyCode=XBT&secondaryCurrencyCode=AUD&numberOfRecentTradesToRetrieve=50" in
  DataSource.get_last_traded_prices ["XBT-AUD"] "com" call = Ok [("XBT-AUD", Some 100)] /\
  In "XBT-AUD" ["XBT-AUD"] /\
  DataSource.public_rest_url DataSource.TICKER_PRICE_CHANGE_PATH_URL (Some (py_split "-" "XBT-AUD")) "com" = Ok url /\
  DataSource.status (call url) = 200%Z /\
  DataSource.recent_trade_price (DataSource.body (call url)) = Ok 100 /\
  dict_get "XBT-AUD" [("XBT-AUD", Some 100)] = Some (Some 100).
Proof.
  intros call url.
  assert (H1 : DataSource.get_last_traded_prices ["XBT-AUD"] "com" call = Ok [("XBT-AUD", Some 100)])
    by (vm_compute; reflexivity).
  assert (H2 : In "XBT-AUD" ["XBT-AUD"]) by (left; reflexivity).
  assert (H3 : DataSource.public_rest_url DataSource.TICKER_PRICE_CHANGE_PATH_URL
                 (Some (py_split "-" "XBT-AUD")) "com" = Ok url) by (vm_compute; reflexivity).
  assert (H4 : DataSource.status (call url) = 200%Z) by reflexivity.
  assert (H5 : DataSource.recent_trade_price (DataSource.body (call url)) = Ok 100)
    by (vm_compute; reflexivity).
  exact (conj H1 (conj H2 (conj H3 (conj H4 (conj H5
           (get_last_traded_prices_recent_trade _ _ _ _ _ _ _ H1 H2 H3 H4 H5)))))).
Defined.

(** Claim C6, counterexample: for a market with best bid 99, best ask 103
    and last trade 100, the price returned is 100, not the midpoint 101. *)
Lemma last_traded_price_not_midpoint :
  DataSource.get_last_traded_prices ["XBT-AUD"] "com"
    (fun _ => SourceInputs.recent_trades_response SourceInputs.xbt_aud_market)
  = Ok [("XBT-AUD", Some 100)] /\
  SourceInputs.midpoint SourceInputs.xbt_aud_market == 101 /\
  ~ (100 == SourceInputs.midpoint SourceInputs.xbt_aud_market).
Proof.
  split; [vm_compute; reflexivity|]. split.
  - vm_compute. reflexivity.
  - vm_compute. discriminate.
Qed.

(* ------------------------------------------------------------------ *)
(** ** The trading-pair symbol map *)

Lemma bound_data_failed (f : DataSource.fetch) :
  (f = DataSource.FetchRaises \/ exists s d, f = DataSource.FetchResponse s d /\ s <> 200%Z) ->
  DataSource.bound_data f = None.
Proof.
  intros [->|[s [d [-> Hs]]]]; [reflexivity|].
  simpl. destruct d as [l|err]; [|reflexivity].
  apply Z.eqb_neq in Hs. rewrite Hs. reflexivity.
Qed.

Lemma init_unbound (st : DataSource.symbol_maps) (domain : string) (primary secondary : DataSource.fetch) :
  DataSource.bound_data primary = None \/ DataSource.bound_data secondary = None ->
  DataSource._init_trading_pair_symbols st domain primary secondary = (Err UnboundLocalError, st).
Proof.
  unfold DataSource._init_trading_pair_symbols.
  intros [H|H]; rewrite H; [reflexivity|].
  destruct (DataSource.bound_data primary); reflexivity.
Qed.

(** Claim C7. If either currency-code request raises or answers a status
    other than 200, the initialisation publishes nothing: the class map is
    left as it was and the call fails. A caller of [trading_pair_symbol_map]
    that found the map not ready gets the error, still finds it not ready,
    and the next call runs the initialisation again. *)
Theorem init_failure_keeps_symbol_map (st : DataSource.symbol_maps) (domain : string)
    (primary secondary : DataSource.fetch) :
  (primary = DataSource.FetchRaises \/
   (exists s d, primary = DataSource.FetchResponse s d /\ s <> 200%Z) \/
   secondary = DataSource.FetchRaises \/
   (exists s d, secondary = DataSource.FetchResponse s d /\ s <> 200%Z)) ->
  DataSource._init_trading_pair_symbols st domain primary secondary = (Err UnboundLocalError, st) /\
  (DataSource.trading_pair_symbol_map_ready st domain = false ->
   DataSource.trading_pair_symbol_map st domain primary secondary = (Err UnboundLocalError, st) /\
   DataSource.trading_pair_symbol_map_ready
     (snd (DataSource.trading_pair_symbol_map st domain primary secondary)) domain = false /\
   (forall primary' secondary',
      DataSource.trading_pair_symbol_map st domain primary' secondary' =
      let '(r, st') := DataSource._init_trading_pair_symbols st domain primary' secondary' in
      match r with
      | Ok _ => (dict_getitem st' domain, st')
      | Err e => (Err e, st')
      end)).
Proof.
  intros H.
  assert (Hi : DataSource._init_trading_pair_symbols st domain primary secondary = (Err UnboundLocalError, st)).
  { apply init_unbound.
    destruct H as [H|[H|H]]; [left; apply bound_data_failed; auto ..|].
    right. apply bound_data_failed. destruct H; auto. }
  split; [exact Hi|].
  intros Hr.
  assert (Hm : DataSource.trading_pair_symbol_map st domain primary secondary = (Err UnboundLocalError, st)).
  { unfold DataSource.trading_pair_symbol_map. rewrite Hr, Hi. reflexivity. }
  split; [exact Hm|]. split.
  - rewrite Hm. exact Hr.
  - intros primary' secondary'. unfold DataSource.trading_pair_symbol_map. rewrite Hr. reflexivity.
Qed.

Lemma init_failure_keeps_symbol_map_witness :
  (DataSource.FetchRaises = DataSource.FetchRaises \/
   (exists s d, DataSource.FetchRaises = DataSource.FetchResponse s d /\ s <> 200%Z) \/
   DataSource.FetchResponse 200 (Ok ["Aud"; "Usd"]) = DataSource.FetchRaises \/
   (exists s d, DataSource.FetchResponse 200 (Ok ["Aud"; "Usd"]) = DataSource.FetchResponse s d /\
                s <> 200%Z)) /\
  DataSource._init_trading_pair_symbols [] "com" DataSource.FetchRaises
    (DataSource.FetchResponse 200 (Ok ["Aud"; "Usd"])) = (Err UnboundLocalError, []).
Proof.
  assert (H : DataSource.FetchRaises = DataSource.FetchRaises \/
              (exists s d, DataSource.FetchRaises = DataSource.FetchResponse s d /\ s <> 200%Z) \/
              DataSource.FetchResponse 200 (Ok ["Aud"; "Usd"]) = DataSource.FetchRaises \/
              (exists s d, DataSource.FetchResponse 200 (Ok ["Aud"; "Usd"]) = DataSource.FetchResponse s d /\
                           s <> 200%Z))
    by (left; reflexivity).
  exact (conj H (proj1 (init_failure_keeps_symbol_map [] "com" _ _ H))).
Defined.

Lemma key_eqb_true (k k' : string * string) : DataSource.key_eqb k k' = true <-> k = k'.
Proof.
  destruct k as [a b], k' as [c d]. unfold DataSource.key_eqb. simpl.
  rewrite andb_true_iff, !String.eqb_eq. split.
  - intros [-> ->]. reflexivity.
  - intros H. inversion H. auto.
Qed.

Lemma bidict_get_some (k : string * string) (v : string) (m : DataSource.bidict) :
  DataSource.bidict_get k m = Some v -> In (k, v) m.
Proof.
  induction m as [|[k' v'] m IH]; simpl; [discriminate|].
  destruct (DataSource.key_eqb k k') eqn:E.
  - apply key_eqb_true in E. subst. intros H. inversion H. left. reflexivity.
  - intros H. right. auto.
Qed.

Lemma bidict_get_none (k : string * string) (m : DataSource.bidict) :
  DataSource.bidict_get k m = None <-> ~ In k (map fst m).
Proof.
  induction m as [|[k' v'] m IH]; simpl; [tauto|].
  destruct (DataSource.key_eqb k k') eqn:E.
  - apply key_eqb_true in E. subst. split; [discriminate | tauto].
  - rewrite IH. assert (k' <> k) by (intros ->; rewrite (proj2 (key_eqb_true k k) eq_refl) in E; discriminate).
    tauto.
Qed.

Lemma bidict_get_in (k : string * string) (v : string) (m : DataSource.bidict) :
  NoDup (map fst m) -> In (k, v) m -> DataSource.bidict_get k m = Some v.
Proof.
  induction m as [|[k' v'] m IH]; simpl; [tauto|].
  intros Hnd [H|H].
  - inversion H; subst. rewrite (proj2 (key_eqb_true k k) eq_refl). reflexivity.
  - inversion Hnd as [|x l Hx Hnd']; subst.
    destruct (DataSource.key_eqb k k') eqn:E.
    + apply key_eqb_true in E. subst. exfalso. apply Hx.
      change k' with (fst (k', v)). apply in_map. exact H.
    + auto.
Qed.

Lemma bidict_inv_none (v : string) (m : DataSource.bidict) :
  DataSource.bidict_inv v m = None <-> ~ In v (map snd m).
Proof.
  induction m as [|[k' v'] m IH]; simpl; [tauto|].
  destruct (String.eqb v v') eqn:E.
  - apply String.eqb_eq in E. subst. split; [discriminate | tauto].
  - apply String.eqb_neq in E. rewrite IH. split; intros H; [intros [H'|H']; auto | auto].
Qed.

Lemma bidict_inv_in (k : string * string) (v : string) (m : DataSource.bidict) :
  NoDup (map snd m) -> In (k, v) m -> DataSource.bidict_inv v m = Some k.
Proof.
  induction m as [|[k' v'] m IH]; simpl; [tauto|].
  intros Hnd [H|H].
  - inversion H; subst. rewrite String.eqb_refl. reflexivity.
  - inversion Hnd as [|x l Hx Hnd']; subst.
    destruct (String.eqb v v') eqn:E.
    + apply String.eqb_eq in E. subst. exfalso. apply Hx.
      change v' with (snd (k, v')). apply in_map. exact H.
    + auto.
Qed.

Lemma NoDup_snoc {A : Type} (l : list A) (x : A) : NoDup l -> ~ In x l -> NoDup (app l [x]).
Proof.
  induction l as [|y l IH]; simpl; intros Hnd Hx.
  - constructor; [tauto | constructor].
  - inversion Hnd; subst. constructor.
    + rewrite in_app_iff. simpl. intros [H|[H|H]]; [tauto | subst; tauto | tauto].
    + apply IH; tauto.
Qed.

(** One [mapping[pair] = f"{pair[0]}-{pair[1]}"] step keeps the map
    duplicate-free in both directions, with every value the symbol of its
    key; the map only grows, by the new item at most. *)
Lemma bidict_setitem_symbol (k : string * string) (m m' : DataSource.bidict) :
  NoDup (map fst m) -> NoDup (map snd m) ->
  (forall k0 v0, In (k0, v0) m -> v0 = fst k0 ++ "-" ++ snd k0) ->
  DataSource.bidict_setitem k (fst k ++ "-" ++ snd k) m = Ok m' ->
  (NoDup (map fst m') /\ NoDup (map snd m') /\
   (forall k0 v0, In (k0, v0) m' -> v0 = fst k0 ++ "-" ++ snd k0)) /\
  (forall x, In x m -> In x m') /\
  In (k, fst k ++ "-" ++ snd k) m' /\
  (forall x, In x m' -> In x m \/ x = (k, fst k ++ "-" ++ snd k)).
Proof.
  intros Hk Hv Hval H. unfold DataSource.bidict_setitem in H.
  destruct (DataSource.bidict_get k m) as [v'|] eqn:Eg.
  - apply bidict_get_some in Eg. pose proof (Hval _ _ Eg) as Ev.
    rewrite <- Ev, String.eqb_refl in H. inversion H; subst m'.
    split; [auto|]. split; [auto|]. split; [rewrite <- Ev; exact Eg | auto].
  - destruct (DataSource.bidict_inv (fst k ++ "-" ++ snd k) m) eqn:Ei; [discriminate|].
    inversion H; subst m'. apply bidict_get_none in Eg. apply bidict_inv_none in Ei.
    split; [split; [|split]|split; [|split]].
    + rewrite map_app. apply NoDup_snoc; assumption.
    + rewrite map_app. apply NoDup_snoc; assumption.
    + intros k0 v0 Hin. apply in_app_or in Hin. destruct Hin as [Hin|[Hin|[]]]; [auto|].
      inversion Hin; subst. reflexivity.
    + intros x Hx. apply in_or_app. auto.
    + apply in_or_app. right. left. reflexivity.
    + intros x Hx. apply in_app_or in Hx. destruct Hx as [Hx|[Hx|[]]]; auto.
Qed.

Lemma build_mapping_err (codes : list (string * string)) (e : py_error) :
  fold_left (fun acc pair => m <- acc ;; DataSource.bidict_setitem pair (fst pair ++ "-" ++ snd pair) m)
    codes (Err e) = Err e.
Proof. induction codes as [|pair codes IH]; [reflexivity | exact IH]. Qed.

Lemma build_mapping_symbol (codes : list (string * string)) :
  forall m m',
  NoDup (map fst m) -> NoDup (map snd m) ->
  (forall k0 v0, In (k0, v0) m -> v0 = fst k0 ++ "-" ++ snd k0) ->
  fold_left (fun acc pair => m <- acc ;; DataSource.bidict_setitem pair (fst pair ++ "-" ++ snd pair) m)
    codes (Ok m) = Ok m' ->
  (NoDup (map fst m') /\ NoDup (map snd m') /\
   (forall k0 v0, In (k0, v0) m' -> v0 = fst k0 ++ "-" ++ snd k0)) /\
  (forall x, In x m -> In x m') /\
  (forall k, In k codes -> In (k, fst k ++ "-" ++ snd k) m') /\
  (forall x, In x m' -> In x m \/ exists k, In k codes /\ x = (k, fst k ++ "-" ++ snd k)).
Proof.
  induction codes as [|pair codes IH]; intros m m' Hk Hv Hval H.
  - inversion H; subst. split; [auto|]. split; [auto|]. split; [simpl; tauto | auto].
  - cbn [fold_left bind] in H.
    destruct (DataSource.bidict_setitem pair (fst pair ++ "-" ++ snd pair) m) as [m1|err] eqn:Es.
    + destruct (bidict_setitem_symbol pair m m1 Hk Hv Hval Es) as [[Hk1 [Hv1 Hval1]] [Hgrow [Hnew Honly]]].
      destruct (IH m1 m' Hk1 Hv1 Hval1 H) as [Hinv [Hgrow' [Hall Honly']]].
      split; [exact Hinv|]. split; [auto|]. split.
      * intros k [<-|Hk']; auto.
      * intros x Hx. destruct (Honly' x Hx) as [Hx1|[k [Hk' ->]]].
        -- destruct (Honly x Hx1) as [Hx0| ->]; [left; exact Hx0|].
           right. exists pair. split; [left|]; reflexivity.
        -- right. exists k. split; [right; exact Hk' | reflexivity].
    + rewrite build_mapping_err in H. discriminate.
Qed.

Lemma symbol_map_lookup_ready (st : DataSource.symbol_maps) (domain : string) (m : DataSource.bidict)
    (primary secondary : DataSource.fetch) :
  dict_get domain st = Some m -> m <> [] ->
  DataSource.trading_pair_symbol_map st domain primary secondary = (Ok m, st).
Proof.
  intros H Hne. unfold DataSource.trading_pair_symbol_map, DataSource.trading_pair_symbol_map_ready.
  rewrite H. destruct m as [|x m]; [contradiction|]. cbn [length Nat.ltb Nat.leb].
  unfold dict_getitem. rewrite H. reflexivity.
Qed.

(** Claim C8. After an initialisation from the currency codes [P] and [S]
    succeeds, the domain's map holds exactly one item
    [((p, s), "p-s")] for each [p] of [P] and [s] of [S] and nothing else,
    with no key and no value twice; each lookup returns the other side of
    the item it is given (so the two directions are mutually inverse, with
    no further request), and a key absent from a populated map fails with
    [KeyError] in either direction. *)
Theorem symbol_map_round_trip (st st' : DataSource.symbol_maps) (domain : string)
    (primary secondary : DataSource.fetch) (P S : list string) :
  DataSource.bound_data primary = Some P ->
  DataSource.bound_data secondary = Some S ->
  DataSource._init_trading_pair_symbols st domain primary secondary = (Ok tt, st') ->
  exists m,
    dict_get domain st' = Some m /\
    (forall p s, In p P -> In s S -> In ((p, s), p ++ "-" ++ s) m) /\
    (forall k v, In (k, v) m -> In k (list_prod P S) /\ v = fst k ++ "-" ++ snd k) /\
    NoDup (map fst m) /\ NoDup (map snd m) /\
    (forall symbol trading_pair, In (symbol, trading_pair) m ->
       forall primary' secondary' primary'' secondary'',
       DataSource.trading_pair_associated_to_exchange_symbol st' symbol domain primary' secondary'
         = (Ok trading_pair, st') /\
       DataSource.exchange_symbol_associated_to_pair st' trading_pair domain primary'' secondary''
         = (Ok symbol, st')) /\
    (m <> [] ->
       (forall symbol, ~ In symbol (map fst m) -> forall primary' secondary',
          DataSource.trading_pair_associated_to_exchange_symbol st' symbol domain primary' secondary'
            = (Err KeyError, st')) /\
       (forall trading_pair, ~ In trading_pair (map snd m) -> forall primary' secondary',
          DataSource.exchange_symbol_associated_to_pair st' trading_pair domain primary' secondary'
            = (Err KeyError, st'))).
Proof.
  intros Hp Hs Hi. unfold DataSource._init_trading_pair_symbols in Hi. rewrite Hp, Hs in Hi.
  destruct (DataSource.build_mapping (list_prod P S)) as [m|err] eqn:Eb; [|discriminate].
  inversion Hi; subst st'. clear Hi.
  unfold DataSource.build_mapping in Eb.
  destruct (build_mapping_symbol (list_prod P S) [] m (NoDup_nil _) (NoDup_nil _)
              (fun _ _ H => False_ind _ H) Eb) as [[Hk [Hv Hval]] [_ [Hall Honly]]].
  assert (Hd : dict_get domain (dict_set domain m st) = Some m) by apply dict_get_set_same.
  exists m. split; [exact Hd|]. split; [|split; [|split; [exact Hk|split; [exact Hv|split]]]].
  - intros p s Hp' Hs'. apply (Hall (p, s)). apply in_prod; assumption.
  - intros k v Hin. destruct (Honly _ Hin) as [[]|[k' [Hk' Heq]]].
    inversion Heq; subst. auto.
  - intros symbol trading_pair Hin primary' secondary' primary'' secondary''.
    assert (Hne : m <> []) by (intros ->; contradiction).
    unfold DataSource.trading_pair_associated_to_exchange_symbol, DataSource.exchange_symbol_associated_to_pair.
    rewrite !(symbol_map_lookup_ready _ _ m _ _ Hd Hne). cbn [bind].
    rewrite (bidict_get_in _ _ _ Hk Hin), (bidict_inv_in _ _ _ Hv Hin). split; reflexivity.
  - intros Hne. split.
    + intros symbol Hnot primary' secondary'.
      unfold DataSource.trading_pair_associated_to_exchange_symbol.
      rewrite (symbol_map_lookup_ready _ _ m _ _ Hd Hne). cbn [bind].
      rewrite (proj2 (bidict_get_none symbol m) Hnot). reflexivity.
    + intros trading_pair Hnot primary' secondary'.
      unfold DataSource.exchange_symbol_associated_to_pair.
      rewrite (symbol_map_lookup_ready _ _ m _ _ Hd Hne). cbn [bind].
      rewrite (proj2 (bidict_inv_none trading_pair m) Hnot). reflexivity.
Qed.

Lemma symbol_map_round_trip_witness :
  let primary := DataSource.FetchResponse 200 (Ok ["Xbt"; "Eth"]) in
  let secondary := DataSource.FetchResponse 200 (Ok ["Aud"; "Usd"]) in
  let st' := snd (DataSource._init_trading_pair_symbols [] "com" primary secondary) in
  DataSource.bound_data primary = Some ["Xbt"; "Eth"] /\
  DataSource.bound_data secondary = Some ["Aud"; "Usd"] /\
  DataSource._init_trading_pair_symbols [] "com" primary secondary = (Ok tt, st') /\
  exists m, dict_get "com" st' = Some m /\
    (forall p s, In p ["Xbt"; "Eth"] -> In s ["Aud"; "Usd"] -> In ((p, s), p ++ "-" ++ s) m).
Proof.
  intros primary secondary st'.
  assert (H1 : DataSource.bound_data primary = Some ["Xbt"; "Eth"]) by reflexivity.
  assert (H2 : DataSource.bound_data secondary = Some ["Aud"; "Usd"]) by reflexivity.
  assert (H3 : DataSource._init_trading_pair_symbols [] "com" primary secondary = (Ok tt, st'))
    by (vm_compute; reflexivity).
  refine (conj H1 (conj H2 (conj H3 _))).
  destruct (symbol_map_round_trip [] st' "com" primary secondary _ _ H1 H2 H3) as [m [Hm [Hall _]]].
  exact (ex_intro _ m (conj Hm Hall)).
Defined.

(* ------------------------------------------------------------------ *)
(** ** Further properties of the normaliser *)

Ltac peel_bind H :=
  repeat match type of H with
         | context [bind ?r _] =>
             let E := fresh "E" in
             destruct r eqn:E; cbn [bind] in H; [|discriminate]
         end.

Lemma apply_trading_pair (msg : list (string * json)) (tp : string) :
  OrderBook.apply_metadata msg (Some [("trading_pair", tp)]) = dict_set "trading_pair" (JStr tp) msg.
Proof. reflexivity. Qed.

Lemma get2_set_other (msg : list (string * json)) (k k1 k2 : string) (v : json) :
  k1 <> k -> OrderBook.get2 (dict_set k v msg) k1 k2 = OrderBook.get2 msg k1 k2.
Proof. intros H. unfold OrderBook.get2, dict_getitem. rewrite dict_get_set_other by exact H. reflexivity. Qed.

Lemma dict_has_set_other {A : Type} (msg : list (string * A)) (k k' : string) (v : A) :
  k' <> k -> dict_has k' (dict_set k v msg) = dict_has k' msg.
Proof. intros H. unfold dict_has. rewrite dict_get_set_other by exact H. reflexivity. Qed.

Lemma split_pair (base quote : string) :
  ~ In "-"%char (list_ascii_of_string base) ->
  py_split "-" (base ++ "-" ++ quote) = base :: py_split "-" quote.
Proof. intros H. apply (py_split_sep "-" base quote H). Qed.

Lemma split_pair_exact (base quote : string) :
  ~ In "-"%char (list_ascii_of_string base) ->
  ~ In "-"%char (list_ascii_of_string quote) ->
  py_split "-" (base ++ "-" ++ quote) = [base; quote].
Proof. intros Hb Hq. rewrite split_pair by exact Hb. rewrite py_split_no_sep by exact Hq. reflexivity. Qed.

Lemma py_split_nonempty (sep : ascii) (s : string) : py_split sep s = [] -> False.
Proof.
  destruct s as [|c s]; simpl; [discriminate|].
  destruct (Ascii.eqb c sep); [discriminate|]. destruct (py_split sep s); discriminate.
Qed.

(** Extra X1. A REST order-book payload (no ["Channel"] key) becomes a DIFF
    message whose content is the trading pair of the metadata, [update_id]
    = [Nonce], and [BuyOrders] and [SellOrders] passed through unchanged as
    [bids] and [asks], stamped with the caller's timestamp. *)
Theorem diff_message_rest_payload (lib : PyLib) (msg : list (string * json)) (ts : option Q)
    (tp : string) (ctu nonce bids asks : json) (t : Z) :
  dict_has "Channel" msg = false ->
  dict_get "CreatedTimestampUtc" msg = Some ctu ->
  OrderBook.parse_created_timestamp lib ctu = Ok t ->
  dict_get "Nonce" msg = Some nonce ->
  dict_get "BuyOrders" msg = Some bids ->
  dict_get "SellOrders" msg = Some asks ->
  OrderBook.diff_message_from_exchange lib msg ts (Some [("trading_pair", tp)]) =
  Ok {| OrderBook.message_type := OrderBook.DIFF;
        OrderBook.content := [("trading_pair", JStr tp); ("update_id", nonce);
                              ("bids", bids); ("asks", asks)];
        OrderBook.timestamp := ts |}.
Proof.
  intros Hch Hc Ht Hn Hb Ha.
  unfold OrderBook.diff_message_from_exchange. rewrite apply_trading_pair.
  rewrite dict_has_set_other, Hch by discriminate. cbn [negb].
  unfold dict_getitem. rewrite !dict_get_set_other by discriminate.
  rewrite Hc, Hn, Hb, Ha. cbn [bind]. rewrite Ht. reflexivity.
Qed.

Lemma diff_message_rest_payload_witness :
  dict_has "Channel" (dict_set "Nonce" (JNum 7) NormInputs.snapshot_payload) = false /\
  dict_get "CreatedTimestampUtc" (dict_set "Nonce" (JNum 7) NormInputs.snapshot_payload) = Some (JStr "2021-05-01T12:00:00.1234567Z") /\
  OrderBook.parse_created_timestamp pylib (JStr "2021-05-01T12:00:00.1234567Z") = Ok 63755467200001235%Z /\
  dict_get "Nonce" (dict_set "Nonce" (JNum 7) NormInputs.snapshot_payload) = Some (JNum 7) /\
  OrderBook.diff_message_from_exchange pylib (dict_set "Nonce" (JNum 7) NormInputs.snapshot_payload)
    (Some 5) (Some [("trading_pair", "XBT-AUD")]) =
  Ok {| OrderBook.message_type := OrderBook.DIFF;
        OrderBook.content :=
          [("trading_pair", JStr "XBT-AUD"); ("update_id", JNum 7);
           ("bids", JArr [JObj [("OrderType", JStr "LimitBid"); ("Price", JNum 74000); ("Volume", JNum (1 # 4))]]);
           ("asks", JArr [JObj [("OrderType", JStr "LimitOffer"); ("Price", JNum 74100); ("Volume", JNum 2)]])];
        OrderBook.timestamp := Some 5 |}.
Proof.
  assert (H1 : dict_has "Channel" (dict_set "Nonce" (JNum 7) NormInputs.snapshot_payload) = false) by reflexivity.
  assert (H2 : dict_get "CreatedTimestampUtc" (dict_set "Nonce" (JNum 7) NormInputs.snapshot_payload)
               = Some (JStr "2021-05-01T12:00:00.1234567Z")) by reflexivity.
  assert (H3 : OrderBook.parse_created_timestamp pylib (JStr "2021-05-01T12:00:00.1234567Z")
               = Ok 63755467200001235%Z) by (vm_compute; reflexivity).
  assert (H4 : dict_get "Nonce" (dict_set "Nonce" (JNum 7) NormInputs.snapshot_payload) = Some (JNum 7))
    by reflexivity.
  refine (conj H1 (conj H2 (conj H3 (conj H4 _)))).
  exact (diff_message_rest_payload pylib (dict_set "Nonce" (JNum 7) NormInputs.snapshot_payload)
           (Some 5) "XBT-AUD" _ _ _ _ _ H1 H2 H3 H4
           ltac:(reflexivity) ltac:(reflexivity)).
Defined.

(** Extra X2. A websocket [NewOrder] event for the pair [base-quote] whose
    [OrderType] contains ["LimitBid"] (resp. ["LimitOffer"]) becomes a DIFF
    message with one bid (resp. ask) level [[str(price), str(volume)]],
    where the price is [Data.Price[quote.lower()]], a [[0, 0]] level on the
    other side, and [update_id] = [Nonce]. *)
Theorem diff_message_new_order (lib : PyLib) (msg : list (string * json)) (ts : option Q)
    (base quote : string) (ch nonce og vol pr : json) (data prices : list (string * json))
    (ot : string) (is_bid : bool) :
  ~ In "-"%char (list_ascii_of_string base) ->
  ~ In "-"%char (list_ascii_of_string quote) ->
  dict_get "Channel" msg = Some ch ->
  dict_get "Event" msg = Some (JStr "NewOrder") ->
  dict_get "Nonce" msg = Some nonce ->
  dict_get "Data" msg = Some (JObj data) ->
  dict_get "OrderType" data = Some (JStr ot) ->
  is_substring "LimitBid" ot = is_bid ->
  is_substring "LimitOffer" ot = negb is_bid ->
  dict_get "OrderGuid" data = Some og ->
  dict_get "Volume" data = Some vol ->
  dict_get "Price" data = Some (JObj prices) ->
  dict_get (py_lower quote) prices = Some pr ->
  OrderBook.diff_message_from_exchange lib msg ts (Some [("trading_pair", base ++ "-" ++ quote)]) =
  Ok {| OrderBook.message_type := OrderBook.DIFF;
        OrderBook.content :=
          let side := JArr [JArr [JStr (py_str lib pr); JStr (py_str lib vol)]] in
          let zero := JArr [JArr [JNum 0; JNum 0]] in
          [("trading_pair", JStr (base ++ "-" ++ quote)); ("order_type", JStr ot);
           ("order_guid", og); ("update_id", nonce);
           ("bids", if is_bid then side else zero); ("asks", if is_bid then zero else side);
           ("event", JStr "NewOrder")];
        OrderBook.timestamp := ts |}.
Proof.
  intros Hb Hq Hch Hev Hn Hd Hot Hlb Hlo Hog Hvol Hpr Hp.
  unfold OrderBook.diff_message_from_exchange. rewrite apply_trading_pair.
  rewrite dict_has_set_other by discriminate. unfold dict_has. rewrite Hch. cbn [negb].
  unfold OrderBook.ws_diff_update, OrderBook.new_order_update, OrderBook.canceled_update,
    OrderBook.changed_update, OrderBook.get2, OrderBook.metadata_getitem, dict_getitem.
  rewrite !dict_get_set_other by discriminate.
  rewrite Hev, Hn, Hd. cbn [bind dict_get String.eqb Ascii.eqb Bool.eqb andb].
  rewrite split_pair_exact by assumption. cbn [bind list_index nth_error].
  cbn [py_getitem dict_getitem py_eq_str py_in_str].
  unfold dict_getitem. rewrite Hot, Hog, Hvol, Hpr. cbn [bind py_getitem].
  unfold dict_getitem. rewrite Hp.
  cbn [py_in_str String.eqb Ascii.eqb Bool.eqb andb bind OrderBook.some_update].
  rewrite Hlb, Hlo.
  destruct is_bid; reflexivity.
Qed.

Lemma diff_message_new_order_witness :
  OrderBook.diff_message_from_exchange pylib (EventInputs.order_event "NewOrder" "LimitBid") (Some 5)
    (Some [("trading_pair", "XBT" ++ "-" ++ "AUD")]) =
  Ok {| OrderBook.message_type := OrderBook.DIFF;
        OrderBook.content :=
          let side := JArr [JArr [JStr (py_str pylib (JNum 74000)); JStr (py_str pylib (JNum (1 # 2)))]] in
          let zero := JArr [JArr [JNum 0; JNum 0]] in
          [("trading_pair", JStr ("XBT" ++ "-" ++ "AUD")); ("order_type", JStr "LimitBid");
           ("order_guid", JStr "c7347e4c-b865-4c94-8f74-d934d4b0b177"); ("update_id", JNum 9);
           ("bids", if true then side else zero); ("asks", if true then zero else side);
           ("event", JStr "NewOrder")];
        OrderBook.timestamp := Some 5 |}.
Proof.
  exact (diff_message_new_order pylib (EventInputs.order_event "NewOrder" "LimitBid") (Some 5)
           "XBT" "AUD" (JStr "orderbook-xbt") (JNum 9) (JStr "c7347e4c-b865-4c94-8f74-d934d4b0b177")
           (JNum (1 # 2)) (JNum 74000) _ _ "LimitBid" true
           ltac:(simpl; intuition discriminate) ltac:(simpl; intuition discriminate)
           ltac:(reflexivity) ltac:(reflexivity) ltac:(reflexivity) ltac:(reflexivity)
           ltac:(reflexivity) ltac:(reflexivity) ltac:(reflexivity) ltac:(reflexivity)
           ltac:(reflexivity) ltac:(reflexivity) ltac:(reflexivity)).
Defined.

(** Extra X3. A websocket [OrderCanceled] event becomes a DIFF message whose
    content is only the trading pair, [order_type], [order_guid],
    [update_id] = [Nonce] and [event]: it carries no [bids] or [asks]. *)
Theorem diff_message_order_canceled (lib : PyLib) (msg : list (string * json)) (ts : option Q)
    (base quote : string) (ch nonce ot og : json) (data : list (string * json)) :
  ~ In "-"%char (list_ascii_of_string base) ->
  dict_get "Channel" msg = Some ch ->
  dict_get "Event" msg = Some (JStr "OrderCanceled") ->
  dict_get "Nonce" msg = Some nonce ->
  dict_get "Data" msg = Some (JObj data) ->
  dict_get "OrderType" data = Some ot ->
  dict_get "OrderGuid" data = Some og ->
  OrderBook.diff_message_from_exchange lib msg ts (Some [("trading_pair", base ++ "-" ++ quote)]) =
  Ok {| OrderBook.message_type := OrderBook.DIFF;
        OrderBook.content :=
          [("trading_pair", JStr (base ++ "-" ++ quote)); ("order_type", ot);
           ("order_guid", og); ("update_id", nonce); ("event", JStr "OrderCanceled")];
        OrderBook.timestamp := ts |}.
Proof.
  intros Hb Hch Hev Hn Hd Hot Hog.
  unfold OrderBook.diff_message_from_exchange. rewrite apply_trading_pair.
  rewrite dict_has_set_other by discriminate. unfold dict_has. rewrite Hch. cbn [negb].
  unfold OrderBook.ws_diff_update, OrderBook.canceled_update, OrderBook.changed_update,
    OrderBook.get2, OrderBook.metadata_getitem, dict_getitem.
  rewrite !dict_get_set_other by discriminate.
  rewrite Hev, Hn, Hd. cbn [bind dict_get String.eqb Ascii.eqb Bool.eqb andb].
  rewrite split_pair by assumption.
  destruct (py_split "-" quote) eqn:Eq; [exfalso; exact (py_split_nonempty _ _ Eq)|].
  cbn [bind list_index nth_error py_getitem py_eq_str].
  unfold dict_getitem. rewrite Hot, Hog.
  cbn [bind String.eqb Ascii.eqb Bool.eqb andb OrderBook.some_update]. reflexivity.
Qed.

Lemma diff_message_order_canceled_witness :
  OrderBook.diff_message_from_exchange pylib (EventInputs.order_event "OrderCanceled" "LimitOffer") None
    (Some [("trading_pair", "XBT" ++ "-" ++ "AUD")]) =
  Ok {| OrderBook.message_type := OrderBook.DIFF;
        OrderBook.content :=
          [("trading_pair", JStr ("XBT" ++ "-" ++ "AUD")); ("order_type", JStr "LimitOffer");
           ("order_guid", JStr "c7347e4c-b865-4c94-8f74-d934d4b0b177"); ("update_id", JNum 9);
           ("event", JStr "OrderCanceled")];
        OrderBook.timestamp := None |}.
Proof.
  exact (diff_message_order_canceled pylib (EventInputs.order_event "OrderCanceled" "LimitOffer") None
           "XBT" "AUD" (JStr "orderbook-xbt") (JNum 9) (JStr "LimitOffer")
           (JStr "c7347e4c-b865-4c94-8f74-d934d4b0b177") _
           ltac:(simpl; intuition discriminate)
           ltac:(reflexivity) ltac:(reflexivity) ltac:(reflexivity) ltac:(reflexivity)
           ltac:(reflexivity) ltac:(reflexivity)).
Defined.

(** Extra X4. A websocket [OrderChanged] event becomes a DIFF message whose
    [price] entry is the new [Data.Volume] when the order type is one of
    [MarketBid], [LimitBid], [MarketOffer], [LimitOffer]; for any other order
    type no update is assigned and the call raises [UnboundLocalError]. *)
Theorem diff_message_order_changed (lib : PyLib) (msg : list (string * json)) (ts : option Q)
    (base quote : string) (ch nonce og vol : json) (data : list (string * json)) (ot : string) :
  ~ In "-"%char (list_ascii_of_string base) ->
  dict_get "Channel" msg = Some ch ->
  dict_get "Event" msg = Some (JStr "OrderChanged") ->
  dict_get "Nonce" msg = Some nonce ->
  dict_get "Data" msg = Some (JObj data) ->
  dict_get "OrderType" data = Some (JStr ot) ->
  dict_get "OrderGuid" data = Some og ->
  dict_get "Volume" data = Some vol ->
  OrderBook.diff_message_from_exchange lib msg ts (Some [("trading_pair", base ++ "-" ++ quote)]) =
  if existsb (String.eqb ot) ["MarketBid"; "LimitBid"; "MarketOffer"; "LimitOffer"]
  then Ok {| OrderBook.message_type := OrderBook.DIFF;
             OrderBook.content :=
               [("trading_pair", JStr (base ++ "-" ++ quote)); ("order_type", JStr ot);
                ("order_guid", og); ("update_id", nonce); ("price", vol);
                ("event", JStr "OrderChanged")];
             OrderBook.timestamp := ts |}
  else Err UnboundLocalError.
Proof.
  intros Hb Hch Hev Hn Hd Hot Hog Hvol.
  unfold OrderBook.diff_message_from_exchange. rewrite apply_trading_pair.
  rewrite dict_has_set_other by discriminate. unfold dict_has. rewrite Hch. cbn [negb].
  unfold OrderBook.ws_diff_update, OrderBook.changed_update,
    OrderBook.get2, OrderBook.metadata_getitem, dict_getitem.
  rewrite !dict_get_set_other by discriminate.
  rewrite Hev, Hn, Hd. cbn [bind dict_get String.eqb Ascii.eqb Bool.eqb andb].
  rewrite split_pair by assumption.
  destruct (py_split "-" quote) eqn:Eq; [exfalso; exact (py_split_nonempty _ _ Eq)|].
  cbn [bind list_index nth_error py_getitem py_eq_str].
  unfold dict_getitem. rewrite Hot, Hog, Hvol.
  cbn [bind String.eqb Ascii.eqb Bool.eqb andb OrderBook.some_update py_in_strs existsb py_eq_str].
  destruct (String.eqb ot "MarketBid"), (String.eqb ot "LimitBid"),
    (String.eqb ot "MarketOffer"), (String.eqb ot "LimitOffer"); reflexivity.
Qed.

Lemma diff_message_order_changed_witness :
  OrderBook.diff_message_from_exchange pylib (EventInputs.order_event "OrderChanged" "LimitOffer") None
    (Some [("trading_pair", "XBT" ++ "-" ++ "AUD")]) =
  Ok {| OrderBook.message_type := OrderBook.DIFF;
        OrderBook.content :=
          [("trading_pair", JStr ("XBT" ++ "-" ++ "AUD")); ("order_type", JStr "LimitOffer");
           ("order_guid", JStr "c7347e4c-b865-4c94-8f74-d934d4b0b177"); ("update_id", JNum 9);
           ("price", JNum (1 # 2)); ("event", JStr "OrderChanged")];
        OrderBook.timestamp := None |} /\
  OrderBook.diff_message_from_exchange pylib (EventInputs.order_event "OrderChanged" "StopBid") None
    (Some [("trading_pair", "XBT" ++ "-" ++ "AUD")]) = Err UnboundLocalError.
Proof.
  split.
  - exact (diff_message_order_changed pylib (EventInputs.order_event "OrderChanged" "LimitOffer") None
             "XBT" "AUD" (JStr "orderbook-xbt") (JNum 9) (JStr "c7347e4c-b865-4c94-8f74-d934d4b0b177")
             (JNum (1 # 2)) _ "LimitOffer"
             ltac:(simpl; intuition discriminate)
             ltac:(reflexivity) ltac:(reflexivity) ltac:(reflexivity) ltac:(reflexivity)
             ltac:(reflexivity) ltac:(reflexivity) ltac:(reflexivity)).
  - exact (diff_message_order_changed pylib (EventInputs.order_event "OrderChanged" "StopBid") None
             "XBT" "AUD" (JStr "orderbook-xbt") (JNum 9) (JStr "c7347e4c-b865-4c94-8f74-d934d4b0b177")
             (JNum (1 # 2)) _ "StopBid"
             ltac:(simpl; intuition discriminate)
             ltac:(reflexivity) ltac:(reflexivity) ltac:(reflexivity) ltac:(reflexivity)
             ltac:(reflexivity) ltac:(reflexivity) ltac:(reflexivity)).
Defined.

Lemma select_price_miss (cs : list string) (q : string) (post : list (string * json)) (v : json) :
  list_index cs 1 = Ok q -> ~ In q (map fst post) ->
  OrderBook.select_price cs post (Some v) = Ok (Some v).
Proof.
  intros Hq. induction post as [|[k w] post IH]; simpl; intros Hn; [reflexivity|].
  rewrite Hq. cbn [bind].
  destruct (String.eqb_spec q k) as [->|]; [tauto|]. apply IH. tauto.
Qed.

Lemma select_price_hit (cs : list string) (q : string) (pre post : list (string * json))
    (v : json) (acc : option json) :
  list_index cs 1 = Ok q -> ~ In q (map fst post) ->
  OrderBook.select_price cs (app pre ((q, v) :: post)) acc = Ok (Some v).
Proof.
  intros Hq Hn. revert acc.
  induction pre as [|[k w] pre IH]; intros acc; simpl; rewrite Hq; cbn [bind].
  - rewrite String.eqb_refl. apply (select_price_miss cs q post v Hq Hn).
  - apply IH.
Qed.

(** The fields of a trade message built for the pair [tp]. *)
Lemma trade_message_fields (lib : PyLib) (msg0 : list (string * json)) (tp q : string)
    (pre post : list (string * json)) (v : json) (time : Q) (m : OrderBook.OrderBookMessage) :
  list_index (py_split "-" tp) 1 = Ok q ->
  OrderBook.get2 msg0 "Data" "Price" = Ok (JObj (app pre ((q, v) :: post))) ->
  ~ In q (map fst post) ->
  dict_get "Time" msg0 = Some (JNum time) ->
  OrderBook.trade_message_from_exchange lib msg0 (Some [("trading_pair", tp)]) = Ok m ->
  dict_get "trading_pair" (OrderBook.content m) = Some (JStr tp) /\
  dict_get "price" (OrderBook.content m) = Some v /\
  OrderBook.timestamp m = Some (time * (1 # 1000)).
Proof.
  intros Hq Hp Hn Ht H.
  unfold OrderBook.trade_message_from_exchange in H. rewrite apply_trading_pair in H.
  rewrite !get2_set_other in H by discriminate.
  unfold dict_getitem in H.
  rewrite dict_get_set_other in H by discriminate. rewrite dict_get_set_same, Ht, Hp in H.
  cbn [bind] in H. rewrite (select_price_hit _ q pre post v None Hq Hn) in H. cbn [bind] in H.
  peel_bind H. injection H as <-. cbn. split; [reflexivity|]. split; reflexivity.
Qed.

(** Extra X5. When the quote currency [q] of the trading pair (the part
    after its first ["-"]) is a key of [Data.Price] that no later key
    repeats, the trade message built for that pair carries its value as
    [price], and its timestamp is [Time / 1000]. *)
Theorem trade_message_price_and_time (lib : PyLib) (msg0 : list (string * json)) (tp q : string)
    (pre post : list (string * json)) (v : json) (time : Q) (m : OrderBook.OrderBookMessage) :
  list_index (py_split "-" tp) 1 = Ok q ->
  OrderBook.get2 msg0 "Data" "Price" = Ok (JObj (app pre ((q, v) :: post))) ->
  ~ In q (map fst post) ->
  dict_get "Time" msg0 = Some (JNum time) ->
  OrderBook.trade_message_from_exchange lib msg0 (Some [("trading_pair", tp)]) = Ok m ->
  dict_get "trading_pair" (OrderBook.content m) = Some (JStr tp) /\
  dict_get "price" (OrderBook.content m) = Some v /\
  OrderBook.timestamp m = Some (time * (1 # 1000)).
Proof. apply trade_message_fields. Qed.

Lemma trade_message_price_and_time_witness :
  exists m,
    OrderBook.trade_message_from_exchange pylib NormInputs.trade_event (Some [("trading_pair", "xbt-usd")]) = Ok m /\
    dict_get "trading_pair" (OrderBook.content m) = Some (JStr "xbt-usd") /\
    dict_get "price" (OrderBook.content m) = Some (JStr "100") /\
    OrderBook.timestamp m = Some (1619870400000 * (1 # 1000)).
Proof.
  pose (m := match OrderBook.trade_message_from_exchange pylib NormInputs.trade_event
                     (Some [("trading_pair", "xbt-usd")]) with
             | Ok m => m
             | Err _ => {| OrderBook.message_type := OrderBook.TRADE; OrderBook.content := [];
                           OrderBook.timestamp := None |}
             end).
  assert (Hm : OrderBook.trade_message_from_exchange pylib NormInputs.trade_event
                 (Some [("trading_pair", "xbt-usd")]) = Ok m) by (vm_compute; reflexivity).
  exists m. split; [exact Hm|].
  exact (trade_message_price_and_time pylib NormInputs.trade_event "xbt-usd" "usd" []
           [("aud", JStr "140")] (JStr "100") 1619870400000 m
           ltac:(reflexivity) ltac:(reflexivity) ltac:(simpl; intuition discriminate)
           ltac:(reflexivity) Hm).
Defined.

(** Extra X6. The [bids] (resp. [asks]) of a snapshot message are, in
    order and one for one, the pairs [[Price, Volume]] of the entries of
    [BuyOrders] (resp. [SellOrders]). *)
Theorem snapshot_levels (lib : PyLib) (msg : list (string * json)) (ts : Q)
    (md : OrderBook.metadata_t) (m : OrderBook.OrderBookMessage) (buys sells : list json) :
  dict_get "BuyOrders" msg = Some (JArr buys) ->
  dict_get "SellOrders" msg = Some (JArr sells) ->
  OrderBook.snapshot_message_from_exchange lib msg ts md = Ok m ->
  exists bids asks,
    dict_get "bids" (OrderBook.content m) = Some (JArr bids) /\
    dict_get "asks" (OrderBook.content m) = Some (JArr asks) /\
    Forall2 (fun e l => exists p v, py_getitem e "Price" = Ok p /\ py_getitem e "Volume" = Ok v /\
                                    l = JArr [p; v]) buys bids /\
    Forall2 (fun e l => exists p v, py_getitem e "Price" = Ok p /\ py_getitem e "Volume" = Ok v /\
                                    l = JArr [p; v]) sells asks.
Proof.
  intros Hb Hs H.
  unfold OrderBook.snapshot_message_from_exchange, dict_getitem in H. rewrite Hb, Hs in H.
  peel_bind H. injection H as <-.
  unfold OrderBook.price_volume_pairs in E1, E2. cbn [py_iter bind] in E1, E2.
  exists a1, a2. cbn. split; [reflexivity|]. split; [reflexivity|].
  assert (Hl : forall e l,
            (p <- py_getitem e "Price" ;; v <- py_getitem e "Volume" ;; Ok (JArr [p; v])) = Ok l ->
            exists p v, py_getitem e "Price" = Ok p /\ py_getitem e "Volume" = Ok v /\ l = JArr [p; v]).
  { intros e l He.
    destruct (py_getitem e "Price") as [p|]; cbn [bind] in He; [|discriminate].
    destruct (py_getitem e "Volume") as [v|]; cbn [bind] in He; [|discriminate].
    injection He as <-. exists p, v. auto. }
  apply map_res_forall2 in E1. apply map_res_forall2 in E2.
  split; (eapply Forall2_impl; [exact Hl|]); assumption.
Qed.

Lemma snapshot_levels_witness :
  exists bids asks,
    dict_get "bids" (OrderBook.content (OrderBook.Build_OrderBookMessage OrderBook.SNAPSHOT
       [("trading_pair", JStr "XBT-AUD"); ("update_id", JNum 0);
        ("bids", JArr [JArr [JNum 74000; JNum (1 # 4)]]); ("asks", JArr [JArr [JNum 74100; JNum 2]])]
       (Some 7))) = Some (JArr bids) /\
    dict_get "asks" (OrderBook.content (OrderBook.Build_OrderBookMessage OrderBook.SNAPSHOT
       [("trading_pair", JStr "XBT-AUD"); ("update_id", JNum 0);
        ("bids", JArr [JArr [JNum 74000; JNum (1 # 4)]]); ("asks", JArr [JArr [JNum 74100; JNum 2]])]
       (Some 7))) = Some (JArr asks) /\
    Forall2 (fun e l => exists p v, py_getitem e "Price" = Ok p /\ py_getitem e "Volume" = Ok v /\
                                    l = JArr [p; v])
      [JObj [("OrderType", JStr "LimitBid"); ("Price", JNum 74000); ("Volume", JNum (1 # 4))]] bids /\
    Forall2 (fun e l => exists p v, py_getitem e "Price" = Ok p /\ py_getitem e "Volume" = Ok v /\
                                    l = JArr [p; v])
      [JObj [("OrderType", JStr "LimitOffer"); ("Price", JNum 74100); ("Volume", JNum 2)]] asks.
Proof.
  exact (snapshot_levels pylib NormInputs.snapshot_payload 7 NormInputs.xbt_aud
           (OrderBook.Build_OrderBookMessage OrderBook.SNAPSHOT
              [("trading_pair", JStr "XBT-AUD"); ("update_id", JNum 0);
               ("bids", JArr [JArr [JNum 74000; JNum (1 # 4)]]); ("asks", JArr [JArr [JNum 74100; JNum 2]])]
              (Some 7))
           _ _ ltac:(reflexivity) ltac:(reflexivity) ltac:(vm_compute; reflexivity)).
Defined.

(** Extra X7. Without metadata neither a snapshot nor a diff message can be
    built: both calls raise (the trading pair is read from the metadata). *)
Theorem normaliser_requires_metadata (lib : PyLib) (msg : list (string * json)) (ts : Q)
    (ts' : option Q) (m : OrderBook.OrderBookMessage) :
  OrderBook.snapshot_message_from_exchange lib msg ts None <> Ok m /\
  OrderBook.diff_message_from_exchange lib msg ts' None <> Ok m.
Proof.
  split; intros H.
  - unfold OrderBook.snapshot_message_from_exchange in H. peel_bind H. discriminate.
  - unfold OrderBook.diff_message_from_exchange, OrderBook.apply_metadata in H.
    destruct (negb (dict_has "Channel" msg)).
    + peel_bind H. discriminate.
    + unfold OrderBook.ws_diff_update in H. discriminate.
Qed.

(* ------------------------------------------------------------------ *)
(** ** Further properties of the authenticator *)

Lemma dict_get_notin {A : Type} (k : string) (d : list (string * A)) :
  ~ In k (map fst d) -> dict_get k d = None.
Proof.
  induction d as [|[k' v'] d IH]; simpl; intros Hn; [reflexivity|].
  destruct (String.eqb_spec k k') as [->|]; [tauto|]. apply IH. tauto.
Qed.

Lemma dict_update_fresh {A : Type} (h : list (string * A)) :
  forall d, NoDup (map fst (app d h)) -> dict_update d h = app d h.
Proof.
  unfold dict_update.
  induction h as [|[k v] h IH]; intros d Hnd; simpl; [rewrite app_nil_r; reflexivity|].
  rewrite map_app in Hnd. simpl in Hnd.
  assert (Hk : ~ In k (map fst d)).
  { intros Hin. apply NoDup_remove_2 in Hnd. apply Hnd. apply in_or_app. left. exact Hin. }
  rewrite dict_set_fresh by (apply dict_get_notin; exact Hk).
  rewrite IH.
  - rewrite <- app_assoc. reflexivity.
  - rewrite <- app_assoc, map_app. simpl. exact Hnd.
Qed.

(** Extra X8. [rest_authenticate] sets the headers to the request's headers
    (none counting as an empty dict) with ["Content-Type"] set to
    ["application/json"]: an existing entry is overwritten in place, the
    others are kept in order, and the entry is appended when absent. *)
Theorem rest_authenticate_headers (hmac : list ascii -> list ascii -> list ascii)
    (a : Auth.IndependentreserveAuth) (now : Q) (req : Auth.RESTRequest) :
  let h := match Auth.headers req with Some h => h | None => [] end in
  NoDup (map fst h) ->
  Auth.headers (Auth.rest_authenticate hmac a now req) =
  Some (dict_set "Content-Type" "application/json" h).
Proof.
  intros h Hnd. unfold Auth.rest_authenticate. cbn [Auth.headers].
  assert (Hh : match Auth.headers req with Some h => dict_update [] h | None => [] end = h).
  { subst h. destruct (Auth.headers req) as [h|]; [|reflexivity].
    apply (dict_update_fresh h []). exact Hnd. }
  rewrite Hh. reflexivity.
Qed.

Lemma rest_authenticate_headers_witness :
  NoDup (map fst [("Accept", "text/plain"); ("Content-Type", "text/html")]) /\
  Auth.headers (Auth.rest_authenticate Sha256.hmac_sha256 AuthInputs.test_auth 1000
    {| Auth.method := Auth.GET; Auth.url := "https://api.independentreserve.com/Private/GetTrades";
       Auth.params := None; Auth.data := None;
       Auth.headers := Some [("Accept", "text/plain"); ("Content-Type", "text/html")] |}) =
  Some (dict_set "Content-Type" "application/json" [("Accept", "text/plain"); ("Content-Type", "text/html")]).
Proof.
  assert (Hnd : NoDup (map fst [("Accept", "text/plain"); ("Content-Type", "text/html")])).
  { simpl. constructor; [simpl; intros [H|[]]; discriminate|]. constructor; [simpl; tauto|constructor]. }
  exact (conj Hnd (rest_authenticate_headers Sha256.hmac_sha256 AuthInputs.test_auth 1000
    {| Auth.method := Auth.GET; Auth.url := "https://api.independentreserve.com/Private/GetTrades";
       Auth.params := None; Auth.data := None;
       Auth.headers := Some [("Accept", "text/plain"); ("Content-Type", "text/html")] |} Hnd)).
Defined.

(** Extra X9. The body [rest_authenticate] sets depends only on the URL, the
    parameters and the clock: whatever the method (POST or not) and whatever
    [request.data] held before, two requests with the same URL and
    parameters get the same body. *)
Theorem rest_authenticate_body_ignores_method_and_data (hmac : list ascii -> list ascii -> list ascii)
    (a : Auth.IndependentreserveAuth) (now : Q) (req req' : Auth.RESTRequest) :
  Auth.url req = Auth.url req' ->
  Auth.params req = Auth.params req' ->
  Auth.data (Auth.rest_authenticate hmac a now req) = Auth.data (Auth.rest_authenticate hmac a now req').
Proof. intros Hu Hp. rewrite !rest_authenticate_data, Hu, Hp. reflexivity. Qed.

Lemma rest_authenticate_body_ignores_method_and_data_witness :
  Auth.data (Auth.rest_authenticate Sha256.hmac_sha256 AuthInputs.test_auth 1000
    {| Auth.method := Auth.POST; Auth.url := Auth.url AuthInputs.get_trades_request;
       Auth.params := Auth.params AuthInputs.get_trades_request;
       Auth.data := Some [("pageIndex", JNum 3)]; Auth.headers := None |}) =
  Auth.data (Auth.rest_authenticate Sha256.hmac_sha256 AuthInputs.test_auth 1000
    {| Auth.method := Auth.GET; Auth.url := Auth.url AuthInputs.get_trades_request;
       Auth.params := Auth.params AuthInputs.get_trades_request;
       Auth.data := None; Auth.headers := None |}).
Proof.
  exact (rest_authenticate_body_ignores_method_and_data Sha256.hmac_sha256 AuthInputs.test_auth 1000
    {| Auth.method := Auth.POST; Auth.url := Auth.url AuthInputs.get_trades_request;
       Auth.params := Auth.params AuthInputs.get_trades_request;
       Auth.data := Some [("pageIndex", JNum 3)]; Auth.headers := None |}
    {| Auth.method := Auth.GET; Auth.url := Auth.url AuthInputs.get_trades_request;
       Auth.params := Auth.params AuthInputs.get_trades_request;
       Auth.data := None; Auth.headers := None |} eq_refl eq_refl).
Defined.

Lemma fold_dict_set_get {A : Type} (g : string -> A) (ks : list string) :
  forall d k,
  dict_get k (fold_left (fun d key => dict_set key (g key) d) ks d) =
  if existsb (String.eqb k) ks then Some (g k) else dict_get k d.
Proof.
  induction ks as [|k0 ks IH]; intros d k; simpl; [reflexivity|].
  rewrite IH. destruct (String.eqb_spec k k0) as [->|Hne]; simpl.
  - destruct (existsb (String.eqb k0) ks); [reflexivity|]. apply dict_get_set_same.
  - rewrite dict_get_set_other by exact Hne. reflexivity.
Qed.

Lemma existsb_keys {A : Type} (k : string) (d : list (string * A)) :
  existsb (String.eqb k) (map fst d) = match dict_get k d with Some _ => true | None => false end.
Proof.
  induction d as [|[k' v'] d IH]; simpl; [reflexivity|].
  destruct (String.eqb k k'); [reflexivity | exact IH].
Qed.

(** Extra X10. Each key of the body holds the request parameter of that
    name when there is one, and otherwise the authentication field
    ([apiKey], [nonce] as a decimal string, [signature]): a parameter named
    like an authentication field replaces it in the body. *)
Theorem add_auth_to_data_lookup (hmac : list ascii -> list ascii -> list ascii)
    (a : Auth.IndependentreserveAuth) (ts : Z) (u : string) (o : option Auth.params_t) (k : string) :
  dict_get k (Auth.add_auth_to_data hmac a ts u o) =
  match dict_get k (Auth.params_of o) with
  | Some v => Some (Auth.pyval_to_json v)
  | None =>
      dict_get k [("apiKey", JStr (Auth.api_key a)); ("nonce", JStr (z_to_dec ts));
                  ("signature", JStr (Auth._generate_signature hmac a (Auth.add_auth_message a ts u o)))]
  end.
Proof.
  unfold Auth.add_auth_to_data. rewrite fold_dict_set_get, truthy_params_keys, existsb_keys.
  unfold Auth.param_value. destruct (dict_get k (Auth.params_of o)); reflexivity.
Qed.

(** The signature as [hex_upper] of the HMAC digest. *)
Lemma be_bytes_length (n : nat) (x : Z) : length (Sha256.be_bytes n x) = n.
Proof.
  revert x. induction n as [|n IH]; intros x; simpl; [reflexivity|].
  rewrite length_app, IH. simpl. lia.
Qed.

Lemma round_length (st : list Z) (kw : Z * Z) : length st = 8%nat -> length (Sha256.round st kw) = 8%nat.
Proof.
  intros H. do 8 (destruct st as [|? st]; [discriminate|]).
  destruct st; [reflexivity|discriminate].
Qed.

Lemma fold_round_length (kws : list (Z * Z)) :
  forall st, length st = 8%nat -> length (fold_left Sha256.round kws st) = 8%nat.
Proof.
  induction kws as [|kw kws IH]; intros st H; simpl; [exact H|].
  apply IH, round_length, H.
Qed.

Lemma fold_compress_length (bs : list (list Z)) :
  forall hs, length hs = 8%nat -> length (fold_left Sha256.compress bs hs) = 8%nat.
Proof.
  induction bs as [|b bs IH]; intros hs H; simpl; [exact H|].
  apply IH. unfold Sha256.compress. rewrite length_map, length_combine, H, fold_round_length by exact H.
  reflexivity.
Qed.

Lemma flat_map_be_bytes_length (l : list Z) :
  length (flat_map (Sha256.be_bytes 4) l) = (4 * length l)%nat.
Proof.
  induction l as [|x l IH]; cbn [flat_map]; [reflexivity|].
  rewrite length_app, be_bytes_length, IH. cbn [length]. lia.
Qed.

Lemma sha256_length (m : list Z) : length (Sha256.sha256 m) = 32%nat.
Proof.
  unfold Sha256.sha256. rewrite flat_map_be_bytes_length, fold_compress_length by reflexivity.
  reflexivity.
Qed.

Lemma hmac_sha256_length (key m : list ascii) : length (Sha256.hmac_sha256 key m) = 32%nat.
Proof. unfold Sha256.hmac_sha256, Sha256.hmac. rewrite length_map. apply sha256_length. Qed.

Lemma hex_upper_length (d : list ascii) : String.length (AuthSpec.hex_upper d) = (2 * length d)%nat.
Proof. induction d as [|b d IH]; simpl; [reflexivity|]. rewrite IH. lia. Qed.

Lemma hex_digit_upper_in (n : nat) :
  (n < 16)%nat -> In (AuthSpec.hex_digit_upper n) (list_ascii_of_string "0123456789ABCDEF").
Proof.
  intros H. do 16 (destruct n as [|n]; [simpl; auto 20|]). lia.
Qed.

Lemma hex_upper_chars (d : list ascii) (c : ascii) :
  In c (list_ascii_of_string (AuthSpec.hex_upper d)) -> In c (list_ascii_of_string "0123456789ABCDEF").
Proof.
  induction d as [|b d IH]; cbn [AuthSpec.hex_upper list_ascii_of_string In]; [tauto|].
  pose proof (nat_ascii_bounded b) as Hb.
  intros [Hc|[Hc|H]]; [rewrite <- Hc | rewrite <- Hc | exact (IH H)]; apply hex_digit_upper_in.
  - apply Nat.Div0.div_lt_upper_bound. lia.
  - apply Nat.mod_upper_bound. discriminate.
Qed.

(** Extra X11. With HMAC-SHA256, every signature is 64 characters long and
    made of the upper-case hex digits [0-9A-F] only. *)
Theorem signature_shape (a : Auth.IndependentreserveAuth) (msg : string) :
  String.length (Auth._generate_signature Sha256.hmac_sha256 a msg) = 64%nat /\
  (forall c, In c (list_ascii_of_string (Auth._generate_signature Sha256.hmac_sha256 a msg)) ->
             In c (list_ascii_of_string "0123456789ABCDEF")).
Proof.
  unfold Auth._generate_signature. rewrite py_upper_hexdigest. split.
  - rewrite hex_upper_length, hmac_sha256_length. reflexivity.
  - apply hex_upper_chars.
Qed.

Lemma py_int_of_float_floor (q : Q) : 0 <= q -> py_int_of_float q = Qfloor q.
Proof.
  destruct q as [n d]. unfold Qle, py_int_of_float, Qfloor. simpl. intros H.
  apply Z.quot_div_nonneg; lia.
Qed.

(** Extra X12. The nonce [int(time * 1e3)] never decreases as the clock
    advances, and it increases strictly once the clock has advanced by a
    millisecond or more (two requests less than a millisecond apart can get
    the same nonce). *)
Theorem nonce_monotone (now1 now2 : Q) :
  0 <= now1 -> now1 <= now2 ->
  (py_int_of_float (now1 * 1000) <= py_int_of_float (now2 * 1000))%Z /\
  (now1 + (1 # 1000) <= now2 -> (py_int_of_float (now1 * 1000) < py_int_of_float (now2 * 1000))%Z).
Proof.
  intros H0 H12.
  rewrite !py_int_of_float_floor by lra.
  split.
  - apply Qfloor_resp_le. lra.
  - intros Hms. rewrite Zlt_Qlt.
    pose proof (Qfloor_le (now1 * 1000)) as Hf1.
    pose proof (Qlt_floor (now2 * 1000)) as Hf2.
    rewrite inject_Z_plus in Hf2. change (inject_Z 1) with 1 in Hf2. lra.
Qed.

Lemma nonce_monotone_witness :
  (py_int_of_float (1619870400 * 1000) <= py_int_of_float ((1619870400 + (1 # 2000)) * 1000))%Z /\
  (1619870400 + (1 # 1000) <= 1619870400 + (1 # 2000) ->
   (py_int_of_float (1619870400 * 1000) < py_int_of_float ((1619870400 + (1 # 2000)) * 1000))%Z) /\
  py_int_of_float (1619870400 * 1000) = py_int_of_float ((1619870400 + (1 # 2000)) * 1000).
Proof.
  refine (conj _ (conj _ _)).
  - exact (proj1 (nonce_monotone 1619870400 (1619870400 + (1 # 2000))
                    ltac:(vm_compute; discriminate) ltac:(vm_compute; discriminate))).
  - exact (proj2 (nonce_monotone 1619870400 (1619870400 + (1 # 2000))
                    ltac:(vm_compute; discriminate) ltac:(vm_compute; discriminate))).
  - vm_compute. reflexivity.
Defined.

(* ------------------------------------------------------------------ *)
(** ** Further properties of the order-book data source *)

Lemma string_app_nil_r (s : string) : s ++ "" = s.
Proof. induction s as [|c s IH]; simpl; [reflexivity | rewrite IH; reflexivity]. Qed.

(** Extra X13. The recent-trades URL for currency codes [s0], [s1] (and any
    further codes, which are ignored) is
    [https://api.independentreserve.<domain>/Public/GetRecentTrades?primaryCurrencyCode=<s0>&secondaryCurrencyCode=<s1>&numberOfRecentTradesToRetrieve=50],
    the codes inserted verbatim; with a single code the call raises
    [IndexError]. *)
Theorem ticker_url_shape (domain s0 s1 : string) (rest : list string) :
  DataSource.public_rest_url DataSource.TICKER_PRICE_CHANGE_PATH_URL (Some (s0 :: s1 :: rest)) domain =
  Ok ("https://api.independentreserve." ++ domain ++
      "/Public/GetRecentTrades?primaryCurrencyCode=" ++ s0 ++
      "&secondaryCurrencyCode=" ++ s1 ++ "&numberOfRecentTradesToRetrieve=50") /\
  DataSource.public_rest_url DataSource.TICKER_PRICE_CHANGE_PATH_URL (Some [s0]) domain = Err IndexError.
Proof.
  split; [|reflexivity].
  unfold DataSource.public_rest_url, DataSource.py_format. simpl.
  rewrite string_app_nil_r. reflexivity.
Qed.

Lemma forall2_in_l {A B : Type} (R : A -> B -> Prop) (l : list A) (l' : list B) (x : A) :
  Forall2 R l l' -> In x l -> exists y, In y l' /\ R x y.
Proof.
  induction 1 as [|a b l l' Hab _ IH]; simpl; [tauto|].
  intros [<-|Hx]; [exists b; auto|]. destruct (IH Hx) as [y [Hy Hr]]. exists y. auto.
Qed.

(** Extra X14. For a trading pair without ["-"], [_get_last_traded_price]
    raises [IndexError] before any request is made (whatever the exchange
    would answer), so [get_last_traded_prices] fails for any list of pairs
    containing one. *)
Theorem last_traded_price_needs_dash (tp domain : string) (trading_pairs : list string)
    (call : string -> DataSource.RESTResponse) (r : list (string * option Q)) :
  ~ In "-"%char (list_ascii_of_string tp) ->
  DataSource._get_last_traded_price tp domain call = Err IndexError /\
  (In tp trading_pairs -> DataSource.get_last_traded_prices trading_pairs domain call <> Ok r).
Proof.
  intros Hn.
  assert (He : DataSource._get_last_traded_price tp domain call = Err IndexError).
  { unfold DataSource._get_last_traded_price. rewrite py_split_no_sep by exact Hn. reflexivity. }
  split; [exact He|].
  intros Hin H. unfold DataSource.get_last_traded_prices in H.
  destruct (map_res (fun t_pair => DataSource._get_last_traded_price t_pair domain call) trading_pairs)
    as [results|] eqn:Em; [|discriminate].
  apply map_res_forall2 in Em.
  destruct (forall2_in_l _ _ _ _ Em Hin) as [y [_ Hy]]. congruence.
Qed.

Lemma last_traded_price_needs_dash_witness :
  DataSource._get_last_traded_price "XBTAUD" "com" (fun _ => SourceInputs.recent_trades_response SourceInputs.xbt_aud_market) = Err IndexError /\
  (In "XBTAUD" ["XBT-AUD"; "XBTAUD"] ->
   DataSource.get_last_traded_prices ["XBT-AUD"; "XBTAUD"] "com" (fun _ => SourceInputs.recent_trades_response SourceInputs.xbt_aud_market)
   <> Ok []).
Proof.
  exact (last_traded_price_needs_dash "XBTAUD" "com" ["XBT-AUD"; "XBTAUD"]
           (fun _ => SourceInputs.recent_trades_response SourceInputs.xbt_aud_market) [] ltac:(simpl; intuition discriminate)).
Defined.

(** Extra X15. When the exchange answers the recent-trades request of a
    pair with a status other than 200, [get_last_traded_prices] (if it
    returns) maps that pair to [None]. *)
Theorem last_traded_price_non_200 (trading_pairs : list string) (domain tp url : string)
    (call : string -> DataSource.RESTResponse) (d : list (string * option Q)) :
  DataSource.public_rest_url DataSource.TICKER_PRICE_CHANGE_PATH_URL (Some (py_split "-" tp)) domain = Ok url ->
  DataSource.status (call url) <> 200%Z ->
  In tp trading_pairs ->
  DataSource.get_last_traded_prices trading_pairs domain call = Ok d ->
  dict_get tp d = Some None.
Proof.
  intros Hu Hs Hin H.
  assert (Hn : DataSource._get_last_traded_price tp domain call = Ok None).
  { unfold DataSource._get_last_traded_price. rewrite Hu. cbn [bind].
    apply Z.eqb_neq in Hs. rewrite Hs. reflexivity. }
  unfold DataSource.get_last_traded_prices in H.
  destruct (map_res (fun t_pair => DataSource._get_last_traded_price t_pair domain call) trading_pairs)
    as [results|] eqn:Em; cbn [bind] in H; [|discriminate].
  injection H as <-. apply map_res_forall2 in Em.
  pose proof (fold_dict_set_bound (combine trading_pairs results) [] tp) as Hb.
  rewrite (forall2_map_fst_combine _ _ _ Em) in Hb.
  destruct (dict_get tp (fold_left (fun d pr => dict_set (fst pr) (snd pr) d)
                           (combine trading_pairs results) [])) as [v|] eqn:Ev.
  - pose proof (fold_dict_set_inv (fun k v => DataSource._get_last_traded_price k domain call = Ok v)
                  (combine trading_pairs results) [] (forall2_in_combine _ _ _ Em)
                  ltac:(intros k v0 Hk; discriminate) tp v Ev) as Hv.
    cbn beta in Hv. rewrite Hn in Hv. injection Hv as <-. reflexivity.
  - exfalso. apply Hb; [left; exact Hin | reflexivity].
Qed.

Lemma last_traded_price_non_200_witness :
  dict_get "XBT-AUD" [("XBT-AUD", @None Q)] = Some None.
Proof.
  exact (last_traded_price_non_200 ["XBT-AUD"] "com" "XBT-AUD"
           ("https://api.independentreserve.com/Public/GetRecentTrades?primaryCurrencyCode=XBT" ++
            "&secondaryCurrencyCode=AUD&numberOfRecentTradesToRetrieve=50")
           (fun _ => {| DataSource.status := 429; DataSource.body := JNull |}) [("XBT-AUD", None)]
           ltac:(vm_compute; reflexivity) ltac:(discriminate) ltac:(simpl; auto)
           ltac:(vm_compute; reflexivity)).
Defined.

Lemma iter_messages_app (pre rest : list json) (qs : DataSource.queues) :
  snd (DataSource.iter_messages pre qs) = None ->
  DataSource.iter_messages (app pre rest) qs = DataSource.iter_messages rest (fst (DataSource.iter_messages pre qs)).
Proof.
  revert qs. induction pre as [|d pre IH]; intros qs H; simpl; [reflexivity|].
  simpl in H. destruct (DataSource.route d) as [[[key kvs]|]|e]; auto. discriminate.
Qed.

(** Extra X16. A [Heartbeat] or [Subscriptions] event makes the router
    raise [TypeError] (the membership test [[...] in data] hashes a list),
    which ends the connection: no message after it is routed, and the
    queues keep what the earlier messages put there. *)
Theorem heartbeat_ends_connection (pre post : list json) (kvs : list (string * json))
    (e : string) (qs : DataSource.queues) :
  dict_get "Event" kvs = Some (JStr e) ->
  In e ["Heartbeat"; "Subscriptions"] ->
  snd (DataSource.iter_messages pre qs) = None ->
  DataSource.iter_messages (app pre (JObj kvs :: post)) qs =
  (fst (DataSource.iter_messages pre qs), Some TypeError).
Proof.
  intros Hev Hin Hpre. rewrite iter_messages_app by exact Hpre. simpl.
  rewrite Hev. simpl in Hin. destruct Hin as [<-|[<-|[]]]; reflexivity.
Qed.

Lemma heartbeat_ends_connection_witness :
  DataSource.iter_messages
    (app [JObj NormInputs.trade_event]
         (JObj [("Event", JStr "Heartbeat")] :: [JObj (EventInputs.order_event "NewOrder" "LimitBid")]))
    DataSource.empty_queues =
  ({| DataSource.diff_queue := []; DataSource.trade_queue := [NormInputs.trade_event] |}, Some TypeError).
Proof.
  exact (heartbeat_ends_connection [JObj NormInputs.trade_event]
           [JObj (EventInputs.order_event "NewOrder" "LimitBid")] [("Event", JStr "Heartbeat")]
           "Heartbeat" DataSource.empty_queues ltac:(reflexivity) ltac:(simpl; auto) ltac:(reflexivity)).
Defined.

Lemma diff_event_not_trade (ev : json) :
  py_in_strs ev ["NewOrder"; "OrderChanged"; "OrderCanceled"] = true ->
  py_in_strs ev [DataSource.TRADE_EVENT_TYPE] = false.
Proof.
  unfold py_in_strs. destruct ev as [| | |s| |]; simpl; try discriminate.
  rewrite !orb_false_r. intros H.
  repeat (apply orb_true_iff in H; destruct H as [H|H]); apply String.eqb_eq in H; subst; reflexivity.
Qed.

(** Extra X17. On a connection whose messages are dicts with no
    [Heartbeat] or [Subscriptions] event, the router puts, in arrival
    order, the [NewOrder], [OrderChanged] and [OrderCanceled] events on the
    diff queue and the [Trade] events on the trade queue, drops every other
    message, and raises nothing. *)
Theorem router_queues (ds : list (list (string * json))) (qs : DataSource.queues) :
  let event kvs := match dict_get "Event" kvs with Some v => v | None => JNull end in
  Forall (fun kvs => py_in_strs (event kvs) ["Heartbeat"; "Subscriptions"] = false) ds ->
  DataSource.iter_messages (map JObj ds) qs =
  ({| DataSource.diff_queue :=
        app (DataSource.diff_queue qs)
            (filter (fun kvs => py_in_strs (event kvs) ["NewOrder"; "OrderChanged"; "OrderCanceled"]) ds);
      DataSource.trade_queue :=
        app (DataSource.trade_queue qs)
            (filter (fun kvs => py_in_strs (event kvs) [DataSource.TRADE_EVENT_TYPE]) ds) |}, None).
Proof.
  intros event Hall. revert qs. induction Hall as [|kvs ds Hhb _ IH]; intros qs;
    cbn [map filter DataSource.iter_messages DataSource.route].
  - rewrite !app_nil_r. destruct qs; reflexivity.
  - unfold event in Hhb, IH |- *. rewrite Hhb.
    destruct (py_in_strs _ ["NewOrder"; "OrderChanged"; "OrderCanceled"]) eqn:Ed.
    + rewrite (diff_event_not_trade _ Ed). rewrite IH. simpl. rewrite <- app_assoc. reflexivity.
    + destruct (py_in_strs _ [DataSource.TRADE_EVENT_TYPE]) eqn:Et.
      * rewrite IH. simpl. rewrite <- app_assoc. reflexivity.
      * apply IH.
Qed.

Lemma router_queues_witness :
  DataSource.iter_messages
    (map JObj [NormInputs.trade_event; EventInputs.order_event "OrderCanceled" "LimitBid";
               SourceInputs.something_new])
    DataSource.empty_queues =
  ({| DataSource.diff_queue := app [] [EventInputs.order_event "OrderCanceled" "LimitBid"];
      DataSource.trade_queue := app [] [NormInputs.trade_event] |}, None).
Proof.
  exact (router_queues [NormInputs.trade_event; EventInputs.order_event "OrderCanceled" "LimitBid";
                        SourceInputs.something_new] DataSource.empty_queues
           ltac:(repeat constructor)).
Defined.

(** ** Further properties of the listening loops and the symbol map *)

Lemma upd_pair_new lib msg tp fiat b u :
  OrderBook.new_order_update lib msg tp fiat b = Ok u -> dict_get "trading_pair" u = Some (JStr tp).
Proof. unfold OrderBook.new_order_update. intros H. peel_bind H. injection H as <-. reflexivity. Qed.
Lemma upd_pair_canceled msg tp u :
  OrderBook.canceled_update msg tp = Ok u -> dict_get "trading_pair" u = Some (JStr tp).
Proof. unfold OrderBook.canceled_update. intros H. peel_bind H. injection H as <-. reflexivity. Qed.
Lemma upd_pair_changed msg tp u :
  OrderBook.changed_update msg tp = Ok u -> dict_get "trading_pair" u = Some (JStr tp).
Proof. unfold OrderBook.changed_update. intros H. peel_bind H. injection H as <-. reflexivity. Qed.

Lemma ws_pair lib msg tp u :
  OrderBook.ws_diff_update lib msg (Some [("trading_pair", tp)]) = Ok u ->
  dict_get "trading_pair" u = Some (JStr tp).
Proof.
  unfold OrderBook.ws_diff_update.
  change (OrderBook.metadata_getitem (Some [("trading_pair", tp)]) "trading_pair") with (Ok tp : res string).
  cbn [bind]. intros H. peel_bind H.
  repeat match goal with
  | E : (if ?c then _ else _) = Ok _ |- _ => destruct c
  | E : OrderBook.some_update ?r = Ok _ |- _ =>
      unfold OrderBook.some_update in E; destruct r eqn:?; cbn [bind] in E; [injection E as <-|discriminate E]
  | E : Ok _ = Ok _ |- _ => injection E as E; subst
  | E : bind _ _ = Ok _ |- _ => peel_bind E
  end.
  all: try match goal with
       | H : match ?o with Some _ => _ | None => _ end = Ok _ |- _ =>
           destruct o; [injection H as <-|discriminate H]
       end.
  all: try (eauto using upd_pair_new, upd_pair_canceled, upd_pair_changed; fail).
  all: discriminate.
Qed.

Ltac metadata_pair :=
  repeat match goal with
  | E : OrderBook.metadata_getitem (Some [("trading_pair", ?tp)]) "trading_pair" = Ok _ |- _ =>
      change (OrderBook.metadata_getitem (Some [("trading_pair", tp)]) "trading_pair")
        with (Ok tp : res string) in E; injection E as <-
  end.

Lemma diff_message_pair lib msg ts tp m :
  OrderBook.diff_message_from_exchange lib msg ts (Some [("trading_pair", tp)]) = Ok m ->
  OrderBook.message_type m = OrderBook.DIFF /\ OrderBook.timestamp m = ts /\
  dict_get "trading_pair" (OrderBook.content m) = Some (JStr tp).
Proof.
  unfold OrderBook.diff_message_from_exchange. destruct (negb _); intros H; peel_bind H.
  - injection H as <-. metadata_pair. auto.
  - injection H as <-. split; [reflexivity|]. split; [reflexivity|]. eapply ws_pair. eassumption.
Qed.

(** Extra X18. [listen_for_order_book_diffs]: every queued item without a
    ["data"] key gives exactly one diff message or one logged error; the items
    with one are skipped. Every message put on the output queue is a DIFF
    whose trading pair is [''.join(self._trading_pairs)]. *)
Theorem diff_loop_outputs (lib : PyLib) (trading_pairs : list string) (items : list (Q * list (string * json))) :
  let '(out, log) := DataSource.listen_for_order_book_diffs lib trading_pairs items in
  (length out + length log = length (filter (fun it => negb (dict_has "data" (snd it))) items))%nat /\
  Forall (fun m => OrderBook.message_type m = OrderBook.DIFF /\
                   dict_get "trading_pair" (OrderBook.content m) = Some (JStr (String.concat "" trading_pairs)))
         out.
Proof.
  induction items as [|[now json_msg] items IH]; simpl; [split; [reflexivity|constructor]|].
  destruct (DataSource.listen_for_order_book_diffs lib trading_pairs items) as [out log].
  destruct IH as [Hlen Hall].
  destruct (dict_has "data" json_msg); simpl; [split; assumption|].
  destruct (OrderBook.diff_message_from_exchange lib json_msg (Some now) _) as [m|e] eqn:Em; simpl.
  - apply diff_message_pair in Em. split; [lia|]. constructor; [tauto|exact Hall].
  - split; [lia|exact Hall].
Qed.

Lemma snapshot_of_body_pair lib b now tp m :
  DataSource.snapshot_of_body lib b now tp = Ok m ->
  OrderBook.message_type m = OrderBook.SNAPSHOT /\
  dict_get "trading_pair" (OrderBook.content m) = Some (JStr tp).
Proof.
  unfold DataSource.snapshot_of_body. intros H. peel_bind H.
  destruct a; try discriminate.
  unfold OrderBook.snapshot_message_from_exchange in H. peel_bind H. metadata_pair.
  injection H as <-. auto.
Qed.

Lemma snapshot_round_counts lib tps src :
  let '(out, log) := DataSource.snapshot_round lib tps src in
  (length out + length log = length tps)%nat /\
  Forall (fun m => OrderBook.message_type m = OrderBook.SNAPSHOT /\
                   exists tp, In tp tps /\ dict_get "trading_pair" (OrderBook.content m) = Some (JStr tp)) out.
Proof.
  induction tps as [|tp tps IH]; simpl; [split; [reflexivity|constructor]|].
  destruct (DataSource.snapshot_round lib tps src) as [out log].
  destruct IH as [Hlen Hall]. destruct (src tp) as [snapshot now].
  destruct (DataSource.snapshot_of_body lib snapshot now tp) as [m|e] eqn:Em; simpl.
  - apply snapshot_of_body_pair in Em. split; [lia|]. constructor.
    + split; [tauto|]. exists tp. split; [left; reflexivity | tauto].
    + eapply Forall_impl; [|exact Hall]. intros m' [Ht [tp' [Hin Hg]]]. split; [exact Ht|].
      exists tp'. split; [right; exact Hin | exact Hg].
  - split; [lia|]. eapply Forall_impl; [|exact Hall]. intros m' [Ht [tp' [Hin Hg]]]. split; [exact Ht|].
    exists tp'. split; [right; exact Hin | exact Hg].
Qed.

(** Extra X19. [listen_for_order_book_snapshots]: each round gives, for each
    trading pair, one snapshot message or one logged error; every output message
    is a SNAPSHOT carrying one of the subscribed trading pairs. *)
Theorem snapshot_loop_counts (lib : PyLib) (trading_pairs : list string)
    (rounds : list DataSource.snapshot_source) :
  let '(out, log) := DataSource.listen_for_order_book_snapshots lib trading_pairs rounds in
  (length out + length log = length rounds * length trading_pairs)%nat /\
  Forall (fun m => OrderBook.message_type m = OrderBook.SNAPSHOT /\
                   exists tp, In tp trading_pairs /\
                              dict_get "trading_pair" (OrderBook.content m) = Some (JStr tp)) out.
Proof.
  induction rounds as [|src rounds IH]; simpl; [split; [reflexivity|constructor]|].
  pose proof (snapshot_round_counts lib trading_pairs src) as Hr.
  destruct (DataSource.snapshot_round lib trading_pairs src) as [out1 log1].
  destruct (DataSource.listen_for_order_book_snapshots lib trading_pairs rounds) as [out2 log2].
  destruct Hr as [Hl1 Ha1]. destruct IH as [Hl2 Ha2].
  rewrite !length_app. split; [lia|]. apply Forall_app. auto.
Qed.

Lemma last_key_snoc (items : list (string * json)) (k : string) (v : json) (acc : option string) :
  DataSource.last_key (app items [(k, v)]) acc = Some k.
Proof.
  revert acc. induction items as [|[k' v'] items IH]; intros acc; simpl; [reflexivity | apply IH].
Qed.

Lemma upper_char_dash (c : ascii) : upper_char c = "-"%char -> c = "-"%char.
Proof.
  unfold upper_char. destruct ((97 <=? nat_of_ascii c)%nat && (nat_of_ascii c <=? 122)%nat) eqn:E; [|auto].
  intros H. apply andb_true_iff in E. destruct E as [E1 E2]. apply Nat.leb_le in E1, E2.
  apply (f_equal nat_of_ascii) in H. rewrite nat_ascii_embedding in H by lia.
  change (nat_of_ascii "-"%char) with 45%nat in H. lia.
Qed.

Lemma lower_char_dash (c : ascii) : lower_char c = "-"%char -> c = "-"%char.
Proof.
  unfold lower_char. destruct ((65 <=? nat_of_ascii c)%nat && (nat_of_ascii c <=? 90)%nat) eqn:E; [|auto].
  intros H. apply andb_true_iff in E. destruct E as [E1 E2]. apply Nat.leb_le in E1, E2.
  apply (f_equal nat_of_ascii) in H. rewrite nat_ascii_embedding in H by lia.
  change (nat_of_ascii "-"%char) with 45%nat in H. lia.
Qed.

Lemma py_capitalize_no_dash (p : string) :
  ~ In "-"%char (list_ascii_of_string p) -> ~ In "-"%char (list_ascii_of_string (py_capitalize p)).
Proof.
  destruct p as [|c p]; simpl; [tauto|].
  intros Hn [Hc|Hin].
  - apply Hn. left. apply upper_char_dash. exact Hc.
  - apply Hn. right. clear Hn. unfold py_lower in Hin.
    induction p as [|c' p IH]; simpl in *; [exact Hin|].
    destruct Hin as [Hc'|Hin]; [left; apply lower_char_dash; exact Hc' | right; auto].
Qed.

Lemma trade_step_ok (lib : PyLib) (msp : option string) (json_msg : list (string * json))
    (m : OrderBook.OrderBookMessage) :
  snd (DataSource.trade_step lib msp json_msg) = Ok m ->
  exists s items p1 sec,
    dict_get "Channel" json_msg = Some (JStr s) /\
    OrderBook.get2 json_msg "Data" "Price" = Ok (JObj items) /\
    list_index (py_split "-" s) 1 = Ok p1 /\
    DataSource.last_key items msp = Some sec /\
    OrderBook.trade_message_from_exchange lib json_msg
      (Some [("trading_pair", py_capitalize p1 ++ "-" ++ sec)]) = Ok m.
Proof.
  unfold DataSource.trade_step, dict_getitem.
  destruct (dict_get "Channel" json_msg) as [ch|] eqn:Ech; cbn [bind]; [|discriminate].
  destruct ch as [| | |s| |]; cbn [bind]; try discriminate.
  destruct (OrderBook.get2 json_msg "Data" "Price") as [pr|] eqn:Ep; cbn [bind]; [|discriminate].
  destruct pr as [| | | | |items]; cbn [bind]; try discriminate.
  cbn [snd]. intros H.
  destruct (list_index (py_split "-" s) 1) as [p1|] eqn:Ei; cbn [bind] in H; [|discriminate].
  destruct (DataSource.last_key items msp) as [sec|] eqn:Ek; cbn [bind] in H; [|discriminate].
  exists s, items, p1, sec. auto.
Qed.

(** Extra X20. [listen_for_trades]: for a message on channel [c-p] whose
    [Price] object ends with the key [k], an output trade message has the trading
    pair [p.capitalize() + "-" + k], the price bound to [k], and the timestamp
    [Time] divided by 1000. *)
Theorem trade_step_pair_and_price (lib : PyLib) (msp : option string) (json_msg : list (string * json))
    (c p k : string) (items : list (string * json)) (v : json) (time : Q) (m : OrderBook.OrderBookMessage) :
  dict_get "Channel" json_msg = Some (JStr (c ++ "-" ++ p)) ->
  ~ In "-"%char (list_ascii_of_string c) ->
  ~ In "-"%char (list_ascii_of_string p) ->
  ~ In "-"%char (list_ascii_of_string k) ->
  OrderBook.get2 json_msg "Data" "Price" = Ok (JObj (app items [(k, v)])) ->
  dict_get "Time" json_msg = Some (JNum time) ->
  snd (DataSource.trade_step lib msp json_msg) = Ok m ->
  dict_get "trading_pair" (OrderBook.content m) = Some (JStr (py_capitalize p ++ "-" ++ k)) /\
  dict_get "price" (OrderBook.content m) = Some v /\
  OrderBook.timestamp m = Some (time * (1 # 1000)).
Proof.
  intros Hch Hc Hp Hk Hpr Ht H.
  destruct (trade_step_ok lib msp json_msg m H) as (s & items' & p1 & sec & Ech & Ep & Ei & Ek & Hm).
  rewrite Hch in Ech. injection Ech as <-. rewrite Hpr in Ep. injection Ep as <-.
  change (c ++ String "-" p) with (c ++ "-" ++ p) in Ei.
  rewrite (split_pair_exact c p Hc Hp) in Ei. injection Ei as <-.
  rewrite last_key_snoc in Ek. injection Ek as <-.
  apply (trade_message_fields lib json_msg (py_capitalize p ++ "-" ++ k) k items [] v time m); auto.
  rewrite split_pair_exact; [reflexivity | apply py_capitalize_no_dash; exact Hp | exact Hk].
Qed.

Lemma trade_message_empty_price (lib : PyLib) (msg0 : list (string * json)) (tp : string)
    (m : OrderBook.OrderBookMessage) :
  OrderBook.get2 msg0 "Data" "Price" = Ok (JObj []) ->
  OrderBook.trade_message_from_exchange lib msg0 (Some [("trading_pair", tp)]) <> Ok m.
Proof.
  intros Hp H.
  unfold OrderBook.trade_message_from_exchange in H. rewrite apply_trading_pair in H.
  rewrite !get2_set_other in H by discriminate. rewrite Hp in H.
  peel_bind H.
  match goal with E : OrderBook.select_price _ [] None = Ok _ |- _ => cbn in E; injection E as <- end.
  match goal with E : Err _ = Ok _ |- _ => discriminate E end.
Qed.

(** Extra X21. [listen_for_trades]: a trade message whose [Price] object is
    empty yields no trade message (it is logged as an error). *)
Theorem trade_empty_price_no_message (lib : PyLib) (msp : option string) (json_msg : list (string * json))
    (m : OrderBook.OrderBookMessage) :
  OrderBook.get2 json_msg "Data" "Price" = Ok (JObj []) ->
  snd (DataSource.trade_step lib msp json_msg) <> Ok m.
Proof.
  intros Hp H.
  destruct (trade_step_ok lib msp json_msg m H) as (s & items & p1 & sec & _ & Ep & _ & _ & Hm).
  rewrite Hp in Ep. injection Ep as <-.
  exact (trade_message_empty_price lib json_msg _ m Hp Hm).
Qed.

Lemma exchange_primary_currency_ok (tp : string) :
  DataSource.exchange_primary_currency_in_pair tp = Ok (hd "" (py_split "-" tp)).
Proof.
  unfold DataSource.exchange_primary_currency_in_pair, list_index.
  destruct (py_split "-" tp) eqn:E; [exfalso; exact (py_split_nonempty _ _ E) | reflexivity].
Qed.

Lemma subscribe_fold (tps : list string) (o : option string) :
  fold_left (fun acc trading_pair =>
               match acc with
               | Ok _ => p <- DataSource.exchange_primary_currency_in_pair trading_pair ;; Ok (Some p)
               | Err e => Err e
               end) tps (Ok o) =
  Ok (match tps with [] => o | _ :: _ => Some (hd "" (py_split "-" (last tps ""))) end).
Proof.
  revert o. induction tps as [|tp tps IH]; intros o; [reflexivity|].
  cbn [fold_left]. rewrite exchange_primary_currency_ok. cbn [bind]. rewrite IH.
  destruct tps; reflexivity.
Qed.

(** Extra X22. [_subscribe_channels]: the payloads subscribe to the ticker
    and order-book channels of the primary currency of the LAST trading pair
    only; with no trading pair the loop variable is unbound and the call fails. *)
Theorem subscribe_channels_last_pair (trading_pairs : list string) :
  DataSource._subscribe_channels trading_pairs =
  match trading_pairs with
  | [] => Err UnboundLocalError
  | _ :: _ =>
      let primary_symbol := hd "" (py_split "-" (last trading_pairs "")) in
      Ok [[("Event", JStr "Subscribe"); ("Data", JArr [JStr ("ticker-" ++ primary_symbol)])];
          [("Event", JStr "Subscribe"); ("Data", JArr [JStr ("orderbook-" ++ primary_symbol)])]]
  end.
Proof.
  unfold DataSource._subscribe_channels. rewrite subscribe_fold. cbn [bind].
  destruct trading_pairs; reflexivity.
Qed.

Lemma NoDup_map_pair {A B : Type} (x : A) (l : list B) : NoDup l -> NoDup (map (fun y => (x, y)) l).
Proof.
  induction 1 as [|y l Hy _ IH]; simpl; constructor; [|exact IH].
  intros Hin. apply in_map_iff in Hin. destruct Hin as [y' [Heq Hin]]. injection Heq as ->. contradiction.
Qed.

Lemma NoDup_list_prod {A B : Type} (l : list A) (l' : list B) :
  NoDup l -> NoDup l' -> NoDup (list_prod l l').
Proof.
  intros Hl Hl'. induction Hl as [|x l Hx _ IH]; simpl; [constructor|].
  apply NoDup_app; [apply NoDup_map_pair; exact Hl' | exact IH|].
  intros [a b] Hin Hin'. apply in_map_iff in Hin. destruct Hin as [y [Heq _]]. injection Heq as -> ->.
  apply in_prod_iff in Hin'. tauto.
Qed.

Lemma list_prod_nil_r {A B : Type} (l : list A) : @list_prod A B l [] = [].
Proof. induction l as [|x l IH]; simpl; [reflexivity | exact IH]. Qed.

Lemma build_mapping_fresh (codes : list (string * string)) :
  forall pre,
  NoDup (app pre codes) ->
  (forall k1 k2, In k1 (app pre codes) -> In k2 (app pre codes) ->
                 fst k1 ++ "-" ++ snd k1 = fst k2 ++ "-" ++ snd k2 -> k1 = k2) ->
  fold_left (fun acc pair => m <- acc ;; DataSource.bidict_setitem pair (fst pair ++ "-" ++ snd pair) m)
    codes (Ok (map (fun k => (k, fst k ++ "-" ++ snd k)) pre)) =
  Ok (map (fun k => (k, fst k ++ "-" ++ snd k)) (app pre codes)).
Proof.
  induction codes as [|k codes IH]; intros pre Hnd Hinj; cbn [fold_left].
  - rewrite app_nil_r. reflexivity.
  - cbn [bind]. unfold DataSource.bidict_setitem.
    assert (Hk : ~ In k pre).
    { intros Hin. apply NoDup_remove_2 in Hnd. apply Hnd. apply in_or_app. left. exact Hin. }
    assert (Hg : DataSource.bidict_get k (map (fun k => (k, fst k ++ "-" ++ snd k)) pre) = None).
    { apply bidict_get_none. rewrite map_map. simpl. rewrite map_id. exact Hk. }
    assert (Hi : DataSource.bidict_inv (fst k ++ "-" ++ snd k) (map (fun k => (k, fst k ++ "-" ++ snd k)) pre) = None).
    { apply bidict_inv_none. rewrite map_map. simpl. intros Hin. apply in_map_iff in Hin.
      destruct Hin as [k' [Heq Hin]]. apply Hk.
      rewrite <- (Hinj k' k); [exact Hin | apply in_or_app; left; exact Hin
                           | apply in_or_app; right; left; reflexivity | exact Heq]. }
    rewrite Hg, Hi.
    replace (app (map (fun k => (k, fst k ++ "-" ++ snd k)) pre) [(k, fst k ++ "-" ++ snd k)])
      with (map (fun k => (k, fst k ++ "-" ++ snd k)) (app pre [k])) by (rewrite map_app; reflexivity).
    rewrite IH; rewrite <- app_assoc; [reflexivity | exact Hnd | exact Hinj].
Qed.

Lemma pair_symbol_injective (P S : list string) :
  Forall (fun c => ~ In "-"%char (list_ascii_of_string c)) P ->
  Forall (fun c => ~ In "-"%char (list_ascii_of_string c)) S ->
  forall k1 k2, In k1 (list_prod P S) -> In k2 (list_prod P S) ->
  fst k1 ++ "-" ++ snd k1 = fst k2 ++ "-" ++ snd k2 -> k1 = k2.
Proof.
  intros HP HS [p1 s1] [p2 s2] H1 H2 Heq. cbn [fst snd] in Heq.
  apply in_prod_iff in H1, H2. rewrite Forall_forall in HP, HS.
  apply (f_equal (py_split "-")) in Heq.
  rewrite !split_pair_exact in Heq by (first [apply HP; tauto | apply HS; tauto]).
  injection Heq as -> ->. reflexivity.
Qed.

(** Extra X23. [fetch_trading_pairs] on a domain not yet initialised, with
    duplicate-free currency lists whose codes hold no dash: the result lists
    [primary-secondary] for every pair of the product, in order, and the
    domain's map is set to the corresponding bidict. *)
Theorem fetch_trading_pairs_fresh (st : DataSource.symbol_maps) (domain : string)
    (pf sf : DataSource.fetch) (P S : list string) :
  DataSource.trading_pair_symbol_map_ready st domain = false ->
  DataSource.bound_data pf = Some P ->
  DataSource.bound_data sf = Some S ->
  NoDup P -> NoDup S ->
  Forall (fun c => ~ In "-"%char (list_ascii_of_string c)) P ->
  Forall (fun c => ~ In "-"%char (list_ascii_of_string c)) S ->
  DataSource.fetch_trading_pairs st domain pf sf =
  (Ok (map (fun k => fst k ++ "-" ++ snd k) (list_prod P S)),
   dict_set domain (map (fun k => (k, fst k ++ "-" ++ snd k)) (list_prod P S)) st).
Proof.
  intros Hr HpP HsS HnP HnS HdP HdS.
  unfold DataSource.fetch_trading_pairs, DataSource.trading_pair_symbol_map,
    DataSource._init_trading_pair_symbols, DataSource.build_mapping.
  rewrite Hr, HpP, HsS.
  change (Ok [] : res DataSource.bidict) with (Ok (map (fun k : string * string => (k, fst k ++ "-" ++ snd k)) [])).
  rewrite (build_mapping_fresh (list_prod P S) [] (NoDup_list_prod P S HnP HnS)
             (pair_symbol_injective P S HdP HdS)).
  unfold dict_getitem. rewrite dict_get_set_same. cbn [bind]. rewrite map_map. reflexivity.
Qed.

(** Extra X24. [trading_pair_symbol_map]: when either currency list is empty,
    the call returns an empty map and stores it, and the domain is still not
    ready afterwards, so every later call requests the currencies again. *)
Theorem empty_codes_never_ready (st : DataSource.symbol_maps) (domain : string)
    (pf sf : DataSource.fetch) (P S : list string) :
  DataSource.trading_pair_symbol_map_ready st domain = false ->
  DataSource.bound_data pf = Some P ->
  DataSource.bound_data sf = Some S ->
  P = [] \/ S = [] ->
  DataSource.trading_pair_symbol_map st domain pf sf = (Ok [], dict_set domain [] st) /\
  DataSource.trading_pair_symbol_map_ready (dict_set domain [] st) domain = false.
Proof.
  intros Hr HpP HsS Hempty.
  assert (Hp : list_prod P S = []) by (destruct Hempty as [->| ->]; [reflexivity | apply list_prod_nil_r]).
  unfold DataSource.trading_pair_symbol_map, DataSource._init_trading_pair_symbols.
  rewrite Hr, HpP, HsS, Hp. cbn [DataSource.build_mapping fold_left].
  unfold dict_getitem. rewrite dict_get_set_same.
  split; [reflexivity|].
  unfold DataSource.trading_pair_symbol_map_ready. rewrite dict_get_set_same. reflexivity.
Qed.

Lemma trade_step_pair_and_price_witness :
  exists m,
    snd (DataSource.trade_step pylib None NormInputs.trade_event) = Ok m /\
    dict_get "trading_pair" (OrderBook.content m) = Some (JStr ("Xbt" ++ "-" ++ "aud")) /\
    dict_get "price" (OrderBook.content m) = Some (JStr "140") /\
    OrderBook.timestamp m = Some (1619870400000 * (1 # 1000)).
Proof.
  pose (m := match snd (DataSource.trade_step pylib None NormInputs.trade_event) with
             | Ok m => m
             | Err _ => {| OrderBook.message_type := OrderBook.TRADE; OrderBook.content := [];
                           OrderBook.timestamp := None |}
             end).
  assert (Hm : snd (DataSource.trade_step pylib None NormInputs.trade_event) = Ok m)
    by (vm_compute; reflexivity).
  exists m. split; [exact Hm|].
  exact (trade_step_pair_and_price pylib None NormInputs.trade_event "ticker" "xbt" "aud"
           [("usd", JStr "100")] (JStr "140") 1619870400000 m
           eq_refl (ltac:(vm_compute; intuition discriminate)) (ltac:(vm_compute; intuition discriminate))
           (ltac:(vm_compute; intuition discriminate)) eq_refl eq_refl Hm).
Defined.

Lemma trade_empty_price_no_message_witness :
  let msg := dict_set "Data" (JObj [("TradeGuid", JStr "5c8885cd-5384-4e05-b397-9f5119353e10");
                                    ("Pair", JStr "xbt"); ("Price", JObj []);
                                    ("Volume", JNum (1 # 2)); ("Side", JStr "Buy")])
               NormInputs.trade_event in
  OrderBook.get2 msg "Data" "Price" = Ok (JObj []) /\
  forall m, snd (DataSource.trade_step pylib (Some "aud") msg) <> Ok m.
Proof.
  intros msg. split; [vm_compute; reflexivity|].
  intros m. exact (trade_empty_price_no_message pylib (Some "aud") msg m (ltac:(vm_compute; reflexivity))).
Defined.

Lemma fetch_trading_pairs_fresh_witness :
  DataSource.fetch_trading_pairs [] "com"
    (DataSource.FetchResponse 200 (Ok ["Xbt"; "Eth"])) (DataSource.FetchResponse 200 (Ok ["Aud"; "Usd"])) =
  (Ok ["Xbt-Aud"; "Xbt-Usd"; "Eth-Aud"; "Eth-Usd"],
   [("com", [(("Xbt", "Aud"), "Xbt-Aud"); (("Xbt", "Usd"), "Xbt-Usd");
             (("Eth", "Aud"), "Eth-Aud"); (("Eth", "Usd"), "Eth-Usd")])]).
Proof.
  exact (fetch_trading_pairs_fresh [] "com"
           (DataSource.FetchResponse 200 (Ok ["Xbt"; "Eth"])) (DataSource.FetchResponse 200 (Ok ["Aud"; "Usd"]))
           ["Xbt"; "Eth"] ["Aud"; "Usd"] eq_refl eq_refl eq_refl
           (ltac:(repeat constructor; simpl; intuition discriminate))
           (ltac:(repeat constructor; simpl; intuition discriminate))
           (ltac:(repeat constructor; vm_compute; intuition discriminate))
           (ltac:(repeat constructor; vm_compute; intuition discriminate))).
Defined.

Lemma empty_codes_never_ready_witness :
  DataSource.trading_pair_symbol_map [] "com"
    (DataSource.FetchResponse 200 (Ok [])) (DataSource.FetchResponse 200 (Ok ["Aud"; "Usd"])) =
  (Ok [], [("com", [])]) /\
  DataSource.trading_pair_symbol_map_ready [("com", [])] "com" = false.
Proof.
  exact (empty_codes_never_ready [] "com"
           (DataSource.FetchResponse 200 (Ok [])) (DataSource.FetchResponse 200 (Ok ["Aud"; "Usd"]))
           [] ["Aud"; "Usd"] eq_refl eq_refl eq_refl (or_introl eq_refl)).
Defined.
